(** * Bar aggregation and position events: a shallow embedding

    The development follows three source files:
    - [inv_trader/model/position.pyx]: the [Position] ledger and its [apply];
    - [nautilus_trader/common/market.pyx]: [BarBuilder], [TickBarAggregator]
      and [TimeBarAggregator];
    - the position events module ([PositionOpened], [PositionChanged],
      [PositionClosed]) with their dictionary encoding.

    Python objects are mutated in place; here every method takes the object
    and returns the object after the call together with what the call
    produced: a value, or the exception it raised.  An exception does not undo
    the mutations made before it.

    The sources are Cython.  A function declared with a C return type and
    no [except] clause ([cdef void], [cpdef void], [cdef int]) cannot hand an
    exception to its caller: the exception is written out as unraisable and
    the function returns ([0] when it returns an [int]).  A function that
    returns an object, a [def] method, and a function declared [except *]
    raise as Python functions do. *)

From Stdlib Require Import ZArith QArith Qminmax Qround List Sorted String Ascii Lia Bool.
From Stdlib Require Import Qpower Qabs.
From stdpp Require Import gmap strings.
Import ListNotations.

Open Scope Z_scope.

(** ** Outcomes of a call *)

(** The exception classes the modelled code raises. *)
Inductive exn : Type :=
| TypeError
| ValueError
| OverflowError
| AssertionError
| KeyError
| AttributeError
| InvalidOperation.

Inductive outcome (A : Type) : Type :=
| Returned (a : A)
| Raised (e : exn).

Arguments Returned {A} a.
Arguments Raised {A} e.

Definition bind {A B : Type} (m : outcome A) (k : A -> outcome B) : outcome B :=
  match m with
  | Returned a => k a
  | Raised e => Raised e
  end.

Notation "'do' x <- m ; k" := (bind m (fun x => k))
  (at level 10, x name, m at level 100, k at level 200).

Definition is_returned {A : Type} (m : outcome A) : bool :=
  match m with Returned _ => true | Raised _ => false end.

(** A Python [assert]. *)
Definition py_assert (b : bool) : outcome unit :=
  if b then Returned tt else Raised AssertionError.

(** What the caller of a [void] function without an [except] clause gets
    from a run of its body: the function returns, whatever the body raised,
    and what the body had done before the raise stays done. *)
Definition unraisable {S : Type} (body : outcome unit * S) : outcome unit * S :=
  (Returned tt, snd body).

(** ** Python's [decimal.Decimal], finite values

    A finite [Decimal] is a sign, a coefficient and an exponent; its value is
    [(-1)^sign * coefficient * 10^exponent].  [Decimal("1.0")] and
    [Decimal("1.00")] are different objects that compare equal. *)
Module Decimal.

Record t : Type := mk { sign : bool; coefficient : N; exponent : Z }.

Definition to_Q (d : t) : Q :=
  let m := (inject_Z (Z.of_N (coefficient d)) * Qpower (10 # 1) (exponent d))%Q in
  if sign d then Qopp m else m.

(** [bool(d)]: a Decimal is falsy exactly when it is zero. *)
Definition truthy (d : t) : bool := negb (N.eqb (coefficient d) 0).

(** [d > 0]. *)
Definition is_positive (d : t) : bool := negb (sign d) && truthy d.

(** [a == b] compares values, not representations: both coefficients are
    brought to the smaller exponent. *)
Definition scaled (d : t) (e : Z) : Z :=
  let m := Z.of_N (coefficient d) * 10 ^ (exponent d - e) in
  if sign d then - m else m.

Definition eqb (a b : t) : bool :=
  let e := Z.min (exponent a) (exponent b) in
  Z.eqb (scaled a e) (scaled b e).

(** *** Digits *)

Definition is_digit (c : ascii) : bool :=
  (48 <=? N_of_ascii c)%N && (N_of_ascii c <=? 57)%N.

Definition digit_value (c : ascii) : N := (N_of_ascii c - 48)%N.

Definition digit_char (n : N) : ascii := ascii_of_N (48 + n).

Fixpoint all_digits (s : string) : bool :=
  match s with
  | EmptyString => true
  | String c r => is_digit c && all_digits r
  end.

(** [int(s)] for a string of digits, continuing from [acc]. *)
Fixpoint N_of_digits_from (acc : N) (s : string) : N :=
  match s with
  | EmptyString => acc
  | String c r => N_of_digits_from (10 * acc + digit_value c)%N r
  end.

Definition N_of_digits (s : string) : N := N_of_digits_from 0 s.

(** [str(n)] for a natural number: the digits are produced from the last
    one; [fuel] bounds the number of digits. *)
Fixpoint digits_before (fuel : nat) (n : N) (acc : string) : string :=
  match fuel with
  | O => acc
  | S fuel =>
    let acc := String (digit_char (n mod 10)) acc in
    if (n / 10 =? 0)%N then acc else digits_before fuel (n / 10) acc
  end.

Definition N_to_digits (n : N) : string :=
  digits_before (S (N.to_nat (N.size n))) n EmptyString.

Fixpoint zeros (k : nat) : string :=
  match k with
  | O => EmptyString
  | S k => String "0" (zeros k)
  end.

Fixpoint take (k : nat) (s : string) : string :=
  match k, s with
  | S k, String c r => String c (take k r)
  | _, _ => EmptyString
  end.

Fixpoint drop (k : nat) (s : string) : string :=
  match k, s with
  | S k, String _ r => drop k r
  | _, _ => s
  end.

(** The longest prefix of digits, and what follows it. *)
Fixpoint span_digits (s : string) : string * string :=
  match s with
  | String c r =>
    if is_digit c
    then let '(d, rest) := span_digits r in (String c d, rest)
    else (EmptyString, s)
  | EmptyString => (EmptyString, EmptyString)
  end.

(** *** [str(d)]

    The scientific string of the decimal arithmetic specification, as
    [Decimal.__str__] computes it. *)
Definition sign_str (neg : bool) : string := if neg then "-" else "".

(** ["%+d" % z]. *)
Definition signed_digits (z : Z) : string :=
  (if z <? 0 then "-" else "+") +:+ N_to_digits (Z.abs_N z).

Definition to_string (d : t) : string :=
  let ds := N_to_digits (coefficient d) in
  let len := Z.of_nat (String.length ds) in
  let leftdigits := exponent d + len in
  let dotplace :=
    if (exponent d <=? 0) && (-6 <? leftdigits) then leftdigits else 1 in
  let intpart :=
    if dotplace <=? 0 then "0"
    else if len <=? dotplace then ds +:+ zeros (Z.to_nat (dotplace - len))
    else take (Z.to_nat dotplace) ds in
  let fracpart :=
    if dotplace <=? 0 then "." +:+ zeros (Z.to_nat (- dotplace)) +:+ ds
    else if len <=? dotplace then ""
    else "." +:+ drop (Z.to_nat dotplace) ds in
  let exp :=
    if leftdigits =? dotplace then ""
    else "E" +:+ signed_digits (leftdigits - dotplace) in
  sign_str (sign d) +:+ intpart +:+ fracpart +:+ exp.

(** *** [Decimal(s)] for a numeric string

    An optional sign, digits with an optional point (at least one digit),
    and an optional exponent.  Anything else raises [InvalidOperation]:
    the non-finite literals ([Infinity], [NaN]), surrounding blanks and
    underscores, which Python also accepts, lie outside the finite
    decimals modelled here. *)
Definition split_sign (s : string) : bool * string :=
  match s with
  | String "-" r => (true, r)
  | String "+" r => (false, r)
  | _ => (false, s)
  end.

Definition parse_exponent (s : string) : option Z :=
  match s with
  | EmptyString => Some 0
  | String c r =>
    if Ascii.eqb c "E" || Ascii.eqb c "e"
    then
      let '(neg, r) := split_sign r in
      let '(ds, rest) := span_digits r in
      match ds, rest with
      | String _ _, EmptyString =>
        Some (if neg then - Z.of_N (N_of_digits ds) else Z.of_N (N_of_digits ds))
      | _, _ => None
      end
    else None
  end.

Definition of_string (s : string) : outcome t :=
  let '(neg, s) := split_sign s in
  let '(intpart, s) := span_digits s in
  let '(fracpart, s) :=
    match s with
    | String "." r => span_digits r
    | _ => (EmptyString, s)
    end in
  match intpart +:+ fracpart with
  | EmptyString => Raised InvalidOperation
  | String _ _ as ds =>
    match parse_exponent s with
    | None => Raised InvalidOperation
    | Some e =>
      Returned (mk neg (N_of_digits ds) (e - Z.of_nat (String.length fracpart)))
    end
  end.

(** [Decimal(n)] for an integer. *)
Definition of_int (z : Z) : t := mk (z <? 0) (Z.abs_N z) 0.

(** *** [format(d, ".5f")]

    The value is first rescaled to exponent [-places], rounding half to
    even (the default context's rounding), then written in fixed-point
    form; the point is written when digits follow it. *)
Definition rescale (places : N) (d : t) : t :=
  let target := - Z.of_N places in
  if target <=? exponent d
  then mk (sign d) (coefficient d * 10 ^ Z.to_N (exponent d - target))%N target
  else
    let unit := (10 ^ Z.to_N (target - exponent d))%N in
    let q := (coefficient d / unit)%N in
    let r := (coefficient d mod unit)%N in
    let up :=
      match (2 * r ?= unit)%N with
      | Gt => true
      | Eq => N.odd q
      | Lt => false
      end in
    mk (sign d) (if up then q + 1 else q)%N target.

Definition format_f (places : N) (d : t) : string :=
  let d := rescale places d in
  let ds := N_to_digits (coefficient d) in
  let len := Z.of_nat (String.length ds) in
  let dotplace := exponent d + len in
  let intpart :=
    if dotplace <? 0 then "0"
    else
      match take (Z.to_nat dotplace) ds with
      | EmptyString => "0"
      | String _ _ as i => i
      end in
  let fracpart :=
    if dotplace <? 0 then zeros (Z.to_nat (- dotplace)) +:+ ds
    else drop (Z.to_nat dotplace) ds in
  match fracpart with
  | EmptyString => sign_str (sign d) +:+ intpart
  | String _ _ => sign_str (sign d) +:+ intpart +:+ "." +:+ fracpart
  end.

End Decimal.

(** Shapes of numeric strings: a string that does not go on with a digit,
    and the part after the digits, which is nothing or an exponent. *)
Definition stops (s : string) : Prop :=
  match s with
  | EmptyString => True
  | String c _ => Decimal.is_digit c = false
  end.

Definition exponent_part (t : string) (e : Z) : Prop :=
  (t = "" /\ e = 0) \/ (t = "E" +:+ Decimal.signed_digits e).

(** ** [inv_trader/model/position.pyx] *)

(** Modelled from the spec: the enumerations of [inv_trader.model.enums] and
    the order events of [inv_trader.model.events], which are not part of the
    sources.  An order side is BUY or SELL; [UNKNOWN] is any other member
    (the [if]/[elif] on the side has no [else]).  A fill carries its order
    side, the quantity filled, its average price and its execution time,
    besides the identifiers [apply] records. *)
Module OrderSide.
Inductive t : Type := UNKNOWN | BUY | SELL.
End OrderSide.

Module MarketPosition.
Inductive t : Type := FLAT | LONG | SHORT.
End MarketPosition.

(** The fields of a fill event that [Position.apply] reads; times are
    integers. *)
Record Fill : Type := {
  order_side : OrderSide.t;
  filled_quantity : Z;
  average_price : Decimal.t;
  execution_time : Z;
  execution_id : string;
  execution_ticket : string
}.

(** [OrderEvent] and the two subclasses [apply] recognises; every other
    order event (submitted, accepted, rejected, ...) is [OrderOther]. *)
Inductive OrderEvent : Type :=
| OrderFilled (f : Fill)
| OrderPartiallyFilled (f : Fill)
| OrderOther (name : string).

Definition is_fill (e : OrderEvent) : bool :=
  match e with
  | OrderFilled _ | OrderPartiallyFilled _ => true
  | OrderOther _ => false
  end.

(** A C [int] (32 bits, two's complement): the range, the wrap-around of
    unchecked arithmetic, and the conversion of a Python integer argument. *)
Definition INT_MIN : Z := - 2 ^ 31.
Definition INT_MAX : Z := 2 ^ 31 - 1.

Definition in_c_int (z : Z) : bool := (INT_MIN <=? z) && (z <=? INT_MAX).

Definition wrap_int (z : Z) : Z := (z + 2 ^ 31) mod 2 ^ 32 - 2 ^ 31.

Definition to_c_int (z : Z) : outcome Z :=
  if (INT_MIN <=? z) && (z <=? INT_MAX) then Returned z else Raised OverflowError.

(** C's [abs] on an [int]. *)
Definition c_abs (z : Z) : Z := wrap_int (Z.abs z).

(** Modelled from the spec: [Precondition.positive] of
    [inv_trader.core.precondition], which is not part of the sources; the
    spec has the apply fail when the filled quantity or the average price is
    not positive. *)
Module Precondition.

Definition positive (ok : bool) : outcome unit :=
  if ok then Returned tt else Raised ValueError.

End Precondition.

Module Position.

Record t : Type := mk {
  _symbol : string;
  _id : string;
  _timestamp : Z;
  _relative_quantity : Z;
  _peak_quantity : Z;
  _entry_time : option Z;
  _exit_time : option Z;
  _average_entry_price : option Decimal.t;
  _average_exit_price : option Decimal.t;
  _events : list OrderEvent;
  _execution_ids : list string;
  _execution_tickets : list string
}.

Definition __init__ (symbol position_id : string) (timestamp : Z) : t :=
  {| _symbol := symbol;
     _id := position_id;
     _timestamp := timestamp;
     _relative_quantity := 0;
     _peak_quantity := 0;
     _entry_time := None;
     _exit_time := None;
     _average_entry_price := None;
     _average_exit_price := None;
     _events := [];
     _execution_ids := [];
     _execution_tickets := [] |}.

Definition quantity (self : t) : Z := c_abs (_relative_quantity self).
Definition peak_quantity (self : t) : Z := _peak_quantity self.
Definition average_entry_price (self : t) : option Decimal.t := _average_entry_price self.
Definition average_exit_price (self : t) : option Decimal.t := _average_exit_price self.
Definition events (self : t) : list OrderEvent := _events self.
Definition event_count (self : t) : nat := length (_events self).

Definition is_entered (self : t) : bool :=
  match _entry_time self with Some _ => true | None => false end.

Definition is_exited (self : t) : bool :=
  match _exit_time self with Some _ => true | None => false end.

Definition _calculate_market_position (self : t) : MarketPosition.t :=
  if 0 <? _relative_quantity self then MarketPosition.LONG
  else if _relative_quantity self <? 0 then MarketPosition.SHORT
  else MarketPosition.FLAT.

Definition market_position (self : t) : MarketPosition.t :=
  _calculate_market_position self.

Definition set_relative_quantity (q : Z) (self : t) : t :=
  mk (_symbol self) (_id self) (_timestamp self) q (_peak_quantity self)
     (_entry_time self) (_exit_time self) (_average_entry_price self)
     (_average_exit_price self) (_events self) (_execution_ids self)
     (_execution_tickets self).

Definition set_peak_quantity (q : Z) (self : t) : t :=
  mk (_symbol self) (_id self) (_timestamp self) (_relative_quantity self) q
     (_entry_time self) (_exit_time self) (_average_entry_price self)
     (_average_exit_price self) (_events self) (_execution_ids self)
     (_execution_tickets self).

Definition set_entry_time (x : option Z) (self : t) : t :=
  mk (_symbol self) (_id self) (_timestamp self) (_relative_quantity self)
     (_peak_quantity self) x (_exit_time self) (_average_entry_price self)
     (_average_exit_price self) (_events self) (_execution_ids self)
     (_execution_tickets self).

Definition set_exit_time (x : option Z) (self : t) : t :=
  mk (_symbol self) (_id self) (_timestamp self) (_relative_quantity self)
     (_peak_quantity self) (_entry_time self) x (_average_entry_price self)
     (_average_exit_price self) (_events self) (_execution_ids self)
     (_execution_tickets self).

Definition set_average_entry_price (x : option Decimal.t) (self : t) : t :=
  mk (_symbol self) (_id self) (_timestamp self) (_relative_quantity self)
     (_peak_quantity self) (_entry_time self) (_exit_time self) x
     (_average_exit_price self) (_events self) (_execution_ids self)
     (_execution_tickets self).

Definition set_average_exit_price (x : option Decimal.t) (self : t) : t :=
  mk (_symbol self) (_id self) (_timestamp self) (_relative_quantity self)
     (_peak_quantity self) (_entry_time self) (_exit_time self)
     (_average_entry_price self) x (_events self) (_execution_ids self)
     (_execution_tickets self).

Definition append_event (e : OrderEvent) (self : t) : t :=
  mk (_symbol self) (_id self) (_timestamp self) (_relative_quantity self)
     (_peak_quantity self) (_entry_time self) (_exit_time self)
     (_average_entry_price self) (_average_exit_price self)
     (_events self ++ [e]) (_execution_ids self) (_execution_tickets self).

Definition append_execution (i k : string) (self : t) : t :=
  mk (_symbol self) (_id self) (_timestamp self) (_relative_quantity self)
     (_peak_quantity self) (_entry_time self) (_exit_time self)
     (_average_entry_price self) (_average_exit_price self)
     (_events self) (_execution_ids self ++ [i]) (_execution_tickets self ++ [k]).

(** The body of [_update_position] once its arguments are bound and the two
    preconditions have passed. *)
Definition update_fields (side : OrderSide.t) (quantity : Z)
    (average_price : Decimal.t) (event_time : Z) (self : t) : t :=
  let self :=
    match side with
    | OrderSide.BUY =>
      set_relative_quantity (wrap_int (_relative_quantity self + quantity)) self
    | OrderSide.SELL =>
      set_relative_quantity (wrap_int (_relative_quantity self - quantity)) self
    | OrderSide.UNKNOWN => self
    end in
  (* Update the peak quantity *)
  let self :=
    if _peak_quantity self <? c_abs (_relative_quantity self)
    then set_peak_quantity (_relative_quantity self) self
    else self in
  (* Capture the first time of entry *)
  let self :=
    match _entry_time self with
    | None => set_entry_time (Some event_time) self
    | Some _ => self
    end in
  let self := set_average_entry_price (Some average_price) self in
  (* Position was exited *)
  if is_entered self && (_relative_quantity self =? 0)
  then set_average_exit_price (Some average_price) (set_exit_time (Some event_time) self)
  else self.

(** The statements of [_update_position], the quantity already a C [int]:
    a failed precondition raises before any field is written. *)
Definition _update_position_body (side : OrderSide.t) (quantity : Z)
    (average_price : Decimal.t) (event_time : Z) (self : t) : outcome unit * t :=
  match Precondition.positive (0 <? quantity) with
  | Raised e => (Raised e, self)
  | Returned _ =>
    match Precondition.positive (Decimal.is_positive average_price) with
    | Raised e => (Raised e, self)
    | Returned _ =>
      (Returned tt, update_fields side quantity average_price event_time self)
    end
  end.

(** [_update_position] is declared [cdef void] with no [except] clause: the
    [ValueError] of a precondition stops the body and goes no further. *)
Definition _update_position (side : OrderSide.t) (quantity : Z)
    (average_price : Decimal.t) (event_time : Z) (self : t) : outcome unit * t :=
  unraisable (_update_position_body side quantity average_price event_time self).

(** One of the two fill branches of [apply]: the filled quantity is
    converted to the C [int] that [_update_position] declares, an
    [OverflowError] of the conversion being raised here, in [apply]; after
    the call the execution's identifier and ticket are appended. *)
Definition apply_fill (f : Fill) (self : t) : outcome unit * t :=
  match to_c_int (filled_quantity f) with
  | Raised e => (Raised e, self)
  | Returned quantity =>
    match _update_position (order_side f) quantity
            (average_price f) (execution_time f) self with
    | (Raised e, self) => (Raised e, self)
    | (Returned _, self) =>
      (Returned tt, append_execution (execution_id f) (execution_ticket f) self)
    end
  end.

(** The statements of [apply]: the event is appended to the log first,
    then dispatched on its class. *)
Definition apply_body (event : OrderEvent) (self : t) : outcome unit * t :=
  let self := append_event event self in
  match event with
  | OrderFilled f => apply_fill f self
  | OrderPartiallyFilled f => apply_fill f self
  | OrderOther _ => (Raised TypeError, self)
  end.

(** [apply] is declared [cpdef void] with no [except] clause: the call
    returns, whatever its body raised. *)
Definition apply (event : OrderEvent) (self : t) : outcome unit * t :=
  unraisable (apply_body event self).

(** Applying a sequence of events, one call of [apply] after the other; a
    call that raised would end the run. *)
Fixpoint apply_all (events : list OrderEvent) (self : t) : outcome unit * t :=
  match events with
  | [] => (Returned tt, self)
  | e :: rest =>
    match apply e self with
    | (Raised x, self) => (Raised x, self)
    | (Returned _, self) => apply_all rest self
    end
  end.

#[global] Arguments apply : simpl never.

End Position.

(** ** [nautilus_trader/common/market.pyx] *)

(** Modelled from the spec: the enumerations [PriceType] and [BarStructure]
    and the classes [BarSpecification], [Tick] and [Bar] of
    [nautilus_trader.model], which are not part of the sources.  A bar
    specification is a price type, a structure and a step; the builder
    supports the price types BID, ASK and MID and the time aggregator the
    structures SECOND, MINUTE, HOUR and DAY, and each has an [else] branch
    for the other members.  A tick has a bid and an ask price, their sizes
    and a timestamp.  The sizes are C [int]s ([_get_volume] returns them as
    one); volumes and counts are integers; timestamps are integers. *)
Module PriceType.
Inductive t : Type := UNDEFINED | BID | ASK | MID | LAST.
End PriceType.

Module BarStructure.
Inductive t : Type := UNDEFINED | TICK | SECOND | MINUTE | HOUR | DAY.
End BarStructure.

Module BarSpecification.
Record t : Type := mk {
  step : Z;
  structure : BarStructure.t;
  price_type : PriceType.t
}.
End BarSpecification.

(** [Price] is declared in [nautilus_trader.model.objects], which is not part
    of the sources.  The builder uses two things of it: the constructor
    called on one number, [Price(x)], and the attribute [value].  Both are
    taken as an interface, so that whatever normalisation (rounding to a
    precision) the constructor performs stays inside [Price_new].  A price's
    value is an exact rational number. *)
Class PriceModel : Type := {
  Price : Type;
  Price_new : Q -> Price;
  Price_value : Price -> Q
}.

Definition Qltb (a b : Q) : bool := negb (Qle_bool b a).

Module Tick.
Section WithPrice.
Context {PM : PriceModel}.

Record t : Type := mk {
  bid : Price;
  ask : Price;
  bid_size : Z;
  ask_size : Z;
  timestamp : Z
}.
End WithPrice.
Arguments t {PM}.
End Tick.

(** Modelled from the spec: a [Bar] is four prices, a volume and a
    timestamp.  The builder constructs it with [checked=False], the flag
    that skips the constructor's validation: the bar stores the arguments as
    they are given, a [None] included. *)
Module Bar.
Section WithPrice.
Context {PM : PriceModel}.

Record t : Type := mk {
  open : option Price;
  high : option Price;
  low : option Price;
  close : option Price;
  volume : Z;
  timestamp : option Z
}.
End WithPrice.
Arguments t {PM}.
End Bar.

Module BarBuilder.
Section WithPrice.
Context {PM : PriceModel}.

Record t : Type := mk {
  bar_spec : BarSpecification.t;
  last_update : option Z;
  count : Z;
  _open : option Price;
  _high : option Price;
  _low : option Price;
  _close : option Price;
  _volume : Z;
  _use_previous_close : bool
}.

Definition __init__ (bar_spec : BarSpecification.t) (use_previous_close : bool) : t :=
  {| bar_spec := bar_spec;
     last_update := None;
     count := 0;
     _open := None;
     _high := None;
     _low := None;
     _close := None;
     _volume := 0;
     _use_previous_close := use_previous_close |}.

Definition _get_price (self : t) (tick : Tick.t) : outcome Price :=
  match BarSpecification.price_type (bar_spec self) with
  | PriceType.MID =>
    Returned (Price_new ((Price_value (Tick.bid tick) + Price_value (Tick.ask tick)) / 2)%Q)
  | PriceType.BID => Returned (Tick.bid tick)
  | PriceType.ASK => Returned (Tick.ask tick)
  | _ => Raised ValueError
  end.

(** [_get_volume] is declared [cdef int] with no [except] clause: it
    returns a C [int], the sum of the MID branch being formed in C [int]
    arithmetic before it is halved, and the [ValueError] of the last branch
    is not handed over: the function then returns 0. *)
Definition _get_volume (self : t) (tick : Tick.t) : outcome Z :=
  match BarSpecification.price_type (bar_spec self) with
  | PriceType.MID => Returned (wrap_int (Tick.bid_size tick + Tick.ask_size tick) / 2)
  | PriceType.BID => Returned (wrap_int (Tick.bid_size tick))
  | PriceType.ASK => Returned (wrap_int (Tick.ask_size tick))
  | _ => Returned 0
  end.

Definition set_prices (o h l c : option Price) (self : t) : t :=
  mk (bar_spec self) (last_update self) (count self) o h l c
     (_volume self) (_use_previous_close self).

Definition set_counters (upd : option Z) (n v : Z) (self : t) : t :=
  mk (bar_spec self) upd n (_open self) (_high self) (_low self) (_close self)
     v (_use_previous_close self).

(** The [if]/[elif]/[elif] of [update]: the builder after it, or the
    [AttributeError] of reading [.value] off a [None]. *)
Definition update_extremes (quote : Price) (self : t) : outcome t :=
  match _open self with
  | None =>
    (* Initialize builder *)
    Returned (set_prices (Some quote) (Some quote) (Some quote) (_close self) self)
  | Some _ =>
    match _high self with
    | None => Raised AttributeError
    | Some h =>
      if Qltb (Price_value h) (Price_value quote)
      then Returned (set_prices (_open self) (Some quote) (_low self) (_close self) self)
      else
        match _low self with
        | None => Raised AttributeError
        | Some l =>
          if Qltb (Price_value quote) (Price_value l)
          then Returned (set_prices (_open self) (_high self) (Some quote) (_close self) self)
          else Returned self
        end
    end
  end.

(** The statements of [update]. *)
Definition update_body (tick : Tick.t) (self : t) : outcome unit * t :=
  match _get_price self tick with
  | Raised e => (Raised e, self)
  | Returned quote =>
    match update_extremes quote self with
    | Raised e => (Raised e, self)
    | Returned self =>
      let self := set_prices (_open self) (_high self) (_low self) (Some quote) self in
      match _get_volume self tick with
      | Raised e => (Raised e, self)
      | Returned v =>
        (Returned tt,
         set_counters (Some (Tick.timestamp tick)) (count self + 1) (_volume self + v) self)
      end
    end
  end.

(** [update] is declared [cpdef void] with no [except] clause (the
    aggregators' [update] have [except *]): the [ValueError] of [_get_price]
    stops the body at its first statement and goes no further. *)
Definition update (tick : Tick.t) (self : t) : outcome unit * t :=
  unraisable (update_body tick self).

Definition _reset (self : t) : t :=
  let self :=
    if _use_previous_close self
    then set_prices (_close self) (_close self) (_close self) (_close self) self
    else set_prices None None None None self in
  set_counters (last_update self) 0 0 self.

Definition build (close_time : option Z) (self : t) : Bar.t * t :=
  let close_time :=
    match close_time with
    | None => last_update self
    | Some x => Some x
    end in
  let bar :=
    Bar.mk (_open self) (_high self) (_low self) (_close self) (_volume self) close_time in
  (bar, _reset self).

(** Updating with a sequence of ticks, one call of [update] after the
    other; a call that raised would end the run. *)
Fixpoint update_all (ticks : list Tick.t) (self : t) : outcome unit * t :=
  match ticks with
  | [] => (Returned tt, self)
  | tick :: rest =>
    match update tick self with
    | (Raised e, self) => (Raised e, self)
    | (Returned _, self) => update_all rest self
    end
  end.

End WithPrice.
Arguments t {PM}.
#[global] Arguments update : simpl never.
End BarBuilder.

(** [BarAggregator._handle_bar] logs the bar and passes it to the registered
    handler; the handler is the caller's, so an aggregator here records the
    bars it handed over, oldest first. *)
Module TickBarAggregator.
Section WithPrice.
Context {PM : PriceModel}.

Record t : Type := mk {
  _builder : BarBuilder.t;
  step : Z;
  handled : list Bar.t
}.

Definition __init__ (bar_spec : BarSpecification.t) : t :=
  {| _builder := BarBuilder.__init__ bar_spec false;
     step := BarSpecification.step bar_spec;
     handled := [] |}.

Definition _handle_bar (bar : Bar.t) (self : t) : t :=
  mk (_builder self) (step self) (handled self ++ [bar]).

(** [update] is declared [cpdef void ... except *]: it raises as a Python
    function does. *)
Definition update (tick : Tick.t) (self : t) : outcome unit * t :=
  match BarBuilder.update tick (_builder self) with
  | (Raised e, b) => (Raised e, mk b (step self) (handled self))
  | (Returned _, b) =>
    if BarBuilder.count b =? step self
    then
      let '(bar, b) := BarBuilder.build None b in
      (Returned tt, _handle_bar bar (mk b (step self) (handled self)))
    else (Returned tt, mk b (step self) (handled self))
  end.

(** Feeding a tick stream, stopping at the first exception. *)
Fixpoint update_all (ticks : list Tick.t) (self : t) : outcome unit * t :=
  match ticks with
  | [] => (Returned tt, self)
  | tick :: rest =>
    match update tick self with
    | (Raised e, self) => (Raised e, self)
    | (Returned _, self) => update_all rest self
    end
  end.

End WithPrice.
Arguments t {PM}.
End TickBarAggregator.

(** Python's [datetime].  An aware one carries a [tzinfo] and is an instant:
    microseconds since the epoch, UTC.  A naive one carries none and is the
    reading of a calendar and a clock, kept here as the microseconds that
    reading would be in UTC.  Ordering an aware and a naive [datetime]
    raises [TypeError].  The clock's time, the ticks' timestamps and the
    timer's events are aware, and given by their instant. *)
Inductive datetime : Type :=
| aware (instant : Z)
| naive (reading : Z).

Definition plus_timedelta (d : datetime) (delta : Z) : datetime :=
  match d with
  | aware t => aware (t + delta)
  | naive t => naive (t + delta)
  end.

(** Modelled from the spec: the [Clock] of [nautilus_trader.common.clock],
    which is not part of the sources.  The spec gives it [time_now], a
    repeating timer set with an interval and a start time, and, for the
    simulation clock, [advance_time(to)] with the due timer events popped in
    firing order; a timer fires first one interval after its start, and its
    next event time is of the kind of its start time.  A real-time clock
    ([is_test_clock = false]) fires its timers on a scheduler of its own. *)
Module Clock.

Record t : Type := mk {
  is_test_clock : bool;
  time : Z;
  next_event_time : option datetime;
  timer_interval : Z;
  pending : list Z
}.

Definition time_now (self : t) : Z := time self.

Definition set_timer (interval : Z) (start_time : datetime) (self : t) : t :=
  mk (is_test_clock self) (time self) (Some (plus_timedelta start_time interval))
     interval (pending self).

(** The [k] expiry times from [next] on, one interval apart. *)
Definition expiries (next interval : Z) (k : nat) : list Z :=
  map (fun j => next + Z.of_nat j * interval) (seq 0 k).

Definition advance_time (to_time : Z) (self : t) : t :=
  match next_event_time self with
  | Some (aware next) =>
    if next <=? to_time
    then
      let k := Z.to_nat ((to_time - next) / timer_interval self + 1) in
      mk (is_test_clock self) to_time
         (Some (aware (next + Z.of_nat k * timer_interval self)))
         (timer_interval self)
         (pending self ++ expiries next (timer_interval self) k)
    else
      mk (is_test_clock self) to_time (Some (aware next)) (timer_interval self)
         (pending self)
  | other => mk (is_test_clock self) to_time other (timer_interval self) (pending self)
  end.

Definition get_pending_events (self : t) : list Z * t :=
  (pending self,
   mk (is_test_clock self) (time self) (next_event_time self) (timer_interval self) []).

End Clock.

Definition MICROSECONDS_PER_SECOND : Z := 1000000.

Module TimeBarAggregator.
Section WithPrice.
Context {PM : PriceModel}.

Record t : Type := mk {
  _builder : BarBuilder.t;
  _clock : Clock.t;
  interval : Z;
  next_close : option datetime;
  handled : list Bar.t
}.

(** The [timedelta] of [_get_interval], in microseconds. *)
Definition _get_interval (bar_spec : BarSpecification.t) : outcome Z :=
  let step := BarSpecification.step bar_spec in
  match BarSpecification.structure bar_spec with
  | BarStructure.SECOND => Returned (1 * step * MICROSECONDS_PER_SECOND)
  | BarStructure.MINUTE => Returned (1 * step * (60 * MICROSECONDS_PER_SECOND))
  | BarStructure.HOUR => Returned (1 * step * (3600 * MICROSECONDS_PER_SECOND))
  | BarStructure.DAY => Returned (1 * step * (86400 * MICROSECONDS_PER_SECOND))
  | _ => Raised ValueError
  end.

(** [_get_start_time]: the clock's time with the fields below the bar
    structure's unit dropped.  The SECOND, MINUTE and HOUR branches pass
    [tzinfo=now.tzinfo] to the [datetime] they build; the DAY branch passes
    no [tzinfo], and its [datetime] is naive. *)
Definition _get_start_time (bar_spec : BarSpecification.t) (clock : Clock.t)
    : outcome datetime :=
  let now := Clock.time_now clock in
  match BarSpecification.structure bar_spec with
  | BarStructure.SECOND => Returned (aware (now - now mod MICROSECONDS_PER_SECOND))
  | BarStructure.MINUTE => Returned (aware (now - now mod (60 * MICROSECONDS_PER_SECOND)))
  | BarStructure.HOUR => Returned (aware (now - now mod (3600 * MICROSECONDS_PER_SECOND)))
  | BarStructure.DAY => Returned (naive (now - now mod (86400 * MICROSECONDS_PER_SECOND)))
  | _ => Raised ValueError
  end.

(** [_set_build_timer] is declared [cdef void] with no [except] clause: were
    one of its arguments to raise, the timer would not be set and the call
    would return all the same. *)
Definition _set_build_timer (bar_spec : BarSpecification.t) (clock : Clock.t) : Clock.t :=
  match _get_interval bar_spec with
  | Raised _ => clock
  | Returned i =>
    match _get_start_time bar_spec clock with
    | Raised _ => clock
    | Returned s => Clock.set_timer i s clock
    end
  end.

Definition __init__ (bar_spec : BarSpecification.t) (clock : Clock.t) : outcome t :=
  do i <- _get_interval bar_spec;
  let next_close := Clock.next_event_time clock in
  let clock := _set_build_timer bar_spec clock in
  Returned {| _builder := BarBuilder.__init__ bar_spec true;
              _clock := clock;
              interval := i;
              next_close := next_close;
              handled := [] |}.

Definition _handle_bar (bar : Bar.t) (self : t) : t :=
  mk (_builder self) (_clock self) (interval self) (next_close self) (handled self ++ [bar]).

Definition _build_event (event : Z) (self : t) : t :=
  let '(bar, b) := BarBuilder.build (Some event) (_builder self) in
  _handle_bar bar (mk b (_clock self) (interval self) (next_close self) (handled self)).

(** [update] is declared [cpdef void ... except *]: the [TypeError] of
    ordering a missing or a naive next event time against the tick's
    timestamp reaches the caller. *)
Definition update (tick : Tick.t) (self : t) : outcome unit * t :=
  match BarBuilder.update tick (_builder self) with
  | (Raised e, b) =>
    (Raised e, mk b (_clock self) (interval self) (next_close self) (handled self))
  | (Returned _, b) =>
    let self := mk b (_clock self) (interval self) (next_close self) (handled self) in
    if Clock.is_test_clock (_clock self)
    then
      match Clock.next_event_time (_clock self) with
      | None | Some (naive _) => (Raised TypeError, self)
      | Some (aware next) =>
        if next <=? Tick.timestamp tick
        then
          let clock := Clock.advance_time (Tick.timestamp tick) (_clock self) in
          let '(events, clock) := Clock.get_pending_events clock in
          let self :=
            mk (_builder self) clock (interval self) (next_close self) (handled self) in
          let self := fold_left (fun s event => _build_event event s) events self in
          (Returned tt,
           mk (_builder self) (_clock self) (interval self)
              (Clock.next_event_time (_clock self)) (handled self))
        else (Returned tt, self)
      end
    else (Returned tt, self)
  end.

(** Feeding a tick stream, stopping at the first exception. *)
Fixpoint update_all (ticks : list Tick.t) (self : t) : outcome unit * t :=
  match ticks with
  | [] => (Returned tt, self)
  | tick :: rest =>
    match update tick self with
    | (Raised e, self) => (Raised e, self)
    | (Returned _, self) => update_all rest self
    end
  end.

End WithPrice.
Arguments t {PM}.
End TimeBarAggregator.

(** [IndicatorUpdater.__init__] inspects the signature of the indicator's
    input method and maps every parameter name to the attribute that will be
    read off a tick or a bar.  The method is given here by the names of its
    parameters, in order: what [inspect.signature(...).parameters] iterates
    over.  A name missing from [param_map] raises [KeyError] at the lookup,
    and the object is not constructed.  [_include_self] is an attribute of
    the extension type, false until the loop sets it. *)
Module IndicatorUpdater.

Definition _BID : string := "bid".
Definition _ASK : string := "ask".
Definition _POINT : string := "point".
Definition _PRICE : string := "price".
Definition _MID : string := "mid".
Definition _OPEN : string := "open".
Definition _HIGH : string := "high".
Definition _LOW : string := "low".
Definition _CLOSE : string := "close".
Definition _VOLUME : string := "volume".
Definition _TIMESTAMP : string := "timestamp".

Definition param_map : gmap string string :=
  <[_BID := _BID]>
  (<[_ASK := _ASK]>
  (<[_POINT := _CLOSE]>
  (<[_PRICE := _CLOSE]>
  (<[_MID := _CLOSE]>
  (<[_OPEN := _OPEN]>
  (<[_HIGH := _HIGH]>
  (<[_LOW := _LOW]>
  (<[_CLOSE := _CLOSE]>
  (<[_TIMESTAMP := _TIMESTAMP]>
   ∅))))))))).

Record t : Type := mk {
  _include_self : bool;
  _input_params : list string;
  _outputs : list string
}.

(** The [for] loop over the parameters, from the state it has reached. *)
Fixpoint read_parameters (parameters : list string) (include_self : bool)
    (input_params : list string) : outcome (bool * list string) :=
  match parameters with
  | [] => Returned (include_self, input_params)
  | param :: rest =>
    if String.eqb param "self"
    then read_parameters rest true input_params
    else
      match param_map !! param with
      | Some name => read_parameters rest include_self (input_params ++ [name])
      | None => Raised KeyError
      end
  end.

Definition __init__ (parameters : list string) (outputs : option (list string))
    : outcome t :=
  do state <- read_parameters parameters false [];
  let outputs :=
    match outputs with
    | None | Some [] => ["value"]
    | Some ((_ :: _) as given) => given
    end in
  Returned {| _include_self := fst state;
              _input_params := snd state;
              _outputs := outputs |}.

End IndicatorUpdater.

(** [BarDataWrangler] reads bars off a Pandas DataFrame.  A DataFrame is
    taken here as its rows in index order, each a timestamp (the index) and
    the five numbers [open, high, low, close, volume] the row builders
    expect; the numbers are doubles, used through their product with an
    integer only.  [iloc[start:end]] cuts rows as a Python slice does.  The
    checks of [Condition] (of [nautilus_trader.core.correctness], not part of
    the sources) raise [ConditionFailed], as the docstrings say.  The
    integer arguments are declared [int]: a Python integer outside the range
    of a C [int] raises [OverflowError] when the call binds it, before the
    body runs. *)
Class DoubleModel : Type := {
  double : Type;
  double_times_int : double -> Z -> double
}.

Module Condition.

(** What a call returns, or which of the two exceptions it raised:
    [ConditionFailed] from a check, or the [OverflowError] of an argument
    that does not fit its C [int]. *)
Inductive checked (A : Type) : Type :=
| Passed (a : A)
| ConditionFailed
| ArgumentOverflow.

Arguments Passed {A} a.
Arguments ConditionFailed {A}.
Arguments ArgumentOverflow {A}.

Definition not_negative_int (value : Z) : checked unit :=
  if value <? 0 then ConditionFailed else Passed tt.

Definition positive_int (value : Z) : checked unit :=
  if 0 <? value then Passed tt else ConditionFailed.

Definition and_then {A B : Type} (m : checked A) (k : A -> checked B) : checked B :=
  match m with
  | Passed a => k a
  | ConditionFailed => ConditionFailed
  | ArgumentOverflow => ArgumentOverflow
  end.

(** An argument declared [int], bound to the Python integer [value]. *)
Definition int_argument (value : Z) : checked Z :=
  if in_c_int value then Passed value else ArgumentOverflow.

End Condition.

(** [rows[start:stop]] for a Python sequence: a negative bound counts from
    the end, and bounds beyond the ends are clipped; [None] stands for an
    omitted bound. *)
Definition slice_bound (n : Z) (default : Z) (bound : option Z) : Z :=
  match bound with
  | None => default
  | Some i => if i <? 0 then Z.max (i + n) 0 else Z.min i n
  end.

Definition py_slice {A : Type} (start stop : option Z) (rows : list A) : list A :=
  let n := Z.of_nat (length rows) in
  let first := slice_bound n 0 start in
  let last := slice_bound n n stop in
  firstn (Z.to_nat (last - first)) (skipn (Z.to_nat first) rows).

Module DataBar.
Section WithDouble.
Context {DM : DoubleModel}.

Record t : Type := mk {
  open : double;
  high : double;
  low : double;
  close : double;
  volume : double;
  timestamp : Z
}.
End WithDouble.
Arguments t {DM}.
End DataBar.

Module BarDataWrangler.
Section WithDouble.
Context {DM : DoubleModel}.

(** The [values] of one row: [open, high, low, close, volume]. *)
Record Row : Type := row {
  value0 : double;
  value1 : double;
  value2 : double;
  value3 : double;
  value4 : double
}.

Definition DataFrame : Type := list (Z * Row).

Record t : Type := mk {
  _precision : Z;
  _volume_multiple : Z;
  _data : DataFrame
}.

Definition __init__ (precision volume_multiple : Z) (data : option DataFrame)
    : Condition.checked t :=
  Condition.and_then (Condition.int_argument precision) (fun precision =>
  Condition.and_then (Condition.int_argument volume_multiple) (fun volume_multiple =>
  Condition.and_then (Condition.not_negative_int precision) (fun _ =>
  Condition.and_then (Condition.positive_int volume_multiple) (fun _ =>
  match data with
  | None => Condition.ConditionFailed
  | Some data => Condition.Passed (mk precision volume_multiple data)
  end)))).

Definition _build_databar (self : t) (values : Row) (timestamp : Z) : DataBar.t :=
  DataBar.mk (value0 values) (value1 values) (value2 values) (value3 values)
    (double_times_int (value4 values) (_volume_multiple self)) timestamp.

(** [list(map(self._build_databar, frame.values, pd.to_datetime(frame.index)))] *)
Definition databars_of (self : t) (frame : DataFrame) : list DataBar.t :=
  map (fun r => _build_databar self (snd r) (fst r)) frame.

Definition build_databars_all (self : t) : list DataBar.t :=
  databars_of self (_data self).

Definition build_databars_from (index : Z) (self : t) : Condition.checked (list DataBar.t) :=
  Condition.and_then (Condition.int_argument index) (fun index =>
  Condition.and_then (Condition.not_negative_int index) (fun _ =>
  Condition.Passed (databars_of self (py_slice (Some index) None (_data self))))).

Definition build_databars_range (start end_ : Z) (self : t)
    : Condition.checked (list DataBar.t) :=
  Condition.and_then (Condition.int_argument start) (fun start =>
  Condition.and_then (Condition.int_argument end_) (fun end_ =>
  Condition.and_then (Condition.not_negative_int start) (fun _ =>
  Condition.Passed (databars_of self (py_slice (Some start) (Some end_) (_data self)))))).

End WithDouble.
Arguments t {DM}.
Arguments DataFrame {DM}.
Arguments Row {DM}.
End BarDataWrangler.

(** ** The position events module *)

(** Modelled from the spec: a position side is FLAT, LONG or SHORT. *)
Module PositionSide.
Inductive t : Type := FLAT | LONG | SHORT.

Definition eqb (a b : t) : bool :=
  match a, b with
  | FLAT, FLAT | LONG, LONG | SHORT, SHORT => true
  | _, _ => false
  end.
End PositionSide.

(** The values a flat event dictionary holds. *)
Inductive PyVal : Type :=
| VStr (s : string)
| VInt (z : Z)
| VNone.

(** [values[key]]. *)
Definition getitem (values : gmap string PyVal) (key : string) : outcome PyVal :=
  match values !! key with
  | Some v => Returned v
  | None => Raised KeyError
  end.

(** An argument that has to be a [str]. *)
Definition as_str (v : PyVal) : outcome string :=
  match v with
  | VStr s => Returned s
  | _ => Raised TypeError
  end.

(** [Decimal(v)] for a value of the dictionary. *)
Definition Decimal_of (v : PyVal) : outcome Decimal.t :=
  match v with
  | VStr s => Decimal.of_string s
  | VInt z => Returned (Decimal.of_int z)
  | VNone => Raised TypeError
  end.

(** The truth value of a dictionary value. *)
Definition py_truthy (v : PyVal) : bool :=
  match v with
  | VStr EmptyString => false
  | VStr _ => true
  | VInt z => negb (z =? 0)
  | VNone => false
  end.

(** An argument received as a C [int64_t]. *)
Definition INT64_MIN : Z := - 2 ^ 63.
Definition INT64_MAX : Z := 2 ^ 63 - 1.

Definition in_int64 (z : Z) : bool := (INT64_MIN <=? z) && (z <=? INT64_MAX).

Definition to_int64 (v : PyVal) : outcome Z :=
  match v with
  | VInt z => if in_int64 z then Returned z else Raised OverflowError
  | _ => Raised TypeError
  end.

(** The identifier and value classes of [nautilus_trader.model] are not part
    of the sources.  The events use each through a pair of conversions, to
    the string stored in the dictionary ([.value], [.code], [str(...)],
    [to_str()], [to_str(...)] of a parser) and back (the constructor,
    [from_str_c], [from_str]); reading back what was written gives the
    object again. *)
Class StrCodec (A : Type) : Type := {
  to_str : A -> string;
  from_str : string -> outcome A;
  from_str_to_str : forall a : A, from_str (to_str a) = Returned a
}.

Class ModelTypes : Type := {
  TraderId : Type;
  StrategyId : Type;
  InstrumentId : Type;
  PositionId : Type;
  AccountId : Type;
  ClientOrderId : Type;
  Quantity : Type;
  EventPrice : Type;
  Currency : Type;
  Money : Type;
  UUID : Type;
  TraderId_codec :: StrCodec TraderId;
  StrategyId_codec :: StrCodec StrategyId;
  InstrumentId_codec :: StrCodec InstrumentId;
  PositionId_codec :: StrCodec PositionId;
  AccountId_codec :: StrCodec AccountId;
  ClientOrderId_codec :: StrCodec ClientOrderId;
  OrderSideParser :: StrCodec OrderSide.t;
  PositionSideParser :: StrCodec PositionSide.t;
  Quantity_codec :: StrCodec Quantity;
  EventPrice_codec :: StrCodec EventPrice;
  Currency_codec :: StrCodec Currency;
  Money_codec :: StrCodec Money;
  UUID_codec :: StrCodec UUID
}.

(** [C(values[key])] for a class [C] built from a string. *)
Definition from_value {A : Type} `{StrCodec A} (v : PyVal) : outcome A :=
  do s <- as_str v; from_str s.

Inductive EventClass : Type := Opened | Changed | Closed.

(** [type(obj).__name__]. *)
Definition class_name (c : EventClass) : string :=
  match c with
  | Opened => "PositionOpened"
  | Changed => "PositionChanged"
  | Closed => "PositionClosed"
  end.

Module PositionEvent.
Section WithModel.
Context {MT : ModelTypes}.

Record t : Type := mk {
  class : EventClass;
  trader_id : TraderId;
  strategy_id : StrategyId;
  instrument_id : InstrumentId;
  position_id : PositionId;
  account_id : AccountId;
  from_order : ClientOrderId;
  entry : OrderSide.t;
  side : PositionSide.t;
  net_qty : Decimal.t;
  quantity : Quantity;
  peak_qty : Quantity;
  last_qty : Quantity;
  last_px : EventPrice;
  currency : Currency;
  avg_px_open : Decimal.t;
  avg_px_close : option Decimal.t;
  realized_points : Decimal.t;
  realized_return : Decimal.t;
  realized_pnl : Money;
  ts_opened_ns : Z;
  ts_closed_ns : Z;
  duration_ns : Z;
  id : UUID;
  timestamp_ns : Z
}.

(** [PositionEvent.__init__], reached through [super().__init__] with the
    subclass as the object's class. *)
Definition __init__ (cls : EventClass)
    (trader_id : TraderId) (strategy_id : StrategyId)
    (instrument_id : InstrumentId) (position_id : PositionId)
    (account_id : AccountId) (from_order : ClientOrderId)
    (entry : OrderSide.t) (side : PositionSide.t) (net_qty : Decimal.t)
    (quantity peak_qty last_qty : Quantity) (last_px : EventPrice)
    (currency : Currency) (avg_px_open : Decimal.t)
    (avg_px_close : option Decimal.t)
    (realized_points realized_return : Decimal.t) (realized_pnl : Money)
    (ts_opened_ns ts_closed_ns duration_ns : Z) (event_id : UUID)
    (timestamp_ns : Z) : t :=
  mk cls trader_id strategy_id instrument_id position_id account_id from_order
     entry side net_qty quantity peak_qty last_qty last_px currency
     avg_px_open avg_px_close realized_points realized_return realized_pnl
     ts_opened_ns ts_closed_ns duration_ns event_id timestamp_ns.

(** The dictionary the three [to_dict_c] write: they are the same text. *)
Definition to_dict_c (obj : t) : gmap string PyVal :=
  <["type" := VStr (class_name (class obj))]>
  (<["trader_id" := VStr (to_str (trader_id obj))]>
  (<["strategy_id" := VStr (to_str (strategy_id obj))]>
  (<["instrument_id" := VStr (to_str (instrument_id obj))]>
  (<["position_id" := VStr (to_str (position_id obj))]>
  (<["account_id" := VStr (to_str (account_id obj))]>
  (<["from_order" := VStr (to_str (from_order obj))]>
  (<["entry" := VStr (to_str (entry obj))]>
  (<["side" := VStr (to_str (side obj))]>
  (<["net_qty" := VStr (Decimal.to_string (net_qty obj))]>
  (<["quantity" := VStr (to_str (quantity obj))]>
  (<["peak_qty" := VStr (to_str (peak_qty obj))]>
  (<["last_qty" := VStr (to_str (last_qty obj))]>
  (<["last_px" := VStr (to_str (last_px obj))]>
  (<["currency" := VStr (to_str (currency obj))]>
  (<["avg_px_open" := VStr (Decimal.to_string (avg_px_open obj))]>
  (<["avg_px_close" :=
       match avg_px_close obj with
       | Some d => if Decimal.truthy d then VStr (Decimal.to_string d) else VNone
       | None => VNone
       end]>
  (<["realized_points" := VStr (Decimal.to_string (realized_points obj))]>
  (<["realized_return" := VStr (Decimal.format_f 5 (realized_return obj))]>
  (<["realized_pnl" := VStr (to_str (realized_pnl obj))]>
  (<["ts_opened_ns" := VInt (ts_opened_ns obj)]>
  (<["ts_closed_ns" := VInt (ts_closed_ns obj)]>
  (<["duration_ns" := VInt (duration_ns obj)]>
  (<["event_id" := VStr (to_str (id obj))]>
  (<["timestamp_ns" := VInt (timestamp_ns obj)]>
   ∅)))))))))))))))))))))))).

End WithModel.
Arguments t {MT}.
End PositionEvent.

(** The attributes of a [Position] (of [nautilus_trader.model.position]) and
    of an [OrderFilled] that the [create_c] factories read. *)
Module ModelPosition.
Section WithModel.
Context {MT : ModelTypes}.

Record t : Type := mk {
  trader_id : TraderId;
  strategy_id : StrategyId;
  instrument_id : InstrumentId;
  id : PositionId;
  account_id : AccountId;
  from_order : ClientOrderId;
  entry : OrderSide.t;
  side : PositionSide.t;
  net_qty : Decimal.t;
  quantity : Quantity;
  peak_qty : Quantity;
  quote_currency : Currency;
  avg_px_open : Decimal.t;
  avg_px_close : option Decimal.t;
  realized_points : Decimal.t;
  realized_return : Decimal.t;
  realized_pnl : Money;
  ts_opened_ns : Z;
  ts_closed_ns : Z;
  duration_ns : Z
}.
End WithModel.
Arguments t {MT}.
End ModelPosition.

Module ModelOrderFilled.
Section WithModel.
Context {MT : ModelTypes}.

Record t : Type := mk {
  last_qty : Quantity;
  last_px : EventPrice
}.
End WithModel.
Arguments t {MT}.
End ModelOrderFilled.

(** [C(values[key])] and [Decimal(values[key])]. *)
Definition field {A : Type} `{StrCodec A} (values : gmap string PyVal) (key : string)
    : outcome A :=
  do v <- getitem values key; from_value v.

Definition decimal_field (values : gmap string PyVal) (key : string) : outcome Decimal.t :=
  do v <- getitem values key; Decimal_of v.

(** The [Condition.not_none] checks that open the [create_c] factories reject
    a [None] argument; the arguments here are objects by their type. *)
Module PositionOpened.
Section WithModel.
Context {MT : ModelTypes}.

Definition __init__
    (trader_id : TraderId) (strategy_id : StrategyId)
    (instrument_id : InstrumentId) (position_id : PositionId)
    (account_id : AccountId) (from_order : ClientOrderId)
    (entry : OrderSide.t) (side : PositionSide.t) (net_qty : Decimal.t)
    (quantity peak_qty last_qty : Quantity) (last_px : EventPrice)
    (currency : Currency) (avg_px_open : Decimal.t)
    (realized_points realized_return : Decimal.t) (realized_pnl : Money)
    (ts_opened_ns : PyVal) (event_id : UUID) (timestamp_ns : PyVal)
    : outcome PositionEvent.t :=
  do ts_opened_ns <- to_int64 ts_opened_ns;
  do timestamp_ns <- to_int64 timestamp_ns;
  (* Design-time check: position side matches event *)
  do _ <- py_assert (negb (PositionSide.eqb side PositionSide.FLAT));
  Returned (PositionEvent.__init__ Opened
    trader_id strategy_id instrument_id position_id account_id from_order
    entry side net_qty quantity peak_qty last_qty last_px currency
    avg_px_open None realized_points realized_return realized_pnl
    ts_opened_ns 0 0 event_id timestamp_ns).

Definition create_c (position : ModelPosition.t) (fill : ModelOrderFilled.t)
    (event_id : UUID) (timestamp_ns : Z) : outcome PositionEvent.t :=
  __init__
    (ModelPosition.trader_id position)
    (ModelPosition.strategy_id position)
    (ModelPosition.instrument_id position)
    (ModelPosition.id position)
    (ModelPosition.account_id position)
    (ModelPosition.from_order position)
    (ModelPosition.entry position)
    (ModelPosition.side position)
    (ModelPosition.net_qty position)
    (ModelPosition.quantity position)
    (ModelPosition.peak_qty position)
    (ModelOrderFilled.last_qty fill)
    (ModelOrderFilled.last_px fill)
    (ModelPosition.quote_currency position)
    (ModelPosition.avg_px_open position)
    (ModelPosition.realized_points position)
    (ModelPosition.realized_return position)
    (ModelPosition.realized_pnl position)
    (VInt (ModelPosition.ts_opened_ns position))
    event_id
    (VInt timestamp_ns).

Definition from_dict_c (values : gmap string PyVal) : outcome PositionEvent.t :=
  do trader_id <- field values "trader_id";
  do strategy_id <- field values "strategy_id";
  do instrument_id <- field values "instrument_id";
  do position_id <- field values "position_id";
  do account_id <- field values "account_id";
  do from_order <- field values "from_order";
  do entry <- field values "entry";
  do side <- field values "side";
  do net_qty <- decimal_field values "net_qty";
  do quantity <- field values "quantity";
  do peak_qty <- field values "peak_qty";
  do last_qty <- field values "last_qty";
  do last_px <- field values "last_px";
  do currency <- field values "currency";
  do avg_px_open <- decimal_field values "avg_px_open";
  do realized_points <- decimal_field values "realized_points";
  do realized_return <- decimal_field values "realized_return";
  do realized_pnl <- field values "realized_pnl";
  do ts_opened_ns <- getitem values "ts_opened_ns";
  do event_id <- field values "event_id";
  do timestamp_ns <- getitem values "timestamp_ns";
  __init__ trader_id strategy_id instrument_id position_id account_id from_order
    entry side net_qty quantity peak_qty last_qty last_px currency
    avg_px_open realized_points realized_return realized_pnl
    ts_opened_ns event_id timestamp_ns.

Definition to_dict_c (obj : PositionEvent.t) : gmap string PyVal :=
  PositionEvent.to_dict_c obj.

Definition create := create_c.
Definition from_dict := from_dict_c.
Definition to_dict := to_dict_c.

End WithModel.
End PositionOpened.

Module PositionChanged.
Section WithModel.
Context {MT : ModelTypes}.

Definition __init__
    (trader_id : TraderId) (strategy_id : StrategyId)
    (instrument_id : InstrumentId) (position_id : PositionId)
    (account_id : AccountId) (from_order : ClientOrderId)
    (entry : OrderSide.t) (side : PositionSide.t) (net_qty : Decimal.t)
    (quantity peak_qty last_qty : Quantity) (last_px : EventPrice)
    (currency : Currency) (avg_px_open : Decimal.t)
    (avg_px_close : option Decimal.t)
    (realized_points realized_return : Decimal.t) (realized_pnl : Money)
    (ts_opened_ns : PyVal) (event_id : UUID) (timestamp_ns : PyVal)
    : outcome PositionEvent.t :=
  do ts_opened_ns <- to_int64 ts_opened_ns;
  do timestamp_ns <- to_int64 timestamp_ns;
  (* Design-time check: position side matches event *)
  do _ <- py_assert (negb (PositionSide.eqb side PositionSide.FLAT));
  Returned (PositionEvent.__init__ Changed
    trader_id strategy_id instrument_id position_id account_id from_order
    entry side net_qty quantity peak_qty last_qty last_px currency
    avg_px_open avg_px_close realized_points realized_return realized_pnl
    ts_opened_ns 0 0 event_id timestamp_ns).

Definition create_c (position : ModelPosition.t) (fill : ModelOrderFilled.t)
    (event_id : UUID) (timestamp_ns : Z) : outcome PositionEvent.t :=
  __init__
    (ModelPosition.trader_id position)
    (ModelPosition.strategy_id position)
    (ModelPosition.instrument_id position)
    (ModelPosition.id position)
    (ModelPosition.account_id position)
    (ModelPosition.from_order position)
    (ModelPosition.entry position)
    (ModelPosition.side position)
    (ModelPosition.net_qty position)
    (ModelPosition.quantity position)
    (ModelPosition.peak_qty position)
    (ModelOrderFilled.last_qty fill)
    (ModelOrderFilled.last_px fill)
    (ModelPosition.quote_currency position)
    (ModelPosition.avg_px_open position)
    (ModelPosition.avg_px_close position)
    (ModelPosition.realized_points position)
    (ModelPosition.realized_return position)
    (ModelPosition.realized_pnl position)
    (VInt (ModelPosition.ts_opened_ns position))
    event_id
    (VInt timestamp_ns).

Definition from_dict_c (values : gmap string PyVal) : outcome PositionEvent.t :=
  do avg_px_close_value <- getitem values "avg_px_close";
  do avg_px_close <-
    (if py_truthy avg_px_close_value
     then do d <- Decimal_of avg_px_close_value; Returned (Some d)
     else Returned None);
  do trader_id <- field values "trader_id";
  do strategy_id <- field values "strategy_id";
  do instrument_id <- field values "instrument_id";
  do position_id <- field values "position_id";
  do account_id <- field values "account_id";
  do from_order <- field values "from_order";
  do entry <- field values "entry";
  do side <- field values "side";
  do net_qty <- decimal_field values "net_qty";
  do quantity <- field values "quantity";
  do peak_qty <- field values "peak_qty";
  do last_qty <- field values "last_qty";
  do last_px <- field values "last_px";
  do currency <- field values "currency";
  do avg_px_open <- decimal_field values "avg_px_open";
  do realized_points <- decimal_field values "realized_points";
  do realized_return <- decimal_field values "realized_return";
  do realized_pnl <- field values "realized_pnl";
  do ts_opened_ns <- getitem values "ts_opened_ns";
  do event_id <- field values "event_id";
  do timestamp_ns <- getitem values "timestamp_ns";
  __init__ trader_id strategy_id instrument_id position_id account_id from_order
    entry side net_qty quantity peak_qty last_qty last_px currency
    avg_px_open avg_px_close realized_points realized_return realized_pnl
    ts_opened_ns event_id timestamp_ns.

Definition to_dict_c (obj : PositionEvent.t) : gmap string PyVal :=
  PositionEvent.to_dict_c obj.

Definition create := create_c.
Definition from_dict := from_dict_c.
Definition to_dict := to_dict_c.

End WithModel.
End PositionChanged.

Module PositionClosed.
Section WithModel.
Context {MT : ModelTypes}.

(** [avg_px_close] is declared [not None]: a [None] is refused when the
    arguments are bound, before the body runs. *)
Definition __init__
    (trader_id : TraderId) (strategy_id : StrategyId)
    (instrument_id : InstrumentId) (position_id : PositionId)
    (account_id : AccountId) (from_order : ClientOrderId)
    (entry : OrderSide.t) (side : PositionSide.t) (net_qty : Decimal.t)
    (quantity peak_qty last_qty : Quantity) (last_px : EventPrice)
    (currency : Currency) (avg_px_open : Decimal.t)
    (avg_px_close : option Decimal.t)
    (realized_points realized_return : Decimal.t) (realized_pnl : Money)
    (ts_opened_ns ts_closed_ns duration_ns : PyVal) (event_id : UUID)
    (timestamp_ns : PyVal) : outcome PositionEvent.t :=
  do avg_px_close <-
    match avg_px_close with
    | Some d => Returned d
    | None => Raised TypeError
    end;
  do ts_opened_ns <- to_int64 ts_opened_ns;
  do ts_closed_ns <- to_int64 ts_closed_ns;
  do duration_ns <- to_int64 duration_ns;
  do timestamp_ns <- to_int64 timestamp_ns;
  (* Design-time check: position side matches event *)
  do _ <- py_assert (PositionSide.eqb side PositionSide.FLAT);
  Returned (PositionEvent.__init__ Closed
    trader_id strategy_id instrument_id position_id account_id from_order
    entry side net_qty quantity peak_qty last_qty last_px currency
    avg_px_open (Some avg_px_close) realized_points realized_return realized_pnl
    ts_opened_ns ts_closed_ns duration_ns event_id timestamp_ns).

Definition create_c (position : ModelPosition.t) (fill : ModelOrderFilled.t)
    (event_id : UUID) (timestamp_ns : Z) : outcome PositionEvent.t :=
  __init__
    (ModelPosition.trader_id position)
    (ModelPosition.strategy_id position)
    (ModelPosition.instrument_id position)
    (ModelPosition.id position)
    (ModelPosition.account_id position)
    (ModelPosition.from_order position)
    (ModelPosition.entry position)
    (ModelPosition.side position)
    (ModelPosition.net_qty position)
    (ModelPosition.quantity position)
    (ModelPosition.peak_qty position)
    (ModelOrderFilled.last_qty fill)
    (ModelOrderFilled.last_px fill)
    (ModelPosition.quote_currency position)
    (ModelPosition.avg_px_open position)
    (ModelPosition.avg_px_close position)
    (ModelPosition.realized_points position)
    (ModelPosition.realized_return position)
    (ModelPosition.realized_pnl position)
    (VInt (ModelPosition.ts_opened_ns position))
    (VInt (ModelPosition.ts_closed_ns position))
    (VInt (ModelPosition.duration_ns position))
    event_id
    (VInt timestamp_ns).

Definition from_dict_c (values : gmap string PyVal) : outcome PositionEvent.t :=
  do trader_id <- field values "trader_id";
  do strategy_id <- field values "strategy_id";
  do instrument_id <- field values "instrument_id";
  do position_id <- field values "position_id";
  do account_id <- field values "account_id";
  do from_order <- field values "from_order";
  do entry <- field values "entry";
  do side <- field values "side";
  do net_qty <- decimal_field values "net_qty";
  do quantity <- field values "quantity";
  do peak_qty <- field values "peak_qty";
  do last_qty <- field values "last_qty";
  do last_px <- field values "last_px";
  do currency <- field values "currency";
  do avg_px_open <- decimal_field values "avg_px_open";
  do avg_px_close <- decimal_field values "avg_px_close";
  do realized_points <- decimal_field values "realized_points";
  do realized_return <- decimal_field values "realized_return";
  do realized_pnl <- field values "realized_pnl";
  do ts_opened_ns <- getitem values "ts_opened_ns";
  do ts_closed_ns <- getitem values "ts_closed_ns";
  do duration_ns <- getitem values "duration_ns";
  do event_id <- field values "event_id";
  do timestamp_ns <- getitem values "timestamp_ns";
  __init__ trader_id strategy_id instrument_id position_id account_id from_order
    entry side net_qty quantity peak_qty last_qty last_px currency
    avg_px_open (Some avg_px_close) realized_points realized_return realized_pnl
    ts_opened_ns ts_closed_ns duration_ns event_id timestamp_ns.

Definition to_dict_c (obj : PositionEvent.t) : gmap string PyVal :=
  PositionEvent.to_dict_c obj.

Definition create := create_c.
Definition from_dict := from_dict_c.
Definition to_dict := to_dict_c.

End WithModel.
End PositionClosed.

(** ** The words of the specification, and invariants

    The definitions below are not translations of code.  Some follow the
    specification's sentences (the net quantity and its peak, the weighted
    average price, the bar of a group of ticks, bars without gaps, events
    equal field for field); the theorems compare the code with them.  The
    others are the invariants the proofs carry. *)

(** Position: the signed quantity a fill contributes, the net quantity after
    a sequence of fills, the largest magnitude the net quantity has reached,
    and the quantity-weighted average of the fill prices. *)
Definition signed_quantity (f : Fill) : Z :=
  match order_side f with
  | OrderSide.BUY => filled_quantity f
  | OrderSide.SELL => - filled_quantity f
  | OrderSide.UNKNOWN => 0
  end.

Definition net_quantity (fills : list Fill) : Z :=
  fold_left (fun acc f => acc + signed_quantity f) fills 0.

Fixpoint peak_from (net peak : Z) (fills : list Fill) : Z :=
  match fills with
  | [] => peak
  | f :: rest =>
    let net := net + signed_quantity f in
    peak_from net (Z.max peak (Z.abs net)) rest
  end.

Definition peak_of_fills (fills : list Fill) : Z := peak_from 0 0 fills.

Definition total_quantity (fills : list Fill) : Z :=
  fold_left (fun acc f => acc + filled_quantity f) fills 0.

Definition total_value (fills : list Fill) : Q :=
  fold_left (fun acc f =>
    (acc + inject_Z (filled_quantity f) * Decimal.to_Q (average_price f))%Q) fills 0%Q.

Definition weighted_average_price (fills : list Fill) : Q :=
  (total_value fills / inject_Z (total_quantity fills))%Q.

(** Bars: the price and size a tick contributes under a supported price
    type, and the bar of a group of ticks: it opens at the first price,
    closes at the last, its high and low are the extremes (a tie keeps the
    earlier price), its volume is the sum of the sizes and its timestamp is
    the last tick's. *)
Definition supported (pt : PriceType.t) : bool :=
  match pt with
  | PriceType.BID | PriceType.ASK | PriceType.MID => true
  | _ => false
  end.

Section BarsInWords.
Context {PM : PriceModel}.

Definition midpoint (tick : Tick.t) : Q :=
  ((Price_value (Tick.bid tick) + Price_value (Tick.ask tick)) / 2)%Q.

Definition derived_price (pt : PriceType.t) (tick : Tick.t) : Price :=
  match pt with
  | PriceType.MID => Price_new (midpoint tick)
  | PriceType.ASK => Tick.ask tick
  | _ => Tick.bid tick
  end.

Definition derived_size (pt : PriceType.t) (tick : Tick.t) : Z :=
  match pt with
  | PriceType.MID => (Tick.bid_size tick + Tick.ask_size tick) / 2
  | PriceType.ASK => Tick.ask_size tick
  | _ => Tick.bid_size tick
  end.

Definition higher (h p : Price) : Price :=
  if Qltb (Price_value h) (Price_value p) then p else h.

Definition lower (l p : Price) : Price :=
  if Qltb (Price_value p) (Price_value l) then p else l.

Definition bar_of_ticks (pt : PriceType.t) (ticks : list Tick.t) : Bar.t :=
  match ticks with
  | [] => Bar.mk None None None None 0 None
  | first :: rest =>
    let p0 := derived_price pt first in
    {| Bar.open := Some p0;
       Bar.high := Some (fold_left (fun h t => higher h (derived_price pt t)) rest p0);
       Bar.low := Some (fold_left (fun l t => lower l (derived_price pt t)) rest p0);
       Bar.close := Some (derived_price pt (List.last ticks first));
       Bar.volume := fold_left (fun v t => v + derived_size pt t) ticks 0;
       Bar.timestamp := Some (Tick.timestamp (List.last ticks first)) |}
  end.

(** The builder that has collected [ticks] since its prices were cleared. *)
Definition collecting (spec : BarSpecification.t) (use_previous_close : bool)
    (last_update : option Z) (ticks : list Tick.t) : BarBuilder.t :=
  match ticks with
  | [] => BarBuilder.mk spec last_update 0 None None None None 0 use_previous_close
  | _ :: _ =>
    let bar := bar_of_ticks (BarSpecification.price_type spec) ticks in
    BarBuilder.mk spec (Bar.timestamp bar) (Z.of_nat (length ticks))
      (Bar.open bar) (Bar.high bar) (Bar.low bar) (Bar.close bar) (Bar.volume bar)
      use_previous_close
  end.

(** The [i]-th group of [n] consecutive ticks of a stream, counting from 0. *)
Definition tick_group (n i : nat) (ticks : list Tick.t) : list Tick.t :=
  firstn n (skipn (i * n) ticks).

(** Consecutive bars leave no gap: each opens where the one before closed. *)
Definition gapless (bars : list Bar.t) : Prop :=
  forall (i : nat) (b1 b2 : Bar.t),
    nth_error bars i = Some b1 ->
    nth_error bars (S i) = Some b2 ->
    Bar.open b2 = Bar.close b1.

(** A builder that is open has a high and a low, the low not above the
    high. *)
Definition well_kept (b : BarBuilder.t) : Prop :=
  match BarBuilder._open b with
  | None => True
  | Some _ =>
    exists h l : Price,
      BarBuilder._high b = Some h /\ BarBuilder._low b = Some l /\
      (Price_value l <= Price_value h)%Q
  end.

(** The builder states a program can reach: a new builder, and whatever
    [update] and [build] make of a reachable one. *)
Inductive reachable : BarBuilder.t -> Prop :=
| reachable_init (spec : BarSpecification.t) (use_previous_close : bool) :
    reachable (BarBuilder.__init__ spec use_previous_close)
| reachable_update (b b' : BarBuilder.t) (tick : Tick.t) :
    reachable b ->
    BarBuilder.update tick b = (Returned tt, b') ->
    reachable b'
| reachable_build (b : BarBuilder.t) (close_time : option Z) :
    reachable b ->
    reachable (snd (BarBuilder.build close_time b)).

End BarsInWords.

(** The timer intervals that have run out by [last_time], for a timer
    started at [start]. *)
Definition intervals_elapsed (start interval last_time : Z) : nat :=
  Z.to_nat ((last_time - start) / interval).

(** The tick stream arrives in timestamp order. *)
Definition in_time_order {PM : PriceModel} (ticks : list Tick.t) : Prop :=
  StronglySorted Z.le (map Tick.timestamp ticks).

(** What a time aggregator keeps true from one tick to the next, for a timer
    started at [start] and a last tick at time [m]: the bars handed over are
    gapless and the builder is open at the close of the last of them; the
    timer's next expiry is the first one after [m], one interval after the
    last bar. *)
Section TimeBarInvariant.
Context {PM : PriceModel}.

Definition last_bar (bars : list Bar.t) : option Bar.t :=
  nth_error bars (pred (length bars)).

Definition linked (bars : list Bar.t) (b : BarBuilder.t) : Prop :=
  gapless bars /\
  forall bar : Bar.t,
    last_bar bars = Some bar ->
    exists c : Price, Bar.close bar = Some c /\ BarBuilder._open b = Some c.

Definition on_schedule (start m : Z) (agg : TimeBarAggregator.t) : Prop :=
  let clock := TimeBarAggregator._clock agg in
  let b := TimeBarAggregator._builder agg in
  let n := Z.of_nat (length (TimeBarAggregator.handled agg)) in
  let i := Clock.timer_interval clock in
  Clock.is_test_clock clock = true /\
  Clock.pending clock = [] /\
  0 < i /\
  TimeBarAggregator.interval agg = i /\
  Clock.next_event_time clock = Some (aware (start + (n + 1) * i)) /\
  m < start + (n + 1) * i /\
  (n = 0 \/ start + n * i <= m) /\
  supported (BarSpecification.price_type (BarBuilder.bar_spec b)) = true /\
  BarBuilder._use_previous_close b = true /\
  well_kept b /\
  linked (TimeBarAggregator.handled agg) b.

End TimeBarInvariant.

(** Events: equality field for field, where two [Decimal] fields are equal
    when Python's [==] says so. *)
Definition option_decimal_eqb (a b : option Decimal.t) : bool :=
  match a, b with
  | Some x, Some y => Decimal.eqb x y
  | None, None => true
  | _, _ => false
  end.

Section EventsInWords.
Context {MT : ModelTypes}.

Definition same_fields (a b : PositionEvent.t) : Prop :=
  PositionEvent.class a = PositionEvent.class b /\
  PositionEvent.trader_id a = PositionEvent.trader_id b /\
  PositionEvent.strategy_id a = PositionEvent.strategy_id b /\
  PositionEvent.instrument_id a = PositionEvent.instrument_id b /\
  PositionEvent.position_id a = PositionEvent.position_id b /\
  PositionEvent.account_id a = PositionEvent.account_id b /\
  PositionEvent.from_order a = PositionEvent.from_order b /\
  PositionEvent.entry a = PositionEvent.entry b /\
  PositionEvent.side a = PositionEvent.side b /\
  Decimal.eqb (PositionEvent.net_qty a) (PositionEvent.net_qty b) = true /\
  PositionEvent.quantity a = PositionEvent.quantity b /\
  PositionEvent.peak_qty a = PositionEvent.peak_qty b /\
  PositionEvent.last_qty a = PositionEvent.last_qty b /\
  PositionEvent.last_px a = PositionEvent.last_px b /\
  PositionEvent.currency a = PositionEvent.currency b /\
  Decimal.eqb (PositionEvent.avg_px_open a) (PositionEvent.avg_px_open b) = true /\
  option_decimal_eqb (PositionEvent.avg_px_close a) (PositionEvent.avg_px_close b) = true /\
  Decimal.eqb (PositionEvent.realized_points a) (PositionEvent.realized_points b) = true /\
  Decimal.eqb (PositionEvent.realized_return a) (PositionEvent.realized_return b) = true /\
  PositionEvent.realized_pnl a = PositionEvent.realized_pnl b /\
  PositionEvent.ts_opened_ns a = PositionEvent.ts_opened_ns b /\
  PositionEvent.ts_closed_ns a = PositionEvent.ts_closed_ns b /\
  PositionEvent.duration_ns a = PositionEvent.duration_ns b /\
  PositionEvent.id a = PositionEvent.id b /\
  PositionEvent.timestamp_ns a = PositionEvent.timestamp_ns b.

(** [from_dict] of the event's own class. *)
Definition from_dict (values : gmap string PyVal) (c : EventClass)
    : outcome PositionEvent.t :=
  match c with
  | Opened => PositionOpened.from_dict values
  | Changed => PositionChanged.from_dict values
  | Closed => PositionClosed.from_dict values
  end.

(** [to_dict] of the event's own class. *)
Definition to_dict (e : PositionEvent.t) : gmap string PyVal :=
  match PositionEvent.class e with
  | Opened => PositionOpened.to_dict e
  | Changed => PositionChanged.to_dict e
  | Closed => PositionClosed.to_dict e
  end.

(** The events that exist: those a constructor returned, called directly,
    by [create] or by [from_dict]. *)
Inductive built : PositionEvent.t -> Prop :=
| built_opened (e : PositionEvent.t)
    (trader_id : TraderId) (strategy_id : StrategyId)
    (instrument_id : InstrumentId) (position_id : PositionId)
    (account_id : AccountId) (from_order : ClientOrderId)
    (entry : OrderSide.t) (side : PositionSide.t) (net_qty : Decimal.t)
    (quantity peak_qty last_qty : Quantity) (last_px : EventPrice)
    (currency : Currency) (avg_px_open : Decimal.t)
    (realized_points realized_return : Decimal.t) (realized_pnl : Money)
    (ts_opened_ns : PyVal) (event_id : UUID) (timestamp_ns : PyVal) :
    PositionOpened.__init__ trader_id strategy_id instrument_id position_id
      account_id from_order entry side net_qty quantity peak_qty last_qty last_px
      currency avg_px_open realized_points realized_return realized_pnl
      ts_opened_ns event_id timestamp_ns = Returned e ->
    built e
| built_changed (e : PositionEvent.t)
    (trader_id : TraderId) (strategy_id : StrategyId)
    (instrument_id : InstrumentId) (position_id : PositionId)
    (account_id : AccountId) (from_order : ClientOrderId)
    (entry : OrderSide.t) (side : PositionSide.t) (net_qty : Decimal.t)
    (quantity peak_qty last_qty : Quantity) (last_px : EventPrice)
    (currency : Currency) (avg_px_open : Decimal.t) (avg_px_close : option Decimal.t)
    (realized_points realized_return : Decimal.t) (realized_pnl : Money)
    (ts_opened_ns : PyVal) (event_id : UUID) (timestamp_ns : PyVal) :
    PositionChanged.__init__ trader_id strategy_id instrument_id position_id
      account_id from_order entry side net_qty quantity peak_qty last_qty last_px
      currency avg_px_open avg_px_close realized_points realized_return realized_pnl
      ts_opened_ns event_id timestamp_ns = Returned e ->
    built e
| built_closed (e : PositionEvent.t)
    (trader_id : TraderId) (strategy_id : StrategyId)
    (instrument_id : InstrumentId) (position_id : PositionId)
    (account_id : AccountId) (from_order : ClientOrderId)
    (entry : OrderSide.t) (side : PositionSide.t) (net_qty : Decimal.t)
    (quantity peak_qty last_qty : Quantity) (last_px : EventPrice)
    (currency : Currency) (avg_px_open : Decimal.t) (avg_px_close : option Decimal.t)
    (realized_points realized_return : Decimal.t) (realized_pnl : Money)
    (ts_opened_ns ts_closed_ns duration_ns : PyVal) (event_id : UUID)
    (timestamp_ns : PyVal) :
    PositionClosed.__init__ trader_id strategy_id instrument_id position_id
      account_id from_order entry side net_qty quantity peak_qty last_qty last_px
      currency avg_px_open avg_px_close realized_points realized_return realized_pnl
      ts_opened_ns ts_closed_ns duration_ns event_id timestamp_ns = Returned e ->
    built e
| built_create (c : EventClass) (e : PositionEvent.t)
    (position : ModelPosition.t) (fill : ModelOrderFilled.t)
    (event_id : UUID) (timestamp_ns : Z) :
    match c with
    | Opened => PositionOpened.create position fill event_id timestamp_ns
    | Changed => PositionChanged.create position fill event_id timestamp_ns
    | Closed => PositionClosed.create position fill event_id timestamp_ns
    end = Returned e ->
    built e
| built_from_dict (c : EventClass) (e : PositionEvent.t) (values : gmap string PyVal) :
    from_dict values c = Returned e ->
    built e.

(** A well-formed event is one its class's constructor returns. *)
Definition well_formed (e : PositionEvent.t) : Prop :=
  in_int64 (PositionEvent.ts_opened_ns e) = true /\
  in_int64 (PositionEvent.timestamp_ns e) = true /\
  match PositionEvent.class e with
  | Opened =>
    PositionEvent.side e <> PositionSide.FLAT /\
    PositionEvent.avg_px_close e = None /\
    PositionEvent.ts_closed_ns e = 0 /\
    PositionEvent.duration_ns e = 0
  | Changed =>
    PositionEvent.side e <> PositionSide.FLAT /\
    PositionEvent.ts_closed_ns e = 0 /\
    PositionEvent.duration_ns e = 0
  | Closed =>
    PositionEvent.side e = PositionSide.FLAT /\
    PositionEvent.avg_px_close e <> None /\
    in_int64 (PositionEvent.ts_closed_ns e) = true /\
    in_int64 (PositionEvent.duration_ns e) = true
  end.

(** [realized_return] has at most five digits after the point, and
    [avg_px_close], when there is one, is not zero. *)
Definition five_places (e : PositionEvent.t) : Prop :=
  -5 <= Decimal.exponent (PositionEvent.realized_return e).

Definition close_price_not_zero (e : PositionEvent.t) : Prop :=
  match PositionEvent.avg_px_close e with
  | Some d => Decimal.truthy d = true
  | None => True
  end.

End EventsInWords.

(** ** Further words and invariants

    Definitions used to state what the code does beyond the sentences of the
    specification; none of them translates code. *)

(** The fill an order event carries, when it is one, and the fills of a
    sequence of events. *)
Definition fill_of (e : OrderEvent) : option Fill :=
  match e with
  | OrderFilled f | OrderPartiallyFilled f => Some f
  | OrderOther _ => None
  end.

Fixpoint fills_of (events : list OrderEvent) : list Fill :=
  match events with
  | [] => []
  | e :: rest =>
    match fill_of e with
    | Some f => f :: fills_of rest
    | None => fills_of rest
    end
  end.

(** A fill [apply] accepts: its quantity is positive and fits a C [int], and
    its price is positive. *)
Definition accepted (f : Fill) : bool :=
  (0 <? filled_quantity f) && (filled_quantity f <=? INT_MAX)
  && Decimal.is_positive (average_price f).

(** An order event that is such a fill. *)
Definition accepted_fill (e : OrderEvent) : bool :=
  match fill_of e with
  | Some f => accepted f
  | None => false
  end.

(** A position that is never short: the net quantity after every fill is
    between 0 and the largest C [int]. *)
Fixpoint never_short (net : Z) (fills : list Fill) : bool :=
  match fills with
  | [] => true
  | f :: rest =>
    let net := net + signed_quantity f in
    (0 <=? net) && (net <=? INT_MAX) && never_short net rest
  end.

(** Bars, further: the four prices of a builder or of a bar are in order
    when the low is not above the open and the close, and the high not below
    them; a builder or bar without an open has no price at all. *)
Section BarsInOrder.
Context {PM : PriceModel}.

Definition in_order (o h l c : option Price) : Prop :=
  match o with
  | None => h = None /\ l = None /\ c = None
  | Some o =>
    exists h' l' c' : Price,
      h = Some h' /\ l = Some l' /\ c = Some c' /\
      (Price_value l' <= Price_value o)%Q /\ (Price_value o <= Price_value h')%Q /\
      (Price_value l' <= Price_value c')%Q /\ (Price_value c' <= Price_value h')%Q
  end.

(** A bar that has its four prices, in order. *)
Definition priced (bar : Bar.t) : Prop :=
  Bar.open bar <> None /\
  in_order (Bar.open bar) (Bar.high bar) (Bar.low bar) (Bar.close bar).

(** The bar of the ticks that follow a bar closed at [c], for a builder that
    carries the close over: it opens at [c], and [c] counts for its high and
    its low; without a tick it closes at [c] too. *)
Definition bar_from_close (pt : PriceType.t) (c : Price) (ticks : list Tick.t)
    (timestamp : option Z) : Bar.t :=
  {| Bar.open := Some c;
     Bar.high := Some (fold_left (fun h t => higher h (derived_price pt t)) ticks c);
     Bar.low := Some (fold_left (fun l t => lower l (derived_price pt t)) ticks c);
     Bar.close := Some (List.last (map (derived_price pt) ticks) c);
     Bar.volume := fold_left (fun v t => v + derived_size pt t) ticks 0;
     Bar.timestamp := timestamp |}.

(** The bars a time aggregator has handed over are stamped with the ends of
    the timer intervals, one after the other from the timer's start. *)
Definition interval_ends (start interval : Z) (k : nat) : list (option Z) :=
  map (fun j => Some (start + (Z.of_nat j + 1) * interval)) (seq 0 k).

End BarsInOrder.

(** A tick whose sizes are within the range of a C [int], and their sum as
    well, which the MID branch of [_get_volume] forms. *)
Definition sizes_fit {PM : PriceModel} (tick : Tick.t) : bool :=
  in_c_int (Tick.bid_size tick) && in_c_int (Tick.ask_size tick)
  && in_c_int (Tick.bid_size tick + Tick.ask_size tick).

(** The volume held by bars, and the sizes a run of ticks contributes under
    a price type. *)
Definition bars_volume {PM : PriceModel} (bars : list Bar.t) : Z :=
  fold_right (fun bar v => Bar.volume bar + v) 0 bars.

Definition ticks_volume {PM : PriceModel} (pt : PriceType.t) (ticks : list Tick.t) : Z :=
  fold_right (fun tick v => derived_size pt tick + v) 0 ticks.

(** Events, further: the keys of the dictionary.  [event_keys] are the keys
    the three [to_dict_c] write; [keys_read] are the keys [from_dict_c] of a
    class looks up. *)
Definition common_keys : list string :=
  ["trader_id"; "strategy_id"; "instrument_id"; "position_id"; "account_id";
   "from_order"; "entry"; "side"; "net_qty"; "quantity"; "peak_qty"; "last_qty";
   "last_px"; "currency"; "avg_px_open"; "realized_points"; "realized_return";
   "realized_pnl"; "ts_opened_ns"; "event_id"; "timestamp_ns"].

Definition keys_read (c : EventClass) : list string :=
  match c with
  | Opened => common_keys
  | Changed => "avg_px_close" :: common_keys
  | Closed => "avg_px_close" :: "ts_closed_ns" :: "duration_ns" :: common_keys
  end.

Definition event_keys : list string :=
  ["type"; "trader_id"; "strategy_id"; "instrument_id"; "position_id"; "account_id";
   "from_order"; "entry"; "side"; "net_qty"; "quantity"; "peak_qty"; "last_qty";
   "last_px"; "currency"; "avg_px_open"; "avg_px_close"; "realized_points";
   "realized_return"; "realized_pnl"; "ts_opened_ns"; "ts_closed_ns"; "duration_ns";
   "event_id"; "timestamp_ns"].

(** The event with its [realized_return] replaced, and with its
    [avg_px_close] replaced. *)
Definition with_realized_return {MT : ModelTypes} (d : Decimal.t) (e : PositionEvent.t)
    : PositionEvent.t :=
  PositionEvent.mk (PositionEvent.class e)
    (PositionEvent.trader_id e) (PositionEvent.strategy_id e)
    (PositionEvent.instrument_id e) (PositionEvent.position_id e)
    (PositionEvent.account_id e) (PositionEvent.from_order e)
    (PositionEvent.entry e) (PositionEvent.side e) (PositionEvent.net_qty e)
    (PositionEvent.quantity e) (PositionEvent.peak_qty e) (PositionEvent.last_qty e)
    (PositionEvent.last_px e) (PositionEvent.currency e)
    (PositionEvent.avg_px_open e) (PositionEvent.avg_px_close e)
    (PositionEvent.realized_points e) d
    (PositionEvent.realized_pnl e) (PositionEvent.ts_opened_ns e)
    (PositionEvent.ts_closed_ns e) (PositionEvent.duration_ns e)
    (PositionEvent.id e) (PositionEvent.timestamp_ns e).

Definition with_avg_px_close {MT : ModelTypes} (x : option Decimal.t) (e : PositionEvent.t)
    : PositionEvent.t :=
  PositionEvent.mk (PositionEvent.class e)
    (PositionEvent.trader_id e) (PositionEvent.strategy_id e)
    (PositionEvent.instrument_id e) (PositionEvent.position_id e)
    (PositionEvent.account_id e) (PositionEvent.from_order e)
    (PositionEvent.entry e) (PositionEvent.side e) (PositionEvent.net_qty e)
    (PositionEvent.quantity e) (PositionEvent.peak_qty e) (PositionEvent.last_qty e)
    (PositionEvent.last_px e) (PositionEvent.currency e)
    (PositionEvent.avg_px_open e) x
    (PositionEvent.realized_points e) (PositionEvent.realized_return e)
    (PositionEvent.realized_pnl e) (PositionEvent.ts_opened_ns e)
    (PositionEvent.ts_closed_ns e) (PositionEvent.duration_ns e)
    (PositionEvent.id e) (PositionEvent.timestamp_ns e).

(** ** Concrete values used in the examples *)

Module Sample.

Definition dec (coefficient : N) (exponent : Z) : Decimal.t :=
  Decimal.mk false coefficient exponent.

(** A fill of [quantity] at the price [price]. *)
Definition fill (side : OrderSide.t) (quantity : Z) (price : Decimal.t) (time : Z) : Fill :=
  {| order_side := side;
     filled_quantity := quantity;
     average_price := price;
     execution_time := time;
     execution_id := "E-1";
     execution_ticket := "T-1" |}.

Definition position : Position.t := Position.__init__ "AUDUSD.FXCM" "P-1" 0.

(** buy 100 @ 10.0 then buy 50 @ 12.0 *)
Definition two_buys : list Fill :=
  [fill OrderSide.BUY 100 (dec 100 (-1)) 1; fill OrderSide.BUY 50 (dec 120 (-1)) 2].

(** sell 100 @ 10.0 *)
Definition one_sell : list Fill := [fill OrderSide.SELL 100 (dec 100 (-1)) 1].

(** Prices kept to five decimal places: the constructor rounds half up. *)
Definition round5 (q : Q) : Q := (Qfloor (q * 100000 + (1 # 2)) # 100000)%Q.

Definition five_places : PriceModel :=
  {| Price := Q; Price_new := round5; Price_value := fun p => p |}.

Definition tick (bid ask : Q) (time : Z) : Tick.t (PM := five_places) :=
  Tick.mk (PM := five_places) bid ask 10 20 time.

Definition mid_ticks : BarSpecification.t :=
  BarSpecification.mk 2 BarStructure.TICK PriceType.MID.

Definition mid_minutes : BarSpecification.t :=
  BarSpecification.mk 1 BarStructure.MINUTE PriceType.MID.

Definition mid_days : BarSpecification.t :=
  BarSpecification.mk 1 BarStructure.DAY PriceType.MID.

Definition test_clock : Clock.t := Clock.mk true 30000000 None 0 [].

(** Identifiers and values that are their own strings. *)
Definition plain : StrCodec string :=
  {| to_str := fun s => s;
     from_str := fun s => Returned s;
     from_str_to_str := fun s => eq_refl |}.

Definition order_side_to_str (x : OrderSide.t) : string :=
  match x with
  | OrderSide.UNKNOWN => "UNKNOWN"
  | OrderSide.BUY => "BUY"
  | OrderSide.SELL => "SELL"
  end.

Definition order_side_from_str (s : string) : outcome OrderSide.t :=
  if String.eqb s "BUY" then Returned OrderSide.BUY
  else if String.eqb s "SELL" then Returned OrderSide.SELL
  else if String.eqb s "UNKNOWN" then Returned OrderSide.UNKNOWN
  else Raised ValueError.

Definition order_sides : StrCodec OrderSide.t :=
  {| to_str := order_side_to_str;
     from_str := order_side_from_str;
     from_str_to_str := fun x =>
       match x with
       | OrderSide.UNKNOWN => eq_refl
       | OrderSide.BUY => eq_refl
       | OrderSide.SELL => eq_refl
       end |}.

Definition position_side_to_str (x : PositionSide.t) : string :=
  match x with
  | PositionSide.FLAT => "FLAT"
  | PositionSide.LONG => "LONG"
  | PositionSide.SHORT => "SHORT"
  end.

Definition position_side_from_str (s : string) : outcome PositionSide.t :=
  if String.eqb s "FLAT" then Returned PositionSide.FLAT
  else if String.eqb s "LONG" then Returned PositionSide.LONG
  else if String.eqb s "SHORT" then Returned PositionSide.SHORT
  else Raised ValueError.

Definition position_sides : StrCodec PositionSide.t :=
  {| to_str := position_side_to_str;
     from_str := position_side_from_str;
     from_str_to_str := fun x =>
       match x with
       | PositionSide.FLAT => eq_refl
       | PositionSide.LONG => eq_refl
       | PositionSide.SHORT => eq_refl
       end |}.

Definition strings : ModelTypes :=
  {| TraderId := string;
     StrategyId := string;
     InstrumentId := string;
     PositionId := string;
     AccountId := string;
     ClientOrderId := string;
     Quantity := string;
     EventPrice := string;
     Currency := string;
     Money := string;
     UUID := string;
     TraderId_codec := plain;
     StrategyId_codec := plain;
     InstrumentId_codec := plain;
     PositionId_codec := plain;
     AccountId_codec := plain;
     ClientOrderId_codec := plain;
     OrderSideParser := order_sides;
     PositionSideParser := position_sides;
     Quantity_codec := plain;
     EventPrice_codec := plain;
     Currency_codec := plain;
     Money_codec := plain;
     UUID_codec := plain |}.

(** An opened, a changed and a closed event; [realized_return] is given
    separately. *)
Definition event (c : EventClass) (side : PositionSide.t)
    (avg_px_close : option Decimal.t) (realized_return : Decimal.t)
    (ts_closed_ns duration_ns : Z) : PositionEvent.t (MT := strings) :=
  PositionEvent.mk (MT := strings) c
    "TESTER-000" "S-001" "AUD/USD.SIM" "P-123456" "SIM-000" "O-20210410-022422-001-001-1"
    OrderSide.BUY side (dec 100000 0) "100000" "100000" "100000" "1.00050" "USD"
    (dec 100050 (-5)) avg_px_close (dec 10 (-5)) realized_return "2.00 USD"
    1000 ts_closed_ns duration_ns "e4e5e8a0-1f6e-4b0e-9c1c-5d5a0e6b7c8d" 2000.

Definition opened_event (realized_return : Decimal.t) : PositionEvent.t (MT := strings) :=
  event Opened PositionSide.LONG None realized_return 0 0.

Definition changed_event (avg_px_close : option Decimal.t) : PositionEvent.t (MT := strings) :=
  event Changed PositionSide.LONG avg_px_close (dec 1000 (-5)) 0 0.

Definition closed_event (realized_return : Decimal.t) : PositionEvent.t (MT := strings) :=
  event Closed PositionSide.FLAT (Some (dec 100060 (-5))) realized_return 1500 500.

(** Doubles stood in for by rationals. *)
Definition rationals : DoubleModel :=
  {| double := Q; double_times_int := fun x n => (x * inject_Z n)%Q |}.

Definition frame : BarDataWrangler.DataFrame (DM := rationals) :=
  [(60, BarDataWrangler.row (DM := rationals) 10%Q 12%Q 9%Q 11%Q 100%Q);
   (120, BarDataWrangler.row (DM := rationals) 11%Q 13%Q 10%Q 12%Q 200%Q);
   (180, BarDataWrangler.row (DM := rationals) 12%Q 14%Q 11%Q 13%Q 300%Q)].

Definition wrangler : BarDataWrangler.t (DM := rationals) :=
  BarDataWrangler.mk (DM := rationals) 5 1000 frame.

End Sample.

(** * Theorems *)

(** ** Position *)

Lemma wrap_int_small (z : Z) : INT_MIN <= z <= INT_MAX -> wrap_int z = z.
Proof.
  unfold INT_MIN, INT_MAX, wrap_int. intros H.
  rewrite Z.mod_small by lia. lia.
Qed.

Lemma update_position_sets_entry_price side q px time p :
  0 < q ->
  Decimal.is_positive px = true ->
  Position._update_position side q px time p
    = (Returned tt, Position.update_fields side q px time p) /\
  Position.average_entry_price (Position.update_fields side q px time p) = Some px.
Proof.
  intros Hq Hpx. split.
  - unfold Position._update_position, Position._update_position_body, unraisable.
    rewrite (proj2 (Z.ltb_lt _ _) Hq), Hpx. reflexivity.
  - unfold Position.update_fields, Position.average_entry_price.
    repeat match goal with
    | |- context [if ?c then _ else _] => destruct c
    | |- context [match ?x with _ => _ end] => destruct x
    end; reflexivity.
Qed.

(** What the code does in place of an average: after every fill that is
    taken, the entry price is the price carried by that fill. *)
Lemma apply_fill_sets_entry_price (f : Fill) (p : Position.t) :
  accepted f = true ->
  Position.average_entry_price (snd (Position.apply (OrderFilled f) p))
    = Some (average_price f).
Proof.
  unfold accepted. intros Ha.
  apply andb_prop in Ha as [Ha Hpx]. apply andb_prop in Ha as [H0 H1].
  apply Z.ltb_lt in H0. apply Z.leb_le in H1.
  unfold Position.apply, Position.apply_body, Position.apply_fill, unraisable, to_c_int.
  replace (INT_MIN <=? filled_quantity f) with true
    by (symmetry; apply Z.leb_le; unfold INT_MIN; lia).
  rewrite (proj2 (Z.leb_le _ _) H1). cbn [andb].
  destruct (update_position_sets_entry_price (order_side f) (filled_quantity f)
              (average_price f) (execution_time f)
              (Position.append_event (OrderFilled f) p) H0 Hpx) as [-> E].
  cbn [snd]. exact E.
Qed.

(** C1 (the code at the failing input): after buy 100 @ 10.0 and buy
    50 @ 12.0 both fills are applied and the entry price is 12.0, the price
    of the second fill, while the quantity-weighted average of the two fill
    prices is (100*10.0 + 50*12.0)/150 = 32/3. *)
Theorem entry_price_after_two_buys :
  Position.apply_all (map OrderFilled Sample.two_buys) Sample.position
    = (Returned tt,
       snd (Position.apply_all (map OrderFilled Sample.two_buys) Sample.position)) /\
  Position.average_entry_price
    (snd (Position.apply_all (map OrderFilled Sample.two_buys) Sample.position))
    = Some (Sample.dec 120 (-1)) /\
  (Decimal.to_Q (Sample.dec 120 (-1)) == 12)%Q /\
  (weighted_average_price Sample.two_buys == (100 * 10 + 50 * 12) / 150)%Q /\
  Qeq_bool (Decimal.to_Q (Sample.dec 120 (-1))) (weighted_average_price Sample.two_buys) = false.
Proof.
  repeat split; vm_compute; reflexivity.
Qed.

(** C3 (the code at the failing input): after a single sell of 100 the net
    quantity is -100 and the peak quantity is -100: the comparison takes the
    magnitude, the assignment stores the signed quantity.  The largest
    magnitude reached is 100, and the peak has gone down from 0. *)
Theorem peak_quantity_after_one_sell :
  Position.apply_all (map OrderFilled Sample.one_sell) Sample.position
    = (Returned tt,
       snd (Position.apply_all (map OrderFilled Sample.one_sell) Sample.position)) /\
  Position.peak_quantity
    (snd (Position.apply_all (map OrderFilled Sample.one_sell) Sample.position)) = -100 /\
  peak_of_fills Sample.one_sell = 100 /\
  Position.peak_quantity Sample.position = 0.
Proof.
  repeat split; vm_compute; reflexivity.
Qed.

(** C5 (the code at the failing input): an order event that is not a fill,
    applied to a new position.  The statements of [apply] end in the raise
    of [TypeError]; [apply] being a [cpdef void] function without an
    [except] clause, the call returns all the same and nothing reaches the
    caller.  The event has been appended to the event log before the test on
    its class, so the position is not as it was before the call either. *)
Theorem apply_other_event_returns :
  fst (Position.apply_body (OrderOther "OrderSubmitted") Sample.position)
    = Raised TypeError /\
  Position.apply (OrderOther "OrderSubmitted") Sample.position
    = (Returned tt,
       snd (Position.apply (OrderOther "OrderSubmitted") Sample.position)) /\
  Position.events Sample.position = [] /\
  Position.events (snd (Position.apply (OrderOther "OrderSubmitted") Sample.position))
    = [OrderOther "OrderSubmitted"] /\
  snd (Position.apply (OrderOther "OrderSubmitted") Sample.position) <> Sample.position.
Proof.
  repeat split. discriminate.
Qed.

(** ** BarBuilder *)

(** Two updates of a new builder with bid prices 11 then 10: the second
    lowers the low and leaves open and high. *)
Example update_twice :
  snd (BarBuilder.update_all (PM := Sample.five_places)
         [Sample.tick 11 13 1; Sample.tick 10 12 2]
         (BarBuilder.__init__ (BarSpecification.mk 2 BarStructure.TICK PriceType.BID) false))
  = BarBuilder.mk (PM := Sample.five_places)
      (BarSpecification.mk 2 BarStructure.TICK PriceType.BID) (Some 2) 2
      (Some 11%Q) (Some 11%Q) (Some 10%Q) (Some 10%Q) 20 false.
Proof. reflexivity. Qed.

Lemma Qltb_true (a b : Q) : Qltb a b = true <-> (a < b)%Q.
Proof.
  unfold Qltb. rewrite negb_true_iff. split.
  - intros H. apply Qnot_le_lt. intros L. apply Qle_bool_iff in L. congruence.
  - intros H. destruct (Qle_bool b a) eqn:E; [|reflexivity].
    apply Qle_bool_iff in E. exfalso. exact (Qlt_not_le _ _ H E).
Qed.

Lemma Qltb_false (a b : Q) : Qltb a b = false <-> (b <= a)%Q.
Proof.
  unfold Qltb. rewrite negb_false_iff. apply Qle_bool_iff.
Qed.

Section BarBuilderFacts.
Context {PM : PriceModel}.

Lemma get_price_supported (b : BarBuilder.t) (tick : Tick.t) :
  supported (BarSpecification.price_type (BarBuilder.bar_spec b)) = true ->
  BarBuilder._get_price b tick
    = Returned (derived_price (BarSpecification.price_type (BarBuilder.bar_spec b)) tick).
Proof.
  unfold BarBuilder._get_price, derived_price, midpoint.
  destruct (BarSpecification.price_type (BarBuilder.bar_spec b));
    simpl; intros; try discriminate; reflexivity.
Qed.

Lemma in_c_int_wrap (z : Z) : in_c_int z = true -> wrap_int z = z.
Proof.
  unfold in_c_int. intros H. apply andb_prop in H as [H1 H2].
  apply Z.leb_le in H1, H2. apply wrap_int_small. lia.
Qed.

(** Within the range of a C [int], the size [_get_volume] returns is the
    size the price type derives from the tick. *)
Lemma get_volume_supported (b : BarBuilder.t) (tick : Tick.t) :
  supported (BarSpecification.price_type (BarBuilder.bar_spec b)) = true ->
  sizes_fit tick = true ->
  BarBuilder._get_volume b tick
    = Returned (derived_size (BarSpecification.price_type (BarBuilder.bar_spec b)) tick).
Proof.
  unfold sizes_fit. intros Hs Hf.
  apply andb_prop in Hf as [Hf H3]. apply andb_prop in Hf as [H1 H2].
  unfold BarBuilder._get_volume, derived_size.
  destruct (BarSpecification.price_type (BarBuilder.bar_spec b));
    try discriminate; rewrite in_c_int_wrap by assumption; reflexivity.
Qed.

Lemma get_price_volume (b : BarBuilder.t) (tick : Tick.t) (quote : Price) :
  BarBuilder._get_price b tick = Returned quote ->
  exists v : Z, BarBuilder._get_volume b tick = Returned v.
Proof.
  unfold BarBuilder._get_price, BarBuilder._get_volume.
  destruct (BarSpecification.price_type (BarBuilder.bar_spec b));
    intros; try discriminate; eexists; reflexivity.
Qed.

Lemma update_always_returns (b : BarBuilder.t) (tick : Tick.t) :
  BarBuilder.update tick b = (Returned tt, snd (BarBuilder.update tick b)).
Proof. reflexivity. Qed.

(** A price that cannot be derived: the call returns and the builder is as
    it was. *)
Lemma update_without_price (b : BarBuilder.t) (tick : Tick.t) (e : exn) :
  BarBuilder._get_price b tick = Raised e ->
  BarBuilder.update tick b = (Returned tt, b).
Proof.
  intros Hp. unfold BarBuilder.update, unraisable, BarBuilder.update_body.
  rewrite Hp. reflexivity.
Qed.

(** One successful [update], field by field. *)
Lemma update_open_none (b : BarBuilder.t) (tick : Tick.t) (quote : Price) (v : Z) :
  BarBuilder._get_price b tick = Returned quote ->
  BarBuilder._get_volume b tick = Returned v ->
  BarBuilder._open b = None ->
  BarBuilder.update tick b =
    (Returned tt,
     BarBuilder.mk (BarBuilder.bar_spec b) (Some (Tick.timestamp tick))
       (BarBuilder.count b + 1) (Some quote) (Some quote) (Some quote) (Some quote)
       (BarBuilder._volume b + v) (BarBuilder._use_previous_close b)).
Proof.
  intros Hp Hv Ho.
  unfold BarBuilder.update, unraisable, BarBuilder.update_body, BarBuilder.update_extremes.
  rewrite Hp, Ho.
  change (BarBuilder._get_volume
            (BarBuilder.set_prices (BarBuilder._open
               (BarBuilder.set_prices (Some quote) (Some quote) (Some quote)
                  (BarBuilder._close b) b))
               (BarBuilder._high
                  (BarBuilder.set_prices (Some quote) (Some quote) (Some quote)
                     (BarBuilder._close b) b))
               (BarBuilder._low
                  (BarBuilder.set_prices (Some quote) (Some quote) (Some quote)
                     (BarBuilder._close b) b))
               (Some quote)
               (BarBuilder.set_prices (Some quote) (Some quote) (Some quote)
                  (BarBuilder._close b) b)) tick)
    with (BarBuilder._get_volume b tick).
  rewrite Hv. reflexivity.
Qed.

Lemma update_open_some (b : BarBuilder.t) (tick : Tick.t) (quote o h l : Price) (v : Z) :
  BarBuilder._get_price b tick = Returned quote ->
  BarBuilder._get_volume b tick = Returned v ->
  BarBuilder._open b = Some o ->
  BarBuilder._high b = Some h ->
  BarBuilder._low b = Some l ->
  (Price_value l <= Price_value h)%Q ->
  BarBuilder.update tick b =
    (Returned tt,
     BarBuilder.mk (BarBuilder.bar_spec b) (Some (Tick.timestamp tick))
       (BarBuilder.count b + 1) (Some o) (Some (higher h quote)) (Some (lower l quote))
       (Some quote) (BarBuilder._volume b + v) (BarBuilder._use_previous_close b)).
Proof.
  intros Hp Hv Ho Hh Hl Hle.
  unfold BarBuilder.update, unraisable, BarBuilder.update_body, BarBuilder.update_extremes.
  rewrite Hp, Ho, Hh, Hl. unfold higher, lower.
  destruct (Qltb (Price_value h) (Price_value quote)) eqn:E1.
  - apply Qltb_true in E1.
    assert (E2 : Qltb (Price_value quote) (Price_value l) = false).
    { apply Qltb_false. apply Qlt_le_weak. eapply Qle_lt_trans; eassumption. }
    rewrite E2. destruct b; unfold BarBuilder._get_volume in *; simpl in *.
    rewrite Hv. subst. reflexivity.
  - destruct (Qltb (Price_value quote) (Price_value l)) eqn:E2;
      destruct b; unfold BarBuilder._get_volume in *; simpl in *;
      rewrite Hv; subst; reflexivity.
Qed.

Lemma higher_lower_ordered (h l quote : Price) :
  (Price_value l <= Price_value h)%Q ->
  (Price_value (lower l quote) <= Price_value (higher h quote))%Q.
Proof.
  intros Hle. unfold higher, lower.
  destruct (Qltb (Price_value h) (Price_value quote)) eqn:E1;
    destruct (Qltb (Price_value quote) (Price_value l)) eqn:E2;
    rewrite ?Qltb_true, ?Qltb_false in *.
  - apply Qle_refl.
  - eapply Qle_trans; [exact Hle|]. apply Qlt_le_weak. exact E1.
  - eapply Qle_trans; [|exact Hle]. apply Qlt_le_weak. exact E2.
  - exact Hle.
Qed.

Lemma update_well_kept (b b' : BarBuilder.t) (tick : Tick.t) :
  well_kept b ->
  BarBuilder.update tick b = (Returned tt, b') ->
  well_kept b' /\ BarBuilder.bar_spec b' = BarBuilder.bar_spec b /\
  BarBuilder._use_previous_close b' = BarBuilder._use_previous_close b.
Proof.
  intros W U.
  destruct (BarBuilder._get_price b tick) as [quote|e] eqn:Hp.
  2:{ rewrite (update_without_price b tick e Hp) in U. injection U as <-.
      split; [exact W|split; reflexivity]. }
  destruct (get_price_volume _ _ _ Hp) as [v Hv].
  unfold well_kept in W. destruct (BarBuilder._open b) as [o|] eqn:Ho.
  - destruct W as (h & l & Hh & Hl & Hle).
    rewrite (update_open_some b tick quote o h l v Hp Hv Ho Hh Hl Hle) in U.
    injection U as <-. unfold well_kept. simpl. repeat split.
    exists (higher h quote), (lower l quote). repeat split.
    apply higher_lower_ordered. exact Hle.
  - rewrite (update_open_none b tick quote v Hp Hv Ho) in U.
    injection U as <-. unfold well_kept. simpl. repeat split.
    exists quote, quote. repeat split. apply Qle_refl.
Qed.

Lemma build_well_kept (b : BarBuilder.t) (close_time : option Z) :
  well_kept (snd (BarBuilder.build close_time b)) /\
  BarBuilder.bar_spec (snd (BarBuilder.build close_time b)) = BarBuilder.bar_spec b /\
  BarBuilder._use_previous_close (snd (BarBuilder.build close_time b))
    = BarBuilder._use_previous_close b.
Proof.
  destruct b as [spec lu n o h l c v upc].
  unfold BarBuilder.build, BarBuilder._reset, well_kept.
  destruct upc; simpl; repeat split.
  destruct c as [c|]; [|exact I].
  exists c, c. repeat split. apply Qle_refl.
Qed.

Lemma reachable_well_kept (b : BarBuilder.t) : reachable b -> well_kept b.
Proof.
  induction 1 as [spec upc|b b' tick _ IH U|b ct _ IH].
  - exact I.
  - exact (proj1 (update_well_kept b b' tick IH U)).
  - exact (proj1 (build_well_kept b ct)).
Qed.

End BarBuilderFacts.

Section BarBuilderFacts2.
Context {PM : PriceModel}.

Lemma update_returns (b : BarBuilder.t) (tick : Tick.t) (quote : Price) :
  well_kept b ->
  BarBuilder._get_price b tick = Returned quote ->
  exists b' : BarBuilder.t,
    BarBuilder.update tick b = (Returned tt, b') /\
    BarBuilder._close b' = Some quote /\
    BarBuilder.last_update b' = Some (Tick.timestamp tick).
Proof.
  intros W Hp. destruct (get_price_volume _ _ _ Hp) as [v Hv].
  unfold well_kept in W. destruct (BarBuilder._open b) as [o|] eqn:Ho.
  - destruct W as (h & l & Hh & Hl & Hle).
    eexists. split; [apply (update_open_some b tick quote o h l v); assumption|].
    split; reflexivity.
  - eexists. split; [apply (update_open_none b tick quote v); assumption|].
    split; reflexivity.
Qed.

Lemma update_all_app (l1 l2 : list Tick.t) (b : BarBuilder.t) :
  BarBuilder.update_all (l1 ++ l2) b =
    match BarBuilder.update_all l1 b with
    | (Raised e, b1) => (Raised e, b1)
    | (Returned _, b1) => BarBuilder.update_all l2 b1
    end.
Proof.
  revert b. induction l1 as [|t l1 IH]; intros b; cbn [BarBuilder.update_all app].
  - reflexivity.
  - destruct (BarBuilder.update t b) as [[[]|e] b1]; [apply IH|reflexivity].
Qed.

Lemma update_all_returns (ticks : list Tick.t) (b : BarBuilder.t) :
  well_kept b ->
  supported (BarSpecification.price_type (BarBuilder.bar_spec b)) = true ->
  exists b' : BarBuilder.t,
    BarBuilder.update_all ticks b = (Returned tt, b') /\
    well_kept b' /\
    BarBuilder.bar_spec b' = BarBuilder.bar_spec b.
Proof.
  revert b. induction ticks as [|t ticks IH]; intros b W Hs; cbn [BarBuilder.update_all].
  - exists b. repeat split. exact W.
  - pose proof (get_price_supported b t Hs) as Hp.
    destruct (update_returns b t _ W Hp) as (b1 & U & _ & _).
    rewrite U. destruct (update_well_kept b b1 t W U) as (W1 & E1 & _).
    destruct (IH b1 W1) as (b' & U' & W' & E'); [rewrite E1; exact Hs|].
    exists b'. repeat split; [exact U'|exact W'|congruence].
Qed.

End BarBuilderFacts2.

(** C2 (the code at the failing input): [build] on a builder that has never
    been updated raises nothing: it returns a bar whose four prices are
    [None], with volume 0 and the closing time it was given ([None] by
    default), and leaves a builder like new.  The same bar comes out of a
    second [build] with no update in between, when the first one has
    cleared the prices. *)
Theorem build_without_update {PM : PriceModel}
    (spec : BarSpecification.t) (use_previous_close : bool) (close_time : option Z)
    (last_update : option Z) (count volume : Z) (o h l c : option Price) :
  BarBuilder.build close_time (BarBuilder.__init__ spec use_previous_close)
    = (Bar.mk None None None None 0 close_time,
       BarBuilder.__init__ spec use_previous_close) /\
  fst (BarBuilder.build None (BarBuilder.__init__ spec use_previous_close))
    = Bar.mk None None None None 0 None /\
  fst (BarBuilder.build None
         (snd (BarBuilder.build close_time
                 (BarBuilder.mk spec last_update count o h l c volume false))))
    = Bar.mk None None None None 0 last_update.
Proof.
  repeat split.
  destruct close_time, use_previous_close; reflexivity.
Qed.

(** C9: for every reachable builder and every tick whose price the builder
    can derive, [update] returns; it sets close to the price, adds the size
    to the volume, adds 1 to the count and records the tick's time.  When
    the builder is not open (after a reset that cleared the prices), open,
    high and low are set to the price as well.  When it is open, open stays
    and high and low become the maximum and the minimum of their old value
    and the price, and at most one of the two changes. *)
Theorem update_tracks_extremes {PM : PriceModel}
    (b : BarBuilder.t) (tick : Tick.t) (quote : Price) :
  reachable b ->
  BarBuilder._get_price b tick = Returned quote ->
  exists (b' : BarBuilder.t) (v : Z),
    BarBuilder.update tick b = (Returned tt, b') /\
    BarBuilder._get_volume b tick = Returned v /\
    BarBuilder._close b' = Some quote /\
    BarBuilder._volume b' = BarBuilder._volume b + v /\
    BarBuilder.count b' = BarBuilder.count b + 1 /\
    BarBuilder.last_update b' = Some (Tick.timestamp tick) /\
    match BarBuilder._open b with
    | None =>
      BarBuilder._open b' = Some quote /\
      BarBuilder._high b' = Some quote /\
      BarBuilder._low b' = Some quote
    | Some o =>
      BarBuilder._open b' = Some o /\
      exists h l h' l' : Price,
        BarBuilder._high b = Some h /\ BarBuilder._low b = Some l /\
        BarBuilder._high b' = Some h' /\ BarBuilder._low b' = Some l' /\
        (Price_value h' == Qmax (Price_value h) (Price_value quote))%Q /\
        (Price_value l' == Qmin (Price_value l) (Price_value quote))%Q /\
        (h' = h \/ l' = l)
    end.
Proof.
  intros R Hp. apply reachable_well_kept in R.
  destruct (get_price_volume _ _ _ Hp) as [v Hv].
  unfold well_kept in R. destruct (BarBuilder._open b) as [o|] eqn:Ho.
  - destruct R as (h & l & Hh & Hl & Hle).
    eexists. exists v. split; [apply (update_open_some b tick quote o h l v); assumption|].
    simpl. repeat split; try assumption.
    exists h, l, (higher h quote), (lower l quote). repeat split; try assumption.
    + unfold higher. destruct (Qltb (Price_value h) (Price_value quote)) eqn:E.
      * apply Qltb_true in E. symmetry. apply Q.max_r. apply Qlt_le_weak. exact E.
      * apply Qltb_false in E. symmetry. apply Q.max_l. exact E.
    + unfold lower. destruct (Qltb (Price_value quote) (Price_value l)) eqn:E.
      * apply Qltb_true in E. symmetry. apply Q.min_r. apply Qlt_le_weak. exact E.
      * apply Qltb_false in E. symmetry. apply Q.min_l. exact E.
    + unfold higher, lower.
      destruct (Qltb (Price_value h) (Price_value quote)) eqn:E1; [|left; reflexivity].
      destruct (Qltb (Price_value quote) (Price_value l)) eqn:E2; [|right; reflexivity].
      apply Qltb_true in E1, E2. exfalso.
      apply (Qlt_not_le _ _ E1). apply Qlt_le_weak.
      eapply Qlt_le_trans; [exact E2|exact Hle].
  - eexists. exists v. split; [apply (update_open_none b tick quote v); assumption|].
    simpl. repeat split; assumption.
Qed.

Lemma update_tracks_extremes_witness :
  exists (b' : BarBuilder.t (PM := Sample.five_places)) (v : Z),
    BarBuilder.update (Sample.tick 10 12 5) (BarBuilder.__init__ Sample.mid_ticks false)
      = (Returned tt, b') /\
    BarBuilder._get_volume (BarBuilder.__init__ Sample.mid_ticks false) (Sample.tick 10 12 5)
      = Returned v /\
    BarBuilder._close b' = Some (Sample.round5 11) /\
    BarBuilder._volume b' = 0 + v /\
    BarBuilder.count b' = 0 + 1 /\
    BarBuilder.last_update b' = Some 5 /\
    BarBuilder._open b' = Some (Sample.round5 11) /\
    BarBuilder._high b' = Some (Sample.round5 11) /\
    BarBuilder._low b' = Some (Sample.round5 11).
Proof.
  apply (update_tracks_extremes (PM := Sample.five_places)
           (BarBuilder.__init__ Sample.mid_ticks false) (Sample.tick 10 12 5)
           (Sample.round5 11)).
  - apply reachable_init.
  - reflexivity.
Defined.

(** ** TickBarAggregator *)

(** Five ticks through a tick aggregator of step 2 on bid prices: two bars,
    and the fifth tick stays in the builder. *)
Example five_ticks_step_two :
  TickBarAggregator.handled (PM := Sample.five_places)
    (snd (TickBarAggregator.update_all
            [Sample.tick 10 12 1; Sample.tick 11 13 2; Sample.tick 12 14 3;
             Sample.tick 9 11 4; Sample.tick 10 12 5]
            (TickBarAggregator.__init__
               (BarSpecification.mk 2 BarStructure.TICK PriceType.BID))))
  = [Bar.mk (PM := Sample.five_places)
       (Some 10%Q) (Some 11%Q) (Some 10%Q) (Some 11%Q) 20 (Some 2);
     Bar.mk (PM := Sample.five_places)
       (Some 12%Q) (Some 12%Q) (Some 9%Q) (Some 9%Q) 20 (Some 4)].
Proof. reflexivity. Qed.

Section TickBarFacts.
Context {PM : PriceModel}.

Lemma fold_higher_above (pt : PriceType.t) (ticks : list Tick.t) (p : Price) :
  (Price_value p <=
   Price_value (fold_left (fun h t => higher h (derived_price pt t)) ticks p))%Q.
Proof.
  revert p. induction ticks as [|t ticks IH]; intros p; simpl.
  - apply Qle_refl.
  - eapply Qle_trans; [|apply IH]. unfold higher.
    destruct (Qltb (Price_value p) (Price_value (derived_price pt t))) eqn:E.
    + apply Qltb_true in E. apply Qlt_le_weak. exact E.
    + apply Qle_refl.
Qed.

Lemma fold_lower_below (pt : PriceType.t) (ticks : list Tick.t) (p : Price) :
  (Price_value (fold_left (fun l t => lower l (derived_price pt t)) ticks p)
   <= Price_value p)%Q.
Proof.
  revert p. induction ticks as [|t ticks IH]; intros p; simpl.
  - apply Qle_refl.
  - eapply Qle_trans; [apply IH|]. unfold lower.
    destruct (Qltb (Price_value (derived_price pt t)) (Price_value p)) eqn:E.
    + apply Qltb_true in E. apply Qlt_le_weak. exact E.
    + apply Qle_refl.
Qed.

Lemma collecting_update (spec : BarSpecification.t) (upc : bool) (lu : option Z)
    (ticks : list Tick.t) (tick : Tick.t) :
  supported (BarSpecification.price_type spec) = true ->
  sizes_fit tick = true ->
  BarBuilder.update tick (collecting spec upc lu ticks)
    = (Returned tt, collecting spec upc lu (ticks ++ [tick])).
Proof.
  intros Hs Hf. set (pt := BarSpecification.price_type spec).
  destruct ticks as [|first rest].
  - assert (Hspec : BarBuilder.bar_spec (collecting spec upc lu []) = spec) by reflexivity.
    assert (Hp := get_price_supported (collecting spec upc lu []) tick
                    ltac:(rewrite Hspec; exact Hs)).
    assert (Hv := get_volume_supported (collecting spec upc lu []) tick
                    ltac:(rewrite Hspec; exact Hs) Hf).
    rewrite Hspec in Hp, Hv.
    rewrite (update_open_none _ tick _ _ Hp Hv eq_refl). reflexivity.
  - assert (Hspec : BarBuilder.bar_spec (collecting spec upc lu (first :: rest)) = spec)
      by reflexivity.
    assert (Hp := get_price_supported (collecting spec upc lu (first :: rest)) tick
                    ltac:(rewrite Hspec; exact Hs)).
    assert (Hv := get_volume_supported (collecting spec upc lu (first :: rest)) tick
                    ltac:(rewrite Hspec; exact Hs) Hf).
    rewrite Hspec in Hp, Hv.
    rewrite (update_open_some _ tick _ _ _ _ _ Hp Hv eq_refl eq_refl eq_refl).
    2:{ eapply Qle_trans; [apply fold_lower_below|apply fold_higher_above]. }
    unfold collecting. cbn [app]. unfold bar_of_ticks.
    cbn [Bar.open Bar.high Bar.low Bar.close Bar.volume Bar.timestamp
         BarBuilder.bar_spec BarBuilder.count BarBuilder._volume
         BarBuilder._use_previous_close].
    fold pt. cbn [fold_left]. rewrite !fold_left_app. cbn [fold_left].
    replace (List.last (first :: rest ++ [tick]) first) with tick
      by (symmetry; apply (last_last (first :: rest) tick first)).
    replace (Z.of_nat (length (first :: rest ++ [tick])))
      with (Z.of_nat (length (first :: rest)) + 1)
      by (cbn [length]; rewrite length_app; cbn [length]; lia).
    reflexivity.
Qed.

Lemma collecting_build (spec : BarSpecification.t) (lu : option Z)
    (first : Tick.t) (rest : list Tick.t) :
  BarBuilder.build None (collecting spec false lu (first :: rest))
    = (bar_of_ticks (BarSpecification.price_type spec) (first :: rest),
       collecting spec false
         (Some (Tick.timestamp (List.last (first :: rest) first))) []).
Proof. reflexivity. Qed.

Lemma run_short (spec : BarSpecification.t) (n : nat) (handled : list Bar.t)
    (lu : option Z) (ticks pend : list Tick.t) :
  supported (BarSpecification.price_type spec) = true ->
  forallb sizes_fit ticks = true ->
  (length pend + length ticks < n)%nat ->
  TickBarAggregator.update_all ticks
    (TickBarAggregator.mk (collecting spec false lu pend) (Z.of_nat n) handled)
    = (Returned tt,
       TickBarAggregator.mk (collecting spec false lu (pend ++ ticks)) (Z.of_nat n) handled).
Proof.
  intros Hs. revert pend. induction ticks as [|t ticks IH]; intros pend Hf L.
  - rewrite app_nil_r. reflexivity.
  - cbn [forallb] in Hf. apply andb_prop in Hf as [Ht Hf].
    cbn [TickBarAggregator.update_all]. unfold TickBarAggregator.update.
    cbn [TickBarAggregator._builder TickBarAggregator.step TickBarAggregator.handled].
    rewrite (collecting_update spec false lu pend t Hs Ht).
    assert (C : BarBuilder.count (collecting spec false lu (pend ++ [t]))
                = Z.of_nat (length pend + 1)).
    { destruct pend; cbn; [reflexivity|]. rewrite length_app. cbn. f_equal. }
    rewrite C. cbn [length] in L.
    replace (Z.of_nat (length pend + 1) =? Z.of_nat n) with false
      by (symmetry; apply Z.eqb_neq; lia).
    rewrite IH by (try exact Hf; rewrite length_app; cbn [length]; lia).
    rewrite <- app_assoc. reflexivity.
Qed.

Lemma tick_update_all_app (l1 l2 : list Tick.t) (a : TickBarAggregator.t) :
  TickBarAggregator.update_all (l1 ++ l2) a =
    match TickBarAggregator.update_all l1 a with
    | (Raised e, a1) => (Raised e, a1)
    | (Returned _, a1) => TickBarAggregator.update_all l2 a1
    end.
Proof.
  revert a. induction l1 as [|x l1 IH]; intros a; cbn [TickBarAggregator.update_all app].
  - reflexivity.
  - destruct (TickBarAggregator.update x a) as [[[]|e] a1]; [apply IH|reflexivity].
Qed.

Lemma run_full (spec : BarSpecification.t) (n : nat) (handled : list Bar.t)
    (lu : option Z) (ticks : list Tick.t) :
  supported (BarSpecification.price_type spec) = true ->
  forallb sizes_fit ticks = true ->
  (0 < n)%nat ->
  length ticks = n ->
  exists lu' : option Z,
    TickBarAggregator.update_all ticks
      (TickBarAggregator.mk (collecting spec false lu []) (Z.of_nat n) handled)
      = (Returned tt,
         TickBarAggregator.mk (collecting spec false lu' []) (Z.of_nat n)
           (handled ++ [bar_of_ticks (BarSpecification.price_type spec) ticks])).
Proof.
  intros Hs Hf N L.
  destruct (exists_last (l := ticks)) as (init & t & ->).
  { intros ->. cbn in L. lia. }
  rewrite length_app in L. cbn [length] in L.
  rewrite forallb_app in Hf. apply andb_prop in Hf as [Hi Ht].
  cbn [forallb] in Ht. rewrite andb_true_r in Ht.
  rewrite tick_update_all_app, (run_short spec n handled lu init [] Hs Hi) by (cbn; lia).
  cbn [app TickBarAggregator.update_all]. unfold TickBarAggregator.update.
  cbn [TickBarAggregator._builder TickBarAggregator.step TickBarAggregator.handled].
  rewrite (collecting_update spec false lu init t Hs Ht).
  assert (C : BarBuilder.count (collecting spec false lu (init ++ [t]))
              = Z.of_nat (length init + 1)).
  { destruct init; cbn; [reflexivity|]. rewrite length_app. cbn. f_equal. }
  rewrite C. replace (Z.of_nat (length init + 1) =? Z.of_nat n) with true
    by (symmetry; apply Z.eqb_eq; lia).
  destruct (init ++ [t]) as [|first rest] eqn:E.
  { destruct init; discriminate. }
  rewrite collecting_build.
  eexists. reflexivity.
Qed.

End TickBarFacts.

Section TickBarFacts2.
Context {PM : PriceModel}.

Lemma tick_group_next (n i : nat) (ticks : list Tick.t) :
  tick_group n (S i) ticks = tick_group n i (skipn n ticks).
Proof.
  unfold tick_group. rewrite skipn_skipn. f_equal. f_equal. lia.
Qed.

Lemma sizes_fit_split (n : nat) (ticks : list Tick.t) :
  forallb sizes_fit ticks = true ->
  forallb sizes_fit (firstn n ticks) = true /\ forallb sizes_fit (skipn n ticks) = true.
Proof.
  intros H. rewrite <- (firstn_skipn n ticks), forallb_app in H.
  apply andb_prop in H. exact H.
Qed.

Lemma run_groups (spec : BarSpecification.t) (n : nat) :
  supported (BarSpecification.price_type spec) = true ->
  (0 < n)%nat ->
  forall (k : nat) (ticks : list Tick.t) (handled : list Bar.t) (lu : option Z),
    forallb sizes_fit ticks = true ->
    (k * n <= length ticks < (k + 1) * n)%nat ->
    exists lu' : option Z,
      TickBarAggregator.update_all ticks
        (TickBarAggregator.mk (collecting spec false lu []) (Z.of_nat n) handled)
        = (Returned tt,
           TickBarAggregator.mk
             (collecting spec false lu' (skipn (k * n) ticks)) (Z.of_nat n)
             (handled ++
                map (fun i => bar_of_ticks (BarSpecification.price_type spec)
                                (tick_group n i ticks)) (seq 0 k))).
Proof.
  intros Hs Hn. induction k as [|k IH]; intros ticks handled lu Hf L.
  - exists lu. rewrite (run_short spec n handled lu ticks [] Hs Hf) by (cbn; lia).
    cbn. rewrite app_nil_r. reflexivity.
  - assert (Ln : length (firstn n ticks) = n) by (rewrite length_firstn; nia).
    destruct (sizes_fit_split n ticks Hf) as [Hf1 Hf2].
    destruct (run_full spec n handled lu (firstn n ticks) Hs Hf1 Hn Ln) as [lu1 F].
    destruct (IH (skipn n ticks)
                (handled ++ [bar_of_ticks (BarSpecification.price_type spec) (firstn n ticks)])
                lu1 Hf2) as [lu' R].
    { rewrite length_skipn. nia. }
    exists lu'.
    rewrite <- (firstn_skipn n ticks) at 1.
    rewrite tick_update_all_app, F, R.
    rewrite skipn_skipn. replace (S k * n)%nat with (k * n + n)%nat by lia.
    rewrite <- app_assoc. cbn [seq map app].
    rewrite <- seq_shift, map_map.
    rewrite (map_ext (fun i => bar_of_ticks (BarSpecification.price_type spec)
                                 (tick_group n i (skipn n ticks)))
                     (fun i => bar_of_ticks (BarSpecification.price_type spec)
                                 (tick_group n (S i) ticks)))
      by (intros i; rewrite tick_group_next; reflexivity).
    reflexivity.
Qed.

End TickBarFacts2.

(** C7: a tick-count aggregator with a supported price type and a step
    [n > 0], fed any tick stream whose sizes are within the range of a C
    [int], emits [length ticks / n] bars (the quotient rounded down); the
    [i]-th bar, counting from 0, is the bar of exactly the ticks at
    positions [i * n] to [i * n + n - 1] of the stream (it opens at the
    first of them, closes at the last, with their extreme prices and the sum
    of their sizes), and the ticks left over, fewer than [n], stay in the
    builder without a bar. *)
Theorem tick_bars_one_per_full_group {PM : PriceModel}
    (spec : BarSpecification.t) (ticks : list Tick.t) :
  supported (BarSpecification.price_type spec) = true ->
  0 < BarSpecification.step spec ->
  forallb sizes_fit ticks = true ->
  exists agg : TickBarAggregator.t,
    TickBarAggregator.update_all ticks (TickBarAggregator.__init__ spec) = (Returned tt, agg) /\
    length (TickBarAggregator.handled agg)
      = (length ticks / Z.to_nat (BarSpecification.step spec))%nat /\
    (forall i : nat,
       (i < length ticks / Z.to_nat (BarSpecification.step spec))%nat ->
       nth_error (TickBarAggregator.handled agg) i
         = Some (bar_of_ticks (BarSpecification.price_type spec)
                   (tick_group (Z.to_nat (BarSpecification.step spec)) i ticks))) /\
    BarBuilder.count (TickBarAggregator._builder agg)
      = Z.of_nat (length ticks mod Z.to_nat (BarSpecification.step spec)).
Proof.
  intros Hs N Hf. set (n := Z.to_nat (BarSpecification.step spec)).
  assert (Hn : (0 < n)%nat) by (unfold n; lia).
  assert (Hstep : BarSpecification.step spec = Z.of_nat n) by (unfold n; lia).
  set (k := (length ticks / n)%nat).
  assert (D := Nat.div_mod_eq (length ticks) n).
  assert (M := Nat.mod_upper_bound (length ticks) n ltac:(lia)).
  fold k in D.
  destruct (run_groups spec n Hs Hn k ticks [] None Hf) as [lu R]; [nia|].
  unfold TickBarAggregator.__init__, BarBuilder.__init__. rewrite Hstep.
  change (BarBuilder.mk spec None 0 None None None None 0 false)
    with (collecting spec false None []).
  rewrite R. eexists. split; [reflexivity|].
  cbn [TickBarAggregator.handled TickBarAggregator._builder app].
  split; [|split].
  - rewrite length_map, length_seq. reflexivity.
  - intros i Hi. rewrite nth_error_map, nth_error_seq.
    apply Nat.ltb_lt in Hi. rewrite Hi. reflexivity.
  - assert (Ls : length (skipn (k * n) ticks) = (length ticks mod n)%nat)
      by (rewrite length_skipn; nia).
    destruct (skipn (k * n) ticks) as [|x rest] eqn:E; cbn in *; rewrite <- Ls; reflexivity.
Qed.

Lemma tick_bars_one_per_full_group_witness :
  exists agg : TickBarAggregator.t (PM := Sample.five_places),
    TickBarAggregator.update_all
      [Sample.tick 10 12 1; Sample.tick 11 13 2; Sample.tick 12 14 3;
       Sample.tick 9 11 4; Sample.tick 10 12 5]
      (TickBarAggregator.__init__ Sample.mid_ticks) = (Returned tt, agg) /\
    length (TickBarAggregator.handled agg) = (5 / 2)%nat /\
    (forall i : nat,
       (i < 5 / 2)%nat ->
       nth_error (TickBarAggregator.handled agg) i
         = Some (bar_of_ticks PriceType.MID
                   (tick_group 2 i
                      [Sample.tick 10 12 1; Sample.tick 11 13 2; Sample.tick 12 14 3;
                       Sample.tick 9 11 4; Sample.tick 10 12 5]))) /\
    BarBuilder.count (TickBarAggregator._builder agg) = Z.of_nat (5 mod 2).
Proof.
  apply (tick_bars_one_per_full_group (PM := Sample.five_places) Sample.mid_ticks
           [Sample.tick 10 12 1; Sample.tick 11 13 2; Sample.tick 12 14 3;
            Sample.tick 9 11 4; Sample.tick 10 12 5]).
  - reflexivity.
  - reflexivity.
  - reflexivity.
Defined.

(** ** TimeBarAggregator *)

Section TimeBarFacts.
Context {PM : PriceModel}.

Lemma gapless_snoc (bars : list Bar.t) (bar : Bar.t) :
  gapless bars ->
  (forall b1 : Bar.t, last_bar bars = Some b1 -> Bar.open bar = Bar.close b1) ->
  gapless (bars ++ [bar]).
Proof.
  intros G L i b1 b2 H1 H2.
  destruct (Nat.lt_ge_cases (S i) (length bars)) as [Hlt|Hge].
  - rewrite nth_error_app1 in H1 by lia. rewrite nth_error_app1 in H2 by lia.
    exact (G i b1 b2 H1 H2).
  - assert (Hi : S i = length bars).
    { assert (Hs : (S i < length (bars ++ [bar]))%nat)
        by (apply nth_error_Some; congruence).
      rewrite length_app in Hs. cbn in Hs. lia. }
    rewrite nth_error_app2 in H2 by lia.
    replace (S i - length bars)%nat with O in H2 by lia. cbn in H2.
    injection H2 as <-.
    rewrite nth_error_app1 in H1 by lia.
    apply L. unfold last_bar. rewrite <- Hi. exact H1.
Qed.

Lemma last_bar_snoc (bars : list Bar.t) (bar : Bar.t) :
  last_bar (bars ++ [bar]) = Some bar.
Proof.
  unfold last_bar. rewrite length_app. cbn [length].
  replace (pred (length bars + 1)) with (length bars) by lia.
  rewrite nth_error_app2 by lia. rewrite Nat.sub_diag. reflexivity.
Qed.

Lemma update_keeps_open (b b' : BarBuilder.t) (tick : Tick.t) (o : Price) :
  well_kept b ->
  BarBuilder.update tick b = (Returned tt, b') ->
  BarBuilder._open b = Some o ->
  BarBuilder._open b' = Some o.
Proof.
  intros W U Ho.
  destruct (BarBuilder._get_price b tick) as [quote|e] eqn:Hp.
  2:{ rewrite (update_without_price b tick e Hp) in U. injection U as <-. exact Ho. }
  destruct (get_price_volume _ _ _ Hp) as [v Hv].
  unfold well_kept in W. rewrite Ho in W. destruct W as (h & l & Hh & Hl & Hle).
  rewrite (update_open_some b tick quote o h l v Hp Hv Ho Hh Hl Hle) in U.
  injection U as <-. reflexivity.
Qed.

(** The timer events of one [update], each closing a bar. *)
Lemma build_events (events : list Z) :
  forall (agg : TimeBarAggregator.t) (c : Price),
    BarBuilder._close (TimeBarAggregator._builder agg) = Some c ->
    BarBuilder._use_previous_close (TimeBarAggregator._builder agg) = true ->
    well_kept (TimeBarAggregator._builder agg) ->
    linked (TimeBarAggregator.handled agg) (TimeBarAggregator._builder agg) ->
    let agg' := fold_left (fun s event => TimeBarAggregator._build_event event s) events agg in
    length (TimeBarAggregator.handled agg')
      = (length (TimeBarAggregator.handled agg) + length events)%nat /\
    linked (TimeBarAggregator.handled agg') (TimeBarAggregator._builder agg') /\
    well_kept (TimeBarAggregator._builder agg') /\
    BarBuilder._use_previous_close (TimeBarAggregator._builder agg') = true /\
    BarBuilder.bar_spec (TimeBarAggregator._builder agg')
      = BarBuilder.bar_spec (TimeBarAggregator._builder agg) /\
    TimeBarAggregator._clock agg' = TimeBarAggregator._clock agg /\
    TimeBarAggregator.interval agg' = TimeBarAggregator.interval agg.
Proof.
  induction events as [|ev events IH]; intros agg c Hc Hu W L; cbn [fold_left].
  - cbn. rewrite Nat.add_0_r. repeat split; try assumption; apply L.
  - destruct agg as [b clock i nc handled].
    cbn [TimeBarAggregator._builder TimeBarAggregator.handled
         TimeBarAggregator._clock TimeBarAggregator.interval] in *.
    destruct b as [spec lu n o h l cl v upc].
    cbn [BarBuilder._close BarBuilder._use_previous_close BarBuilder.bar_spec] in *.
    subst cl upc.
    set (bar := Bar.mk o h l (Some c) v (Some ev)).
    set (b' := BarBuilder.mk spec lu 0 (Some c) (Some c) (Some c) (Some c) 0 true).
    change (TimeBarAggregator._build_event ev
              (TimeBarAggregator.mk
                 (BarBuilder.mk spec lu n o h l (Some c) v true) clock i nc handled))
      with (TimeBarAggregator.mk b' clock i nc (handled ++ [bar])).
    specialize (IH (TimeBarAggregator.mk b' clock i nc (handled ++ [bar])) c).
    cbn [TimeBarAggregator._builder TimeBarAggregator.handled
         TimeBarAggregator._clock TimeBarAggregator.interval] in IH.
    destruct IH as (I1 & I2 & I3 & I4 & I5 & I6 & I7).
    + reflexivity.
    + reflexivity.
    + unfold well_kept. cbn. exists c, c. repeat split. apply Qle_refl.
    + destruct L as [G Lk]. split.
      * apply gapless_snoc; [exact G|].
        intros b1 H1. destruct (Lk b1 H1) as (c1 & E1 & E2).
        cbn in E2. subst bar. cbn. congruence.
      * intros bar0 H0. rewrite last_bar_snoc in H0. injection H0 as <-.
        exists c. split; reflexivity.
    + repeat split; try assumption.
      * rewrite I1, length_app. cbn [length]. lia.
      * apply I2.
      * apply I2.
Qed.

Lemma expiries_length (next interval : Z) (k : nat) :
  length (Clock.expiries next interval k) = k.
Proof. unfold Clock.expiries. rewrite length_map, length_seq. reflexivity. Qed.

(** One tick keeps the aggregator on schedule. *)
Lemma update_on_schedule (start m : Z) (agg : TimeBarAggregator.t) (tick : Tick.t) :
  on_schedule start m agg ->
  m <= Tick.timestamp tick ->
  exists agg' : TimeBarAggregator.t,
    TimeBarAggregator.update tick agg = (Returned tt, agg') /\
    on_schedule start (Tick.timestamp tick) agg' /\
    TimeBarAggregator.interval agg' = TimeBarAggregator.interval agg.
Proof.
  intros (Ht & Hpend & Hi & Hint & Hnext & Hm & Hn & Hs & Hu & W & L) Hle.
  pose proof (get_price_supported _ tick Hs) as Hp.
  destruct (update_returns _ tick _ W Hp) as (b1 & U & Hc & _).
  destruct (update_well_kept _ b1 tick W U) as (W1 & Hspec & Hupc).
  assert (L1 : linked (TimeBarAggregator.handled agg) b1).
  { destruct L as [G Lk]. split; [exact G|].
    intros bar Hb. destruct (Lk bar Hb) as (c & E1 & E2).
    exists c. split; [exact E1|]. exact (update_keeps_open _ b1 tick c W U E2). }
  unfold TimeBarAggregator.update. rewrite U.
  cbn [TimeBarAggregator._clock]. rewrite Ht, Hnext.
  set (n := Z.of_nat (length (TimeBarAggregator.handled agg))) in *.
  set (i := Clock.timer_interval (TimeBarAggregator._clock agg)) in *.
  set (next := start + (n + 1) * i) in *.
  set (ts := Tick.timestamp tick) in *.
  destruct (next <=? ts) eqn:Hcmp.
  - apply Z.leb_le in Hcmp.
    unfold Clock.advance_time. rewrite Hnext. fold next.
    replace (next <=? ts) with true by (symmetry; apply Z.leb_le; exact Hcmp).
    fold i. rewrite Hpend. cbn [app Clock.get_pending_events Clock.pending
      Clock.is_test_clock Clock.time Clock.next_event_time Clock.timer_interval].
    set (k := Z.to_nat ((ts - next) / i + 1)).
    assert (Hq : 0 <= (ts - next) / i) by (apply Z.div_pos; lia).
    assert (Hk : Z.of_nat k = (ts - next) / i + 1) by (unfold k; lia).
    assert (Hdm := Z.div_mod (ts - next) i ltac:(lia)).
    assert (Hmod := Z.mod_pos_bound (ts - next) i Hi).
    set (agg0 := TimeBarAggregator.mk b1
                   (Clock.mk (Clock.is_test_clock (TimeBarAggregator._clock agg)) ts
                      (Some (aware (next + Z.of_nat k * i))) i [])
                   (TimeBarAggregator.interval agg)
                   (TimeBarAggregator.next_close agg)
                   (TimeBarAggregator.handled agg)).
    destruct (build_events (Clock.expiries next i k) agg0 _ Hc) as
      (B1 & B2 & B3 & B4 & B5 & B6 & B7).
    { cbn. congruence. }
    { exact W1. }
    { exact L1. }
    cbn [TimeBarAggregator._clock TimeBarAggregator._builder TimeBarAggregator.handled
         TimeBarAggregator.interval TimeBarAggregator.next_close].
    fold agg0. eexists. split; [reflexivity|].
    split; [|cbn [TimeBarAggregator.interval]; exact B7].
    unfold on_schedule.
    cbn [TimeBarAggregator._clock TimeBarAggregator._builder
         TimeBarAggregator.handled TimeBarAggregator.interval]. rewrite B6, B7, B1, B5. cbn. rewrite expiries_length.
    fold n. rewrite Hspec.
    repeat split; try assumption; try apply B2.
    + do 2 f_equal. unfold next. lia.
    + unfold next in *. nia.
    + right. unfold next in *. nia.
  - apply Z.leb_gt in Hcmp.
    eexists. split; [reflexivity|]. split; [|reflexivity].
    unfold on_schedule.
    cbn [TimeBarAggregator._clock TimeBarAggregator._builder
         TimeBarAggregator.handled TimeBarAggregator.interval].
    fold n i next. rewrite Hspec, Hupc.
    repeat split; try assumption; try apply L1.
    destruct Hn as [Hn|Hn]; [left; exact Hn|right; lia].
Qed.

Lemma last_cons (A : Type) (l : list A) (a d : A) :
  List.last (a :: l) d = List.last l a.
Proof.
  revert a d. induction l as [|b l IH]; intros a d; [reflexivity|].
  change (List.last (a :: b :: l) d) with (List.last (b :: l) d).
  rewrite (IH b d), (IH b a). reflexivity.
Qed.

Lemma update_all_on_schedule (start : Z) (ticks : list Tick.t) :
  forall (m : Z) (agg : TimeBarAggregator.t),
    on_schedule start m agg ->
    StronglySorted Z.le (m :: map Tick.timestamp ticks) ->
    exists agg' : TimeBarAggregator.t,
      TimeBarAggregator.update_all ticks agg = (Returned tt, agg') /\
      on_schedule start (List.last (map Tick.timestamp ticks) m) agg' /\
      TimeBarAggregator.interval agg' = TimeBarAggregator.interval agg.
Proof.
  induction ticks as [|t ticks IH]; intros m agg J Hs.
  - exists agg. split; [reflexivity|]. split; [exact J|reflexivity].
  - cbn [map] in Hs. apply StronglySorted_inv in Hs. destruct Hs as [Hs Hall].
    apply Forall_inv in Hall.
    destruct (update_on_schedule start m agg t J Hall) as (agg1 & U & J1 & E1).
    destruct (IH (Tick.timestamp t) agg1 J1 Hs) as (agg' & U' & J' & E').
    exists agg'. split; [|split].
    + cbn [TimeBarAggregator.update_all]. rewrite U. exact U'.
    + cbn [map]. rewrite last_cons. exact J'.
    + congruence.
Qed.

End TimeBarFacts.

Lemma intervals_elapsed_count (start i m : Z) (n : nat) :
  0 < i ->
  m < start + (Z.of_nat n + 1) * i ->
  Z.of_nat n = 0 \/ start + Z.of_nat n * i <= m ->
  intervals_elapsed start i m = n.
Proof.
  intros Hi Hm Hn. unfold intervals_elapsed.
  assert (Hdm := Z.div_mod (m - start) i ltac:(lia)).
  assert (Hmod := Z.mod_pos_bound (m - start) i Hi).
  destruct Hn as [Hn|Hn].
  - assert ((m - start) / i <= 0) by nia. lia.
  - assert ((m - start) / i = Z.of_nat n) by nia. lia.
Qed.

Lemma sorted_from_below (m x : Z) (l : list Z) :
  m <= x -> StronglySorted Z.le (x :: l) -> StronglySorted Z.le (m :: x :: l).
Proof.
  intros Hm Hs. constructor; [exact Hs|].
  constructor; [exact Hm|].
  apply StronglySorted_inv in Hs. destruct Hs as [_ Hall].
  eapply List.Forall_impl; [|exact Hall]. cbn. intros y Hy. lia.
Qed.

Lemma get_interval_positive (spec : BarSpecification.t) (i : Z) :
  TimeBarAggregator._get_interval spec = Returned i ->
  0 < BarSpecification.step spec ->
  0 < i.
Proof.
  unfold TimeBarAggregator._get_interval, MICROSECONDS_PER_SECOND.
  destruct (BarSpecification.structure spec); intros [= <-] H; lia.
Qed.

Lemma init_unfold {PM : PriceModel}
    (spec : BarSpecification.t) (clock : Clock.t) (agg : TimeBarAggregator.t)
    (start : datetime) :
  TimeBarAggregator.__init__ spec clock = Returned agg ->
  TimeBarAggregator._get_start_time spec clock = Returned start ->
  exists i : Z,
    TimeBarAggregator._get_interval spec = Returned i /\
    agg = TimeBarAggregator.mk (BarBuilder.__init__ spec true)
            (Clock.set_timer i start clock) i (Clock.next_event_time clock) [].
Proof.
  unfold TimeBarAggregator.__init__, TimeBarAggregator._set_build_timer, bind.
  destruct (TimeBarAggregator._get_interval spec) as [i|]; [|discriminate].
  intros [= <-] ->. exists i. split; reflexivity.
Qed.

(** C6 (the code at the failing input): a time aggregator of one-day bars on
    a simulation clock.  The DAY branch of [_get_start_time] builds the start
    time without a [tzinfo], where the SECOND, MINUTE and HOUR branches pass
    the clock's: the aggregator is constructed, the next event time of its
    timer is naive, and [update] raises [TypeError] when it compares that
    time with the timestamp of the tick.  This happens at every tick, after
    the builder has taken the tick, and no bar is handed over. *)
Theorem day_bars_raise_at_every_tick :
  exists agg : TimeBarAggregator.t (PM := Sample.five_places),
    TimeBarAggregator.__init__ Sample.mid_days Sample.test_clock = Returned agg /\
    TimeBarAggregator._get_start_time Sample.mid_days Sample.test_clock
      = Returned (naive 0) /\
    TimeBarAggregator._get_start_time Sample.mid_minutes Sample.test_clock
      = Returned (aware 0) /\
    Clock.next_event_time (TimeBarAggregator._clock agg) = Some (naive 86400000000) /\
    forall ticks : list Tick.t,
      ticks <> [] ->
      fst (TimeBarAggregator.update_all ticks agg) = Raised TypeError /\
      TimeBarAggregator.handled (snd (TimeBarAggregator.update_all ticks agg)) = [].
Proof.
  eexists. split; [reflexivity|]. split; [reflexivity|]. split; [reflexivity|].
  split; [reflexivity|].
  intros [|tick ticks] H; [contradiction|].
  cbn [TimeBarAggregator.update_all]. unfold TimeBarAggregator.update.
  unfold BarBuilder.update, unraisable.
  cbn [TimeBarAggregator._builder TimeBarAggregator._clock TimeBarAggregator.interval
       TimeBarAggregator.next_close TimeBarAggregator.handled snd].
  split; reflexivity.
Qed.

(** One-minute bars on a clock started at 0:00:30, ticks at 0:00:40, 0:03:20
    and 0:04:10 with midpoints 11, 12 and 13.  The tick of 0:03:20 is in the
    builder when the timer events of 0:01, 0:02 and 0:03 are fired, so the
    first bar closes at 12 and the two bars of the minutes without a tick
    are flat at 12; the tick of 0:04:10 closes the fourth bar at 13. *)
Example four_minute_bars :
  TimeBarAggregator.handled (PM := Sample.five_places)
    (snd (TimeBarAggregator.update_all
            [Sample.tick 10 12 40000000; Sample.tick 11 13 200000000;
             Sample.tick 12 14 250000000]
            (TimeBarAggregator.mk (BarBuilder.__init__ Sample.mid_minutes true)
               (Clock.mk true 30000000 (Some (aware 60000000)) 60000000 []) 60000000 None [])))
  = [Bar.mk (PM := Sample.five_places)
       (Some (Sample.round5 11)) (Some (Sample.round5 12)) (Some (Sample.round5 11))
       (Some (Sample.round5 12)) 30 (Some 60000000);
     Bar.mk (PM := Sample.five_places)
       (Some (Sample.round5 12)) (Some (Sample.round5 12)) (Some (Sample.round5 12))
       (Some (Sample.round5 12)) 0 (Some 120000000);
     Bar.mk (PM := Sample.five_places)
       (Some (Sample.round5 12)) (Some (Sample.round5 12)) (Some (Sample.round5 12))
       (Some (Sample.round5 12)) 0 (Some 180000000);
     Bar.mk (PM := Sample.five_places)
       (Some (Sample.round5 12)) (Some (Sample.round5 13)) (Some (Sample.round5 12))
       (Some (Sample.round5 13)) 15 (Some 240000000)].
Proof. vm_compute. reflexivity. Qed.

(** ** Decimal strings *)

(** The strings Python prints for some decimals, and the decimals it reads. *)
Example str_of_decimals :
  Decimal.to_string (Decimal.mk false 12345 (-2)) = "123.45" /\
  Decimal.to_string (Decimal.mk true 5 (-6)) = "-0.000005" /\
  Decimal.to_string (Decimal.mk true 5 (-7)) = "-5E-7" /\
  Decimal.to_string (Decimal.mk false 123 3) = "1.23E+5" /\
  Decimal.to_string (Decimal.mk false 0 (-7)) = "0E-7" /\
  Decimal.to_string (Decimal.mk false 100 0) = "100".
Proof. repeat split. Qed.

Example decimals_of_str :
  Decimal.of_string "123.45" = Returned (Decimal.mk false 12345 (-2)) /\
  Decimal.of_string "-5E-7" = Returned (Decimal.mk true 5 (-7)) /\
  Decimal.of_string ".5" = Returned (Decimal.mk false 5 (-1)) /\
  Decimal.of_string "1.23e5" = Returned (Decimal.mk false 123 3) /\
  Decimal.of_string "." = Raised InvalidOperation /\
  Decimal.of_string "1E" = Raised InvalidOperation /\
  Decimal.of_string "12a" = Raised InvalidOperation.
Proof. repeat split. Qed.

(** [format(d, ".5f")] rounds half to even. *)
Example format_of_decimals :
  Decimal.format_f 5 (Decimal.mk false 123456 (-6)) = "0.12346" /\
  Decimal.format_f 5 (Decimal.mk false 15 (-6)) = "0.00002" /\
  Decimal.format_f 5 (Decimal.mk false 25 (-6)) = "0.00002" /\
  Decimal.format_f 5 (Decimal.mk false 5 (-1)) = "0.50000" /\
  Decimal.format_f 5 (Decimal.mk true 1 (-6)) = "-0.00000" /\
  Decimal.format_f 5 (Decimal.mk false 1 3) = "1000.00000".
Proof. repeat split. Qed.

Lemma string_app_cons (c : ascii) (a b : string) : String c a +:+ b = String c (a +:+ b).
Proof. reflexivity. Qed.

Lemma string_app_nil_l (b : string) : "" +:+ b = b.
Proof. reflexivity. Qed.

Lemma string_app_assoc (a b c : string) : (a +:+ b) +:+ c = a +:+ (b +:+ c).
Proof.
  induction a as [|x a IH]; [reflexivity|].
  rewrite !string_app_cons, IH. reflexivity.
Qed.

Lemma string_app_nil_r (a : string) : a +:+ "" = a.
Proof.
  induction a as [|x a IH]; [reflexivity|].
  rewrite string_app_cons, IH. reflexivity.
Qed.

Lemma string_length_app (a b : string) :
  String.length (a +:+ b) = (String.length a + String.length b)%nat.
Proof.
  induction a as [|x a IH]; [reflexivity|].
  rewrite string_app_cons. simpl. rewrite IH. reflexivity.
Qed.

Lemma digit_char_is_digit (n : N) : (n < 10)%N -> Decimal.is_digit (Decimal.digit_char n) = true.
Proof.
  intros H. unfold Decimal.is_digit, Decimal.digit_char.
  rewrite N_ascii_embedding by lia.
  apply andb_true_iff. split; apply N.leb_le; lia.
Qed.

Lemma digit_char_value (n : N) : (n < 10)%N -> Decimal.digit_value (Decimal.digit_char n) = n.
Proof.
  intros H. unfold Decimal.digit_value, Decimal.digit_char.
  rewrite N_ascii_embedding by lia. lia.
Qed.

Lemma all_digits_app (a b : string) :
  Decimal.all_digits (a +:+ b) = Decimal.all_digits a && Decimal.all_digits b.
Proof.
  induction a as [|x a IH]; [reflexivity|].
  rewrite string_app_cons. simpl. rewrite IH. apply andb_assoc.
Qed.

Lemma digits_before_all_digits (fuel : nat) (n : N) (acc : string) :
  Decimal.all_digits acc = true ->
  Decimal.all_digits (Decimal.digits_before fuel n acc) = true.
Proof.
  revert n acc. induction fuel as [|fuel IH]; intros n acc H; cbn; [exact H|].
  assert (Hd : Decimal.all_digits (String (Decimal.digit_char (n mod 10)) acc) = true).
  { cbn. rewrite digit_char_is_digit, H; [reflexivity|]. apply N.mod_lt. lia. }
  destruct (n / 10 =? 0)%N; [exact Hd|]. apply IH. exact Hd.
Qed.

Lemma digits_before_value (fuel : nat) (n : N) (acc : string) :
  (n < 2 ^ N.of_nat fuel)%N ->
  Decimal.N_of_digits_from 0 (Decimal.digits_before fuel n acc)
    = Decimal.N_of_digits_from n acc.
Proof.
  revert n acc. induction fuel as [|fuel IH]; intros n acc H.
  - cbn in *. replace n with 0%N by lia. reflexivity.
  - cbn [Decimal.digits_before].
    assert (Hm : (n mod 10 < 10)%N) by (apply N.mod_lt; lia).
    assert (Hdm := N.div_mod n 10 ltac:(lia)).
    destruct (n / 10 =? 0)%N eqn:E.
    + apply N.eqb_eq in E. cbn [Decimal.N_of_digits_from].
      rewrite digit_char_value by exact Hm. f_equal. lia.
    + rewrite IH.
      * cbn [Decimal.N_of_digits_from]. rewrite digit_char_value by exact Hm.
        f_equal. lia.
      * rewrite Nat2N.inj_succ, N.pow_succ_r' in H.
        assert (n / 10 <= n / 2)%N.
        { apply N.div_le_compat_l. lia. }
        assert (n / 2 < 2 ^ N.of_nat fuel)%N by (apply N.Div0.div_lt_upper_bound; lia).
        lia.
Qed.

Lemma N_of_to_digits (n : N) : Decimal.N_of_digits (Decimal.N_to_digits n) = n.
Proof.
  unfold Decimal.N_of_digits, Decimal.N_to_digits.
  rewrite digits_before_value; [reflexivity|].
  rewrite Nat2N.inj_succ, N2Nat.id, N.pow_succ_r'.
  assert (H := N.size_gt n).
  assert (0 < 2 ^ N.size n)%N by (apply N.neq_0_lt_0, N.pow_nonzero; lia).
  lia.
Qed.

Lemma N_to_digits_all_digits (n : N) : Decimal.all_digits (Decimal.N_to_digits n) = true.
Proof. apply digits_before_all_digits. reflexivity. Qed.

Lemma digits_before_cons (fuel : nat) (n : N) (c : ascii) (acc : string) :
  exists (c' : ascii) (r : string),
    Decimal.digits_before fuel n (String c acc) = String c' r.
Proof.
  revert n c acc. induction fuel as [|fuel IH]; intros n c acc; cbn.
  - eauto.
  - destruct (n / 10 =? 0)%N; [eauto|]. apply IH.
Qed.

Lemma N_to_digits_cons (n : N) :
  exists (c : ascii) (r : string), Decimal.N_to_digits n = String c r.
Proof.
  unfold Decimal.N_to_digits. cbn [Decimal.digits_before].
  destruct (n / 10 =? 0)%N; [eauto|]. apply digits_before_cons.
Qed.

Lemma N_of_digits_from_app (acc : N) (a b : string) :
  Decimal.N_of_digits_from acc (a +:+ b)
    = Decimal.N_of_digits_from (Decimal.N_of_digits_from acc a) b.
Proof.
  revert acc. induction a as [|x a IH]; intros acc; [reflexivity|].
  rewrite string_app_cons. simpl. apply IH.
Qed.

Lemma N_of_digits_from_zeros (k : nat) (s : string) :
  Decimal.N_of_digits_from 0 (Decimal.zeros k +:+ s) = Decimal.N_of_digits_from 0 s.
Proof.
  induction k as [|k IH]; [reflexivity|].
  simpl Decimal.zeros. rewrite string_app_cons. simpl. exact IH.
Qed.

Lemma zeros_all_digits (k : nat) : Decimal.all_digits (Decimal.zeros k) = true.
Proof. induction k as [|k IH]; simpl; [reflexivity|]. exact IH. Qed.

Lemma zeros_length (k : nat) : String.length (Decimal.zeros k) = k.
Proof. induction k as [|k IH]; simpl; [reflexivity|]. rewrite IH. reflexivity. Qed.

Lemma take_drop (k : nat) (s : string) : Decimal.take k s +:+ Decimal.drop k s = s.
Proof.
  revert s. induction k as [|k IH]; intros [|c s]; simpl; try reflexivity.
  rewrite string_app_cons, IH. reflexivity.
Qed.

Lemma drop_length (k : nat) (s : string) :
  String.length (Decimal.drop k s) = (String.length s - k)%nat.
Proof.
  revert s. induction k as [|k IH]; intros [|c s]; simpl; try reflexivity. apply IH.
Qed.

Lemma take_all_digits (k : nat) (s : string) :
  Decimal.all_digits s = true -> Decimal.all_digits (Decimal.take k s) = true.
Proof.
  intros H. rewrite <- (take_drop k s), all_digits_app in H.
  apply andb_true_iff in H. apply H.
Qed.

Lemma drop_all_digits (k : nat) (s : string) :
  Decimal.all_digits s = true -> Decimal.all_digits (Decimal.drop k s) = true.
Proof.
  intros H. rewrite <- (take_drop k s), all_digits_app in H.
  apply andb_true_iff in H. apply H.
Qed.

Lemma span_digits_app (ds rest : string) :
  Decimal.all_digits ds = true ->
  stops rest ->
  Decimal.span_digits (ds +:+ rest) = (ds, rest).
Proof.
  intros H S. induction ds as [|c ds IH].
  - rewrite string_app_nil_l.
    destruct rest as [|c r]; [reflexivity|]. simpl in *. rewrite S. reflexivity.
  - simpl in H. apply andb_true_iff in H. destruct H as [Hc Hd].
    rewrite string_app_cons. simpl. rewrite Hc, (IH Hd). reflexivity.
Qed.

Lemma split_sign_digit (c : ascii) (r : string) :
  Decimal.is_digit c = true -> Decimal.split_sign (String c r) = (false, String c r).
Proof.
  destruct c as [[] [] [] [] [] [] [] []]; intros H; try reflexivity; discriminate H.
Qed.

Lemma N_to_digits_length_pos (n : N) : (0 < String.length (Decimal.N_to_digits n))%nat.
Proof. destruct (N_to_digits_cons n) as (c & r & ->). simpl. lia. Qed.

Lemma parse_exponent_signed (z : Z) :
  Decimal.parse_exponent ("E" +:+ Decimal.signed_digits z) = Some z.
Proof.
  unfold Decimal.signed_digits.
  destruct (N_to_digits_cons (Z.abs_N z)) as (c & r & E).
  assert (Hd := N_to_digits_all_digits (Z.abs_N z)).
  assert (Hv := N_of_to_digits (Z.abs_N z)).
  assert (Hs : Decimal.span_digits (Decimal.N_to_digits (Z.abs_N z))
               = (Decimal.N_to_digits (Z.abs_N z), "")).
  { rewrite <- (string_app_nil_r (Decimal.N_to_digits (Z.abs_N z))) at 1.
    apply span_digits_app; [exact Hd|exact I]. }
  destruct (z <? 0) eqn:Hz.
  - change (Decimal.parse_exponent ("E" +:+ "-" +:+ Decimal.N_to_digits (Z.abs_N z)))
      with (let '(ds, rest) := Decimal.span_digits (Decimal.N_to_digits (Z.abs_N z)) in
            match ds, rest with
            | String _ _, EmptyString => Some (- Z.of_N (Decimal.N_of_digits ds))
            | _, _ => None
            end).
    rewrite Hs. cbv zeta beta iota. rewrite E at 1. rewrite Hv.
    apply Z.ltb_lt in Hz. f_equal. lia.
  - change (Decimal.parse_exponent ("E" +:+ "+" +:+ Decimal.N_to_digits (Z.abs_N z)))
      with (let '(ds, rest) := Decimal.span_digits (Decimal.N_to_digits (Z.abs_N z)) in
            match ds, rest with
            | String _ _, EmptyString => Some (Z.of_N (Decimal.N_of_digits ds))
            | _, _ => None
            end).
    rewrite Hs. cbv zeta beta iota. rewrite E at 1. rewrite Hv.
    apply Z.ltb_ge in Hz. f_equal. lia.
Qed.

Lemma exponent_part_stops (t : string) (e : Z) : exponent_part t e -> stops t.
Proof. intros [[-> _]| ->]; [exact I|reflexivity]. Qed.

Lemma exponent_part_parse (t : string) (e : Z) :
  exponent_part t e -> Decimal.parse_exponent t = Some e.
Proof. intros [[-> ->]| ->]; [reflexivity|apply parse_exponent_signed]. Qed.

Lemma exponent_part_no_point (t : string) (e : Z) (A : Type) (x : string -> A) (y : A) :
  exponent_part t e ->
  match t with
  | String "." r => x r
  | _ => y
  end = y.
Proof. intros [[-> _]| ->]; reflexivity. Qed.

(** Reading a string made of a sign, digits, a point, digits and an exponent
    part, and one without the point. *)
Lemma of_string_point (neg : bool) (c : ascii) (ip fp t : string) (e : Z) :
  Decimal.is_digit c = true ->
  Decimal.all_digits ip = true ->
  Decimal.all_digits fp = true ->
  exponent_part t e ->
  Decimal.of_string (Decimal.sign_str neg +:+ String c ip +:+ ("." +:+ fp) +:+ t)
    = Returned (Decimal.mk neg (Decimal.N_of_digits (String c ip +:+ fp))
                  (e - Z.of_nat (String.length fp))).
Proof.
  intros Hc Hip Hfp Ht.
  change (("." +:+ fp) +:+ t) with ("." +:+ fp +:+ t).
  unfold Decimal.of_string.
  assert (Hsign : Decimal.split_sign
                    (Decimal.sign_str neg +:+ String c ip +:+ "." +:+ fp +:+ t)
                  = (neg, String c ip +:+ "." +:+ fp +:+ t)).
  { destruct neg; [reflexivity|]. apply split_sign_digit. exact Hc. }
  rewrite Hsign.
  rewrite (span_digits_app (String c ip) ("." +:+ fp +:+ t)).
  2:{ simpl. rewrite Hc, Hip. reflexivity. }
  2:{ reflexivity. }
  change ("." +:+ fp +:+ t) with (String "." (fp +:+ t)). cbv iota beta.
  rewrite (span_digits_app fp t Hfp (exponent_part_stops t e Ht)).
  rewrite string_app_cons. rewrite (exponent_part_parse t e Ht). reflexivity.
Qed.

Lemma of_string_plain (neg : bool) (c : ascii) (ip t : string) (e : Z) :
  Decimal.is_digit c = true ->
  Decimal.all_digits ip = true ->
  exponent_part t e ->
  Decimal.of_string (Decimal.sign_str neg +:+ String c ip +:+ t)
    = Returned (Decimal.mk neg (Decimal.N_of_digits (String c ip)) e).
Proof.
  intros Hc Hip Ht. unfold Decimal.of_string.
  assert (Hsign : Decimal.split_sign (Decimal.sign_str neg +:+ String c ip +:+ t)
                  = (neg, String c ip +:+ t)).
  { destruct neg; [reflexivity|]. apply split_sign_digit. exact Hc. }
  rewrite Hsign.
  rewrite (span_digits_app (String c ip) t).
  2:{ simpl. rewrite Hc, Hip. reflexivity. }
  2:{ exact (exponent_part_stops t e Ht). }
  rewrite (exponent_part_no_point t e _ _ _ Ht).
  rewrite string_app_nil_r, (exponent_part_parse t e Ht).
  simpl String.length. rewrite Z.sub_0_r. reflexivity.
Qed.

Lemma first_digit (s : string) (c : ascii) (r : string) :
  Decimal.all_digits s = true -> s = String c r ->
  Decimal.is_digit c = true /\ Decimal.all_digits r = true.
Proof. intros H ->. simpl in H. apply andb_true_iff in H. exact H. Qed.

Lemma take_cons (k : nat) (s : string) :
  (0 < k)%nat -> (0 < String.length s)%nat ->
  exists (c : ascii) (r : string), Decimal.take k s = String c r.
Proof.
  destruct k as [|k]; [lia|]. destruct s as [|c s]; simpl; [lia|]. eauto.
Qed.

(** [Decimal(str(d))] is [d], representation included. *)
Lemma of_string_to_string (d : Decimal.t) :
  Decimal.of_string (Decimal.to_string d) = Returned d.
Proof.
  destruct d as [neg co e]. unfold Decimal.to_string.
  cbn [Decimal.sign Decimal.coefficient Decimal.exponent].
  set (ds := Decimal.N_to_digits co).
  assert (Hall : Decimal.all_digits ds = true) by apply N_to_digits_all_digits.
  assert (Hval : Decimal.N_of_digits ds = co) by apply N_of_to_digits.
  assert (Hpos : (0 < String.length ds)%nat) by apply N_to_digits_length_pos.
  set (len := Z.of_nat (String.length ds)).
  assert (Hlen : 0 < len) by (unfold len; lia).
  destruct (N_to_digits_cons co) as (c0 & r0 & Hds). fold ds in Hds.
  destruct (first_digit ds c0 r0 Hall Hds) as [Hc0 Hr0].
  destruct ((e <=? 0) && (-6 <? e + len)) eqn:Hplain.
  - (* no exponent is written *)
    apply andb_true_iff in Hplain. destruct Hplain as [He Hld].
    apply Z.leb_le in He. apply Z.ltb_lt in Hld.
    rewrite Z.eqb_refl.
    destruct (e + len <=? 0) eqn:H0.
    + apply Z.leb_le in H0.
      rewrite (of_string_point neg "0" "" _ "" 0); try reflexivity.
      * f_equal. f_equal.
        -- rewrite string_app_cons, string_app_nil_l. unfold Decimal.N_of_digits.
           simpl Decimal.N_of_digits_from at 1.
           change (10 * 0 + Decimal.digit_value "0")%N with 0%N.
           rewrite N_of_digits_from_zeros. exact Hval.
        -- rewrite string_length_app, zeros_length. fold len. unfold len in *. lia.
      * rewrite all_digits_app, zeros_all_digits, Hall. reflexivity.
      * left. split; reflexivity.
    + apply Z.leb_gt in H0.
      destruct (len <=? e + len) eqn:H1.
      * apply Z.leb_le in H1. assert (e = 0) by lia. subst e.
        replace (Z.to_nat (0 + len - len)) with O by lia.
        simpl Decimal.zeros. rewrite string_app_nil_r.
        rewrite Hds. rewrite (of_string_plain neg c0 r0 "" 0 Hc0 Hr0).
        -- rewrite <- Hds, Hval. reflexivity.
        -- left. split; reflexivity.
      * apply Z.leb_gt in H1.
        destruct (take_cons (Z.to_nat (e + len)) ds) as (c1 & r1 & Ht); [lia|exact Hpos|].
        assert (Hta := take_all_digits (Z.to_nat (e + len)) ds Hall).
        destruct (first_digit _ c1 r1 Hta Ht) as [Hc1 Hr1].
        rewrite Ht.
        rewrite (of_string_point neg c1 r1 _ "" 0 Hc1 Hr1
                   (drop_all_digits (Z.to_nat (e + len)) ds Hall)).
        -- rewrite <- Ht, take_drop, Hval, drop_length. f_equal. f_equal.
           fold len. unfold len in *. lia.
        -- left. split; reflexivity.
  - (* scientific notation *)
    assert (Hne : (e + len =? 1) = false).
    { apply Z.eqb_neq. intros H1. apply andb_false_iff in Hplain.
      destruct Hplain as [H|H]; [apply Z.leb_gt in H|apply Z.ltb_ge in H]; lia. }
    rewrite Hne. change (1 <=? 0) with false. cbv iota.
    set (x := e + len - 1).
    assert (Hx : exponent_part ("E" +:+ Decimal.signed_digits x) x) by (right; reflexivity).
    destruct (len <=? 1) eqn:H1.
    + apply Z.leb_le in H1.
      replace (Z.to_nat (1 - len)) with O by lia.
      simpl Decimal.zeros. rewrite string_app_nil_r.
      rewrite string_app_nil_l.
      rewrite Hds. rewrite (of_string_plain neg c0 r0 _ x Hc0 Hr0 Hx).
      rewrite <- Hds, Hval. f_equal. f_equal. unfold x. lia.
    + apply Z.leb_gt in H1.
      destruct (take_cons (Z.to_nat 1) ds) as (c1 & r1 & Ht); [lia|exact Hpos|].
      assert (Hta := take_all_digits (Z.to_nat 1) ds Hall).
      destruct (first_digit _ c1 r1 Hta Ht) as [Hc1 Hr1].
      rewrite Ht.
      rewrite (of_string_point neg c1 r1 _ _ x Hc1 Hr1
                 (drop_all_digits (Z.to_nat 1) ds Hall) Hx).
      rewrite <- Ht, take_drop, Hval, drop_length. f_equal. f_equal.
      unfold x. fold len. unfold len in *. lia.
Qed.

Lemma decimal_eqb_refl (d : Decimal.t) : Decimal.eqb d d = true.
Proof. unfold Decimal.eqb. apply Z.eqb_refl. Qed.

Lemma rescale_pads (places : N) (d : Decimal.t) :
  - Z.of_N places <= Decimal.exponent d ->
  Decimal.rescale places d
    = Decimal.mk (Decimal.sign d)
        (Decimal.coefficient d * 10 ^ Z.to_N (Decimal.exponent d + Z.of_N places))
        (- Z.of_N places) /\
  Decimal.eqb (Decimal.rescale places d) d = true.
Proof.
  intros H. unfold Decimal.rescale.
  replace (- Z.of_N places <=? Decimal.exponent d) with true
    by (symmetry; apply Z.leb_le; exact H).
  replace (Decimal.exponent d - - Z.of_N places)
    with (Decimal.exponent d + Z.of_N places) by lia.
  split; [reflexivity|].
  unfold Decimal.eqb, Decimal.scaled.
  cbn [Decimal.sign Decimal.coefficient Decimal.exponent].
  rewrite Z.min_l by exact H. rewrite Z.sub_diag, Z.mul_1_r.
  rewrite N2Z.inj_mul, N2Z.inj_pow, Z2N.id by lia.
  replace (Decimal.exponent d - - Z.of_N places)
    with (Decimal.exponent d + Z.of_N places) by lia.
  change (Z.of_N 10) with 10. apply Z.eqb_refl.
Qed.

(** Reading back [format(d, ".5f")] gives [d] rescaled to five places. *)
Lemma of_string_format_f (places : N) (d : Decimal.t) :
  Decimal.of_string (Decimal.format_f places d) = Returned (Decimal.rescale places d).
Proof.
  assert (He : Decimal.exponent (Decimal.rescale places d) = - Z.of_N places).
  { unfold Decimal.rescale.
    destruct (- Z.of_N places <=? Decimal.exponent d); reflexivity. }
  unfold Decimal.format_f.
  destruct (Decimal.rescale places d) as [neg co e].
  cbn [Decimal.sign Decimal.coefficient Decimal.exponent] in *. subst e.
  set (ds := Decimal.N_to_digits co).
  assert (Hall : Decimal.all_digits ds = true) by apply N_to_digits_all_digits.
  assert (Hval : Decimal.N_of_digits ds = co) by apply N_of_to_digits.
  assert (Hpos : (0 < String.length ds)%nat) by apply N_to_digits_length_pos.
  set (len := Z.of_nat (String.length ds)).
  set (p := Z.of_N places).
  assert (Hp : 0 <= p) by (unfold p; lia).
  destruct (- p + len <? 0) eqn:H0.
  - apply Z.ltb_lt in H0.
    destruct (Decimal.zeros (Z.to_nat (- (- p + len))) +:+ ds) as [|f0 fr] eqn:Ef.
    { apply (f_equal String.length) in Ef.
      rewrite string_length_app, zeros_length in Ef. simpl in Ef. lia. }
    rewrite <- Ef. clear Ef.
    rewrite <- (string_app_nil_r ("." +:+ Decimal.zeros (Z.to_nat (- (- p + len))) +:+ ds)).
    rewrite (of_string_point neg "0" "" _ "" 0); try reflexivity.
    + f_equal. f_equal.
      * rewrite string_app_cons, string_app_nil_l. unfold Decimal.N_of_digits.
        simpl Decimal.N_of_digits_from at 1.
        change (10 * 0 + Decimal.digit_value "0")%N with 0%N.
        rewrite N_of_digits_from_zeros. exact Hval.
      * rewrite string_length_app, zeros_length. fold len. unfold len in *. lia.
    + rewrite all_digits_app, zeros_all_digits, Hall. reflexivity.
    + left. split; reflexivity.
  - apply Z.ltb_ge in H0.
    assert (Hdr := drop_all_digits (Z.to_nat (- p + len)) ds Hall).
    assert (Hta := take_all_digits (Z.to_nat (- p + len)) ds Hall).
    assert (Hdl := drop_length (Z.to_nat (- p + len)) ds).
    assert (Htd := take_drop (Z.to_nat (- p + len)) ds).
    destruct (Decimal.drop (Z.to_nat (- p + len)) ds) as [|f0 fr] eqn:Ef.
    + (* no digit after the point: [places] is 0 *)
      simpl in Hdl. assert (p = 0) by (unfold len in *; lia).
      rewrite string_app_nil_r in Htd.
      destruct (Decimal.take (Z.to_nat (- p + len)) ds) as [|c1 r1] eqn:Ht.
      * rewrite <- Htd in Hpos. simpl in Hpos. lia.
      * destruct (first_digit _ c1 r1 Hta eq_refl) as [Hc1 Hr1].
        rewrite <- (string_app_nil_r (String c1 r1)).
        rewrite (of_string_plain neg c1 r1 "" 0 Hc1 Hr1); [|left; split; reflexivity].
        rewrite Htd, Hval. f_equal. f_equal. lia.
    + rewrite <- Ef in *. clear Ef.
      rewrite <- (string_app_nil_r ("." +:+ Decimal.drop (Z.to_nat (- p + len)) ds)).
      destruct (Decimal.take (Z.to_nat (- p + len)) ds) as [|c1 r1] eqn:Ht.
      * rewrite (of_string_point neg "0" "" _ "" 0); try reflexivity; try exact Hdr.
        -- f_equal. f_equal.
           ++ rewrite string_app_nil_l in Htd. rewrite <- Htd in Hval. exact Hval.
           ++ rewrite Hdl.
              assert (Hl := f_equal String.length Htd).
              rewrite string_app_nil_l, Hdl in Hl.
              fold len. unfold len in *. lia.
        -- left. split; reflexivity.
      * destruct (first_digit _ c1 r1 Hta eq_refl) as [Hc1 Hr1].
        rewrite (of_string_point neg c1 r1 _ "" 0 Hc1 Hr1 Hdr).
        -- rewrite Htd, Hval, Hdl. f_equal. f_equal.
           fold len. unfold len in *. lia.
        -- left. split; reflexivity.
Qed.

Lemma to_string_not_empty (d : Decimal.t) : exists (c : ascii) (r : string),
  Decimal.to_string d = String c r.
Proof.
  assert (H := of_string_to_string d).
  destruct (Decimal.to_string d) as [|c r]; [discriminate H|eauto].
Qed.

(** ** Position events *)

Lemma position_side_eqb_eq (a b : PositionSide.t) : PositionSide.eqb a b = true <-> a = b.
Proof. destruct a, b; simpl; split; intros H; try reflexivity; discriminate H. Qed.

Lemma bind_returned {A B : Type} (m : outcome A) (k : A -> outcome B) (b : B) :
  bind m k = Returned b -> exists a : A, m = Returned a /\ k a = Returned b.
Proof. destruct m as [a|e]; simpl; [eauto|discriminate]. Qed.

Section EventFacts.
Context {MT : ModelTypes}.

Lemma opened_init_side (e : PositionEvent.t)
    (trader_id : TraderId) (strategy_id : StrategyId)
    (instrument_id : InstrumentId) (position_id : PositionId)
    (account_id : AccountId) (from_order : ClientOrderId)
    (entry : OrderSide.t) (side : PositionSide.t) (net_qty : Decimal.t)
    (quantity peak_qty last_qty : Quantity) (last_px : EventPrice)
    (currency : Currency) (avg_px_open : Decimal.t)
    (realized_points realized_return : Decimal.t) (realized_pnl : Money)
    (ts_opened_ns : PyVal) (event_id : UUID) (timestamp_ns : PyVal) :
  PositionOpened.__init__ trader_id strategy_id instrument_id position_id
    account_id from_order entry side net_qty quantity peak_qty last_qty last_px
    currency avg_px_open realized_points realized_return realized_pnl
    ts_opened_ns event_id timestamp_ns = Returned e ->
  PositionEvent.class e = Opened /\ PositionEvent.side e <> PositionSide.FLAT.
Proof.
  unfold PositionOpened.__init__. intros H.
  apply bind_returned in H. destruct H as (t1 & _ & H).
  apply bind_returned in H. destruct H as (t2 & _ & H).
  apply bind_returned in H. destruct H as ([] & Ha & H).
  injection H as <-. simpl. split; [reflexivity|].
  intros ->. discriminate Ha.
Qed.

Lemma changed_init_side (e : PositionEvent.t)
    (trader_id : TraderId) (strategy_id : StrategyId)
    (instrument_id : InstrumentId) (position_id : PositionId)
    (account_id : AccountId) (from_order : ClientOrderId)
    (entry : OrderSide.t) (side : PositionSide.t) (net_qty : Decimal.t)
    (quantity peak_qty last_qty : Quantity) (last_px : EventPrice)
    (currency : Currency) (avg_px_open : Decimal.t) (avg_px_close : option Decimal.t)
    (realized_points realized_return : Decimal.t) (realized_pnl : Money)
    (ts_opened_ns : PyVal) (event_id : UUID) (timestamp_ns : PyVal) :
  PositionChanged.__init__ trader_id strategy_id instrument_id position_id
    account_id from_order entry side net_qty quantity peak_qty last_qty last_px
    currency avg_px_open avg_px_close realized_points realized_return realized_pnl
    ts_opened_ns event_id timestamp_ns = Returned e ->
  PositionEvent.class e = Changed /\ PositionEvent.side e <> PositionSide.FLAT.
Proof.
  unfold PositionChanged.__init__. intros H.
  apply bind_returned in H. destruct H as (t1 & _ & H).
  apply bind_returned in H. destruct H as (t2 & _ & H).
  apply bind_returned in H. destruct H as ([] & Ha & H).
  injection H as <-. simpl. split; [reflexivity|].
  intros ->. discriminate Ha.
Qed.

Lemma closed_init_side (e : PositionEvent.t)
    (trader_id : TraderId) (strategy_id : StrategyId)
    (instrument_id : InstrumentId) (position_id : PositionId)
    (account_id : AccountId) (from_order : ClientOrderId)
    (entry : OrderSide.t) (side : PositionSide.t) (net_qty : Decimal.t)
    (quantity peak_qty last_qty : Quantity) (last_px : EventPrice)
    (currency : Currency) (avg_px_open : Decimal.t) (avg_px_close : option Decimal.t)
    (realized_points realized_return : Decimal.t) (realized_pnl : Money)
    (ts_opened_ns ts_closed_ns duration_ns : PyVal) (event_id : UUID)
    (timestamp_ns : PyVal) :
  PositionClosed.__init__ trader_id strategy_id instrument_id position_id
    account_id from_order entry side net_qty quantity peak_qty last_qty last_px
    currency avg_px_open avg_px_close realized_points realized_return realized_pnl
    ts_opened_ns ts_closed_ns duration_ns event_id timestamp_ns = Returned e ->
  PositionEvent.class e = Closed /\ PositionEvent.side e = PositionSide.FLAT.
Proof.
  unfold PositionClosed.__init__. intros H.
  apply bind_returned in H. destruct H as (d & _ & H).
  apply bind_returned in H. destruct H as (t1 & _ & H).
  apply bind_returned in H. destruct H as (t2 & _ & H).
  apply bind_returned in H. destruct H as (t3 & _ & H).
  apply bind_returned in H. destruct H as (t4 & _ & H).
  apply bind_returned in H. destruct H as ([] & Ha & H).
  injection H as <-. simpl. split; [reflexivity|].
  unfold py_assert in Ha.
  destruct (PositionSide.eqb side PositionSide.FLAT) eqn:E; [|discriminate Ha].
  apply position_side_eqb_eq. exact E.
Qed.

Tactic Notation "peel" integer(n) hyp(H) :=
  do n (apply bind_returned in H; let x := fresh "x" in destruct H as (x & _ & H)).

Lemma from_dict_side (c : EventClass) (values : gmap string PyVal) (e : PositionEvent.t) :
  from_dict values c = Returned e ->
  PositionEvent.class e = c /\
  match c with
  | Opened | Changed => PositionEvent.side e <> PositionSide.FLAT
  | Closed => PositionEvent.side e = PositionSide.FLAT
  end.
Proof.
  destruct c; unfold from_dict, PositionOpened.from_dict, PositionChanged.from_dict,
    PositionClosed.from_dict, PositionOpened.from_dict_c, PositionChanged.from_dict_c,
    PositionClosed.from_dict_c; intros H.
  - peel 21 H. eapply opened_init_side; exact H.
  - peel 23 H. eapply changed_init_side; exact H.
  - peel 24 H. eapply closed_init_side; exact H.
Qed.

Lemma built_side (e : PositionEvent.t) :
  built e ->
  match PositionEvent.class e with
  | Opened | Changed => PositionEvent.side e <> PositionSide.FLAT
  | Closed => PositionEvent.side e = PositionSide.FLAT
  end.
Proof.
  intros B. destruct B as [e ? ? ? ? ? ? ? ? ? ? ? ? ? ? ? ? ? ? ? ? ? H
                          |e ? ? ? ? ? ? ? ? ? ? ? ? ? ? ? ? ? ? ? ? ? ? H
                          |e ? ? ? ? ? ? ? ? ? ? ? ? ? ? ? ? ? ? ? ? ? ? ? ? H
                          |c e position fill event_id ts H
                          |c e values H].
  - apply opened_init_side in H. destruct H as [-> H]. exact H.
  - apply changed_init_side in H. destruct H as [-> H]. exact H.
  - apply closed_init_side in H. destruct H as [-> H]. exact H.
  - destruct c.
    + apply opened_init_side in H. destruct H as [-> H]. exact H.
    + apply changed_init_side in H. destruct H as [-> H]. exact H.
    + apply closed_init_side in H. destruct H as [-> H]. exact H.
  - apply from_dict_side in H. destruct H as [-> H]. exact H.
Qed.

End EventFacts.

Lemma to_int64_returned (v : PyVal) (z : Z) : to_int64 v = Returned z -> in_int64 z = true.
Proof.
  destruct v as [s|x|]; simpl; try discriminate.
  destruct (in_int64 x) eqn:E; [|discriminate]. intros [= <-]. exact E.
Qed.

Section EventWellFormed.
Context {MT : ModelTypes}.

Lemma opened_init_well_formed (e : PositionEvent.t)
    (trader_id : TraderId) (strategy_id : StrategyId)
    (instrument_id : InstrumentId) (position_id : PositionId)
    (account_id : AccountId) (from_order : ClientOrderId)
    (entry : OrderSide.t) (side : PositionSide.t) (net_qty : Decimal.t)
    (quantity peak_qty last_qty : Quantity) (last_px : EventPrice)
    (currency : Currency) (avg_px_open : Decimal.t)
    (realized_points realized_return : Decimal.t) (realized_pnl : Money)
    (ts_opened_ns : PyVal) (event_id : UUID) (timestamp_ns : PyVal) :
  PositionOpened.__init__ trader_id strategy_id instrument_id position_id
    account_id from_order entry side net_qty quantity peak_qty last_qty last_px
    currency avg_px_open realized_points realized_return realized_pnl
    ts_opened_ns event_id timestamp_ns = Returned e ->
  well_formed e.
Proof.
  intros H. assert (Hs := opened_init_side _ _ _ _ _ _ _ _ _ _ _ _ _ _ _ _ _ _ _ _ _ _ H).
  unfold PositionOpened.__init__ in H.
  apply bind_returned in H. destruct H as (t1 & H1 & H).
  apply bind_returned in H. destruct H as (t2 & H2 & H).
  apply bind_returned in H. destruct H as ([] & _ & H).
  apply to_int64_returned in H1, H2.
  injection H as <-. unfold well_formed. simpl in *.
  repeat split; try assumption. apply Hs.
Qed.

Lemma changed_init_well_formed (e : PositionEvent.t)
    (trader_id : TraderId) (strategy_id : StrategyId)
    (instrument_id : InstrumentId) (position_id : PositionId)
    (account_id : AccountId) (from_order : ClientOrderId)
    (entry : OrderSide.t) (side : PositionSide.t) (net_qty : Decimal.t)
    (quantity peak_qty last_qty : Quantity) (last_px : EventPrice)
    (currency : Currency) (avg_px_open : Decimal.t) (avg_px_close : option Decimal.t)
    (realized_points realized_return : Decimal.t) (realized_pnl : Money)
    (ts_opened_ns : PyVal) (event_id : UUID) (timestamp_ns : PyVal) :
  PositionChanged.__init__ trader_id strategy_id instrument_id position_id
    account_id from_order entry side net_qty quantity peak_qty last_qty last_px
    currency avg_px_open avg_px_close realized_points realized_return realized_pnl
    ts_opened_ns event_id timestamp_ns = Returned e ->
  well_formed e.
Proof.
  intros H. assert (Hs := changed_init_side _ _ _ _ _ _ _ _ _ _ _ _ _ _ _ _ _ _ _ _ _ _ _ H).
  unfold PositionChanged.__init__ in H.
  apply bind_returned in H. destruct H as (t1 & H1 & H).
  apply bind_returned in H. destruct H as (t2 & H2 & H).
  apply bind_returned in H. destruct H as ([] & _ & H).
  apply to_int64_returned in H1, H2.
  injection H as <-. unfold well_formed. simpl in *.
  repeat split; try assumption. apply Hs.
Qed.

Lemma closed_init_well_formed (e : PositionEvent.t)
    (trader_id : TraderId) (strategy_id : StrategyId)
    (instrument_id : InstrumentId) (position_id : PositionId)
    (account_id : AccountId) (from_order : ClientOrderId)
    (entry : OrderSide.t) (side : PositionSide.t) (net_qty : Decimal.t)
    (quantity peak_qty last_qty : Quantity) (last_px : EventPrice)
    (currency : Currency) (avg_px_open : Decimal.t) (avg_px_close : option Decimal.t)
    (realized_points realized_return : Decimal.t) (realized_pnl : Money)
    (ts_opened_ns ts_closed_ns duration_ns : PyVal) (event_id : UUID)
    (timestamp_ns : PyVal) :
  PositionClosed.__init__ trader_id strategy_id instrument_id position_id
    account_id from_order entry side net_qty quantity peak_qty last_qty last_px
    currency avg_px_open avg_px_close realized_points realized_return realized_pnl
    ts_opened_ns ts_closed_ns duration_ns event_id timestamp_ns = Returned e ->
  well_formed e.
Proof.
  intros H.
  assert (Hs := closed_init_side _ _ _ _ _ _ _ _ _ _ _ _ _ _ _ _ _ _ _ _ _ _ _ _ _ H).
  unfold PositionClosed.__init__ in H.
  apply bind_returned in H. destruct H as (d & _ & H).
  apply bind_returned in H. destruct H as (t1 & H1 & H).
  apply bind_returned in H. destruct H as (t2 & H2 & H).
  apply bind_returned in H. destruct H as (t3 & H3 & H).
  apply bind_returned in H. destruct H as (t4 & H4 & H).
  apply bind_returned in H. destruct H as ([] & _ & H).
  apply to_int64_returned in H1, H2, H3, H4.
  injection H as <-. unfold well_formed. simpl in *.
  repeat split; try assumption; try apply Hs. discriminate.
Qed.

Tactic Notation "peel" integer(n) hyp(H) :=
  do n (apply bind_returned in H; let x := fresh "x" in destruct H as (x & _ & H)).

(** Every event that exists is well-formed. *)
Lemma built_well_formed (e : PositionEvent.t) : built e -> well_formed e.
Proof.
  intros B. destruct B as [e ? ? ? ? ? ? ? ? ? ? ? ? ? ? ? ? ? ? ? ? ? H
                          |e ? ? ? ? ? ? ? ? ? ? ? ? ? ? ? ? ? ? ? ? ? ? H
                          |e ? ? ? ? ? ? ? ? ? ? ? ? ? ? ? ? ? ? ? ? ? ? ? ? H
                          |c e position fill event_id ts H
                          |c e values H].
  - eapply opened_init_well_formed; exact H.
  - eapply changed_init_well_formed; exact H.
  - eapply closed_init_well_formed; exact H.
  - destruct c.
    + eapply opened_init_well_formed; exact H.
    + eapply changed_init_well_formed; exact H.
    + eapply closed_init_well_formed; exact H.
  - destruct c; unfold from_dict, PositionOpened.from_dict, PositionChanged.from_dict,
      PositionClosed.from_dict, PositionOpened.from_dict_c, PositionChanged.from_dict_c,
      PositionClosed.from_dict_c in H.
    + peel 21 H. eapply opened_init_well_formed; exact H.
    + peel 23 H. eapply changed_init_well_formed; exact H.
    + peel 24 H. eapply closed_init_well_formed; exact H.
Qed.

End EventWellFormed.

(** C10: every event a constructor returned, whether the constructor was
    called directly, by [create] or by [from_dict], has a side other than
    FLAT when it is a PositionOpened or a PositionChanged and the side FLAT
    when it is a PositionClosed.  From a position, [create] of an opened or
    a changed event raises [AssertionError] when the position is FLAT and
    returns when it is not; [create] of a closed event, for a position with
    a close price, raises [AssertionError] when the position is not FLAT and
    returns when it is. *)
Theorem event_side_matches_class {MT : ModelTypes} :
  (forall e : PositionEvent.t,
     built e ->
     match PositionEvent.class e with
     | Opened | Changed => PositionEvent.side e <> PositionSide.FLAT
     | Closed => PositionEvent.side e = PositionSide.FLAT
     end) /\
  (forall (position : ModelPosition.t) (fill : ModelOrderFilled.t)
          (event_id : UUID) (timestamp_ns : Z),
     in_int64 (ModelPosition.ts_opened_ns position) = true ->
     in_int64 timestamp_ns = true ->
     (ModelPosition.side position = PositionSide.FLAT ->
      PositionOpened.create position fill event_id timestamp_ns = Raised AssertionError /\
      PositionChanged.create position fill event_id timestamp_ns = Raised AssertionError) /\
     (ModelPosition.side position <> PositionSide.FLAT ->
      is_returned (PositionOpened.create position fill event_id timestamp_ns) = true /\
      is_returned (PositionChanged.create position fill event_id timestamp_ns) = true)) /\
  (forall (position : ModelPosition.t) (fill : ModelOrderFilled.t)
          (event_id : UUID) (timestamp_ns : Z) (close_price : Decimal.t),
     in_int64 (ModelPosition.ts_opened_ns position) = true ->
     in_int64 (ModelPosition.ts_closed_ns position) = true ->
     in_int64 (ModelPosition.duration_ns position) = true ->
     in_int64 timestamp_ns = true ->
     ModelPosition.avg_px_close position = Some close_price ->
     (ModelPosition.side position <> PositionSide.FLAT ->
      PositionClosed.create position fill event_id timestamp_ns = Raised AssertionError) /\
     (ModelPosition.side position = PositionSide.FLAT ->
      is_returned (PositionClosed.create position fill event_id timestamp_ns) = true)).
Proof.
  split; [exact built_side|]. split.
  - intros position fill event_id ts H1 H2.
    unfold PositionOpened.create, PositionOpened.create_c, PositionOpened.__init__,
      PositionChanged.create, PositionChanged.create_c, PositionChanged.__init__, to_int64.
    rewrite H1, H2. simpl.
    destruct (ModelPosition.side position); simpl; split; intros H;
      try discriminate H; try (exfalso; apply H; reflexivity); split; reflexivity.
  - intros position fill event_id ts d H1 H2 H3 H4 Hc.
    unfold PositionClosed.create, PositionClosed.create_c, PositionClosed.__init__, to_int64.
    rewrite H1, H2, H3, H4, Hc. simpl.
    destruct (ModelPosition.side position); simpl; split; intros H;
      try discriminate H; try (exfalso; apply H; reflexivity); reflexivity.
Qed.

Section RoundTrip.
Context {MT : ModelTypes}.

Lemma field_written {A : Type} `{StrCodec A}
    (values : gmap string PyVal) (key : string) (x : A) :
  values !! key = Some (VStr (to_str x)) ->
  field values key = Returned x.
Proof.
  intros E. unfold field, getitem, from_value. rewrite E. simpl.
  apply from_str_to_str.
Qed.

Lemma decimal_field_written (values : gmap string PyVal) (key : string) (d : Decimal.t) :
  values !! key = Some (VStr (Decimal.to_string d)) ->
  decimal_field values key = Returned d.
Proof.
  intros E. unfold decimal_field, getitem. rewrite E. simpl.
  apply of_string_to_string.
Qed.

Lemma decimal_field_formatted (values : gmap string PyVal) (key : string) (d : Decimal.t) :
  values !! key = Some (VStr (Decimal.format_f 5 d)) ->
  decimal_field values key = Returned (Decimal.rescale 5 d).
Proof.
  intros E. unfold decimal_field, getitem. rewrite E. simpl.
  apply of_string_format_f.
Qed.

Lemma getitem_written (values : gmap string PyVal) (key : string) (v : PyVal) :
  values !! key = Some v -> getitem values key = Returned v.
Proof. intros E. unfold getitem. rewrite E. reflexivity. Qed.

Lemma to_int64_in_range (z : Z) : in_int64 z = true -> to_int64 (VInt z) = Returned z.
Proof. intros H. unfold to_int64. rewrite H. reflexivity. Qed.

(** The fields every [from_dict_c] reads the same way. *)
Ltac read_common e :=
  rewrite (field_written (PositionEvent.to_dict_c e) "trader_id" (PositionEvent.trader_id e) eq_refl);
  rewrite (field_written (PositionEvent.to_dict_c e) "strategy_id" (PositionEvent.strategy_id e) eq_refl);
  rewrite (field_written (PositionEvent.to_dict_c e) "instrument_id" (PositionEvent.instrument_id e) eq_refl);
  rewrite (field_written (PositionEvent.to_dict_c e) "position_id" (PositionEvent.position_id e) eq_refl);
  rewrite (field_written (PositionEvent.to_dict_c e) "account_id" (PositionEvent.account_id e) eq_refl);
  rewrite (field_written (PositionEvent.to_dict_c e) "from_order" (PositionEvent.from_order e) eq_refl);
  rewrite (field_written (PositionEvent.to_dict_c e) "entry" (PositionEvent.entry e) eq_refl);
  rewrite (field_written (PositionEvent.to_dict_c e) "side" (PositionEvent.side e) eq_refl);
  rewrite (decimal_field_written (PositionEvent.to_dict_c e) "net_qty" (PositionEvent.net_qty e) eq_refl);
  rewrite (field_written (PositionEvent.to_dict_c e) "quantity" (PositionEvent.quantity e) eq_refl);
  rewrite (field_written (PositionEvent.to_dict_c e) "peak_qty" (PositionEvent.peak_qty e) eq_refl);
  rewrite (field_written (PositionEvent.to_dict_c e) "last_qty" (PositionEvent.last_qty e) eq_refl);
  rewrite (field_written (PositionEvent.to_dict_c e) "last_px" (PositionEvent.last_px e) eq_refl);
  rewrite (field_written (PositionEvent.to_dict_c e) "currency" (PositionEvent.currency e) eq_refl);
  rewrite (decimal_field_written (PositionEvent.to_dict_c e) "avg_px_open" (PositionEvent.avg_px_open e) eq_refl);
  rewrite (decimal_field_written (PositionEvent.to_dict_c e) "realized_points" (PositionEvent.realized_points e) eq_refl);
  rewrite (decimal_field_formatted (PositionEvent.to_dict_c e) "realized_return" (PositionEvent.realized_return e) eq_refl);
  rewrite (field_written (PositionEvent.to_dict_c e) "realized_pnl" (PositionEvent.realized_pnl e) eq_refl);
  rewrite (getitem_written (PositionEvent.to_dict_c e) "ts_opened_ns" (VInt (PositionEvent.ts_opened_ns e)) eq_refl);
  rewrite (field_written (PositionEvent.to_dict_c e) "event_id" (PositionEvent.id e) eq_refl);
  rewrite (getitem_written (PositionEvent.to_dict_c e) "timestamp_ns" (VInt (PositionEvent.timestamp_ns e)) eq_refl).

(** Reading back what [to_dict] wrote gives the event with
    [realized_return] rescaled to five places. *)
Lemma from_dict_to_dict (e : PositionEvent.t) :
  well_formed e ->
  close_price_not_zero e ->
  from_dict (to_dict e) (PositionEvent.class e)
    = Returned (PositionEvent.mk (PositionEvent.class e)
        (PositionEvent.trader_id e) (PositionEvent.strategy_id e)
        (PositionEvent.instrument_id e) (PositionEvent.position_id e)
        (PositionEvent.account_id e) (PositionEvent.from_order e)
        (PositionEvent.entry e) (PositionEvent.side e) (PositionEvent.net_qty e)
        (PositionEvent.quantity e) (PositionEvent.peak_qty e) (PositionEvent.last_qty e)
        (PositionEvent.last_px e) (PositionEvent.currency e)
        (PositionEvent.avg_px_open e) (PositionEvent.avg_px_close e)
        (PositionEvent.realized_points e)
        (Decimal.rescale 5 (PositionEvent.realized_return e))
        (PositionEvent.realized_pnl e) (PositionEvent.ts_opened_ns e)
        (PositionEvent.ts_closed_ns e) (PositionEvent.duration_ns e)
        (PositionEvent.id e) (PositionEvent.timestamp_ns e)).
Proof.
  intros (Hts & Htn & Hwf) Hz. unfold to_dict, from_dict.
  destruct (PositionEvent.class e) eqn:Hc.
  - destruct Hwf as (Hside & Hclose & Htc & Hd).
    unfold PositionOpened.from_dict, PositionOpened.from_dict_c, PositionOpened.to_dict,
      PositionOpened.to_dict_c.
    read_common e. cbn [bind]. unfold PositionOpened.__init__.
    rewrite (to_int64_in_range _ Hts), (to_int64_in_range _ Htn). cbn [bind].
    destruct (PositionEvent.side e) eqn:Es; [contradiction|..];
      simpl; rewrite Hclose, Htc, Hd; reflexivity.
  - destruct Hwf as (Hside & Htc & Hd).
    unfold PositionChanged.from_dict, PositionChanged.from_dict_c, PositionChanged.to_dict,
      PositionChanged.to_dict_c.
    unfold close_price_not_zero in Hz.
    destruct (PositionEvent.avg_px_close e) as [d|] eqn:Ea.
    + rewrite (getitem_written (PositionEvent.to_dict_c e) "avg_px_close"
                 (VStr (Decimal.to_string d)))
        by (unfold PositionEvent.to_dict_c; rewrite Ea, Hz; reflexivity).
      cbn [bind]. destruct (to_string_not_empty d) as (c & r & Es).
      unfold py_truthy. rewrite Es. rewrite <- Es.
      unfold Decimal_of. rewrite of_string_to_string. cbn [bind].
      read_common e. cbn [bind]. unfold PositionChanged.__init__.
      rewrite (to_int64_in_range _ Hts), (to_int64_in_range _ Htn). cbn [bind].
      destruct (PositionEvent.side e) eqn:Es'; [contradiction|..];
        simpl; rewrite Htc, Hd; reflexivity.
    + rewrite (getitem_written (PositionEvent.to_dict_c e) "avg_px_close" VNone)
        by (unfold PositionEvent.to_dict_c; rewrite Ea; reflexivity).
      cbn [bind py_truthy].
      read_common e. cbn [bind]. unfold PositionChanged.__init__.
      rewrite (to_int64_in_range _ Hts), (to_int64_in_range _ Htn). cbn [bind].
      destruct (PositionEvent.side e) eqn:Es'; [contradiction|..];
        simpl; rewrite Htc, Hd; reflexivity.
  - destruct Hwf as (Hside & Hclose & Htc & Hd).
    unfold PositionClosed.from_dict, PositionClosed.from_dict_c, PositionClosed.to_dict,
      PositionClosed.to_dict_c.
    unfold close_price_not_zero in Hz.
    destruct (PositionEvent.avg_px_close e) as [d|] eqn:Ea; [|contradiction].
    rewrite (decimal_field_written (PositionEvent.to_dict_c e) "avg_px_close" d)
      by (unfold PositionEvent.to_dict_c; rewrite Ea, Hz; reflexivity).
    rewrite (getitem_written (PositionEvent.to_dict_c e) "ts_closed_ns"
               (VInt (PositionEvent.ts_closed_ns e)) eq_refl).
    rewrite (getitem_written (PositionEvent.to_dict_c e) "duration_ns"
               (VInt (PositionEvent.duration_ns e)) eq_refl).
    read_common e. cbn [bind]. unfold PositionClosed.__init__. cbn [bind].
    rewrite (to_int64_in_range _ Hts), (to_int64_in_range _ Htn),
      (to_int64_in_range _ Htc), (to_int64_in_range _ Hd). cbn [bind].
    rewrite Hside. reflexivity.
Qed.

End RoundTrip.

(** C4 (counterexample): a well-formed PositionOpened event whose
    [realized_return] is 0.123456.  [to_dict] writes it as ["0.12346"], five
    places, where the exact string is ["0.123456"]; [from_dict] returns an
    event whose [realized_return] is 0.12346, which is not equal to
    0.123456: the fields of the event read back are not those of the
    event. *)
Lemma opened_event_return_is_rounded :
  well_formed (MT := Sample.strings) (Sample.opened_event (Sample.dec 123456 (-6))) /\
  Decimal.to_string (Sample.dec 123456 (-6)) = "0.123456" /\
  to_dict (MT := Sample.strings) (Sample.opened_event (Sample.dec 123456 (-6)))
    !! "realized_return" = Some (VStr "0.12346") /\
  from_dict (MT := Sample.strings)
    (to_dict (MT := Sample.strings) (Sample.opened_event (Sample.dec 123456 (-6)))) Opened
    = Returned (Sample.opened_event (Sample.dec 12346 (-5))) /\
  Decimal.eqb (Sample.dec 12346 (-5)) (Sample.dec 123456 (-6)) = false /\
  ~ same_fields (MT := Sample.strings)
      (Sample.opened_event (Sample.dec 12346 (-5)))
      (Sample.opened_event (Sample.dec 123456 (-6))).
Proof.
  split; [|split; [|split; [|split; [|split]]]].
  - repeat split; discriminate.
  - vm_compute. reflexivity.
  - vm_compute. reflexivity.
  - vm_compute. reflexivity.
  - vm_compute. reflexivity.
  - unfold same_fields. intros H. decompose [and] H.
    match goal with
    | E : Decimal.eqb (PositionEvent.realized_return _) _ = true |- _ =>
      vm_compute in E; discriminate E
    end.
Qed.

(** The truth test on [avg_px_close] in [to_dict] takes a close price of
    zero for no close price: a PositionChanged event with
    [avg_px_close = Decimal("0")] is read back with [avg_px_close = None]. *)
Example changed_event_zero_close_price :
  from_dict (MT := Sample.strings)
    (to_dict (MT := Sample.strings) (Sample.changed_event (Some (Sample.dec 0 0)))) Changed
    = Returned (Sample.changed_event None).
Proof. vm_compute. reflexivity. Qed.

(** C4 (amended): for every well-formed PositionOpened, PositionChanged or
    PositionClosed event whose [realized_return] has at most five digits
    after the point and whose [avg_px_close], when it has one, is not zero,
    [from_dict(to_dict(e))] returns an event equal to [e] field for field.
    The Decimal fields [net_qty], [avg_px_open], [avg_px_close] and
    [realized_points] go through their exact base-10 string and come back
    identical; [realized_return] is written with exactly five digits after
    the point and comes back equal in value, rescaled to five places. *)
Theorem event_round_trip {MT : ModelTypes} (e : PositionEvent.t) :
  well_formed e ->
  five_places e ->
  close_price_not_zero e ->
  exists e' : PositionEvent.t,
    from_dict (to_dict e) (PositionEvent.class e) = Returned e' /\
    same_fields e' e /\
    to_dict e !! "net_qty" = Some (VStr (Decimal.to_string (PositionEvent.net_qty e))) /\
    to_dict e !! "avg_px_open"
      = Some (VStr (Decimal.to_string (PositionEvent.avg_px_open e))) /\
    to_dict e !! "realized_points"
      = Some (VStr (Decimal.to_string (PositionEvent.realized_points e))) /\
    to_dict e !! "realized_return"
      = Some (VStr (Decimal.format_f 5 (PositionEvent.realized_return e))) /\
    PositionEvent.net_qty e' = PositionEvent.net_qty e /\
    PositionEvent.avg_px_open e' = PositionEvent.avg_px_open e /\
    PositionEvent.avg_px_close e' = PositionEvent.avg_px_close e /\
    PositionEvent.realized_points e' = PositionEvent.realized_points e /\
    PositionEvent.realized_return e' = Decimal.rescale 5 (PositionEvent.realized_return e).
Proof.
  intros Hwf H5 Hz. eexists. split; [apply from_dict_to_dict; assumption|].
  split.
  - unfold same_fields. cbn.
    repeat split; try apply decimal_eqb_refl.
    + destruct (PositionEvent.avg_px_close e); [apply decimal_eqb_refl|reflexivity].
    + apply rescale_pads. exact H5.
  - unfold to_dict. destruct (PositionEvent.class e); repeat split.
Qed.

Lemma event_round_trip_witness :
  exists e' : PositionEvent.t (MT := Sample.strings),
    from_dict (to_dict (Sample.closed_event (Sample.dec 12345 (-5)))) Closed = Returned e' /\
    same_fields e' (Sample.closed_event (Sample.dec 12345 (-5))) /\
    to_dict (Sample.closed_event (Sample.dec 12345 (-5))) !! "net_qty"
      = Some (VStr (Decimal.to_string (Sample.dec 100000 0))) /\
    to_dict (Sample.closed_event (Sample.dec 12345 (-5))) !! "avg_px_open"
      = Some (VStr (Decimal.to_string (Sample.dec 100050 (-5)))) /\
    to_dict (Sample.closed_event (Sample.dec 12345 (-5))) !! "realized_points"
      = Some (VStr (Decimal.to_string (Sample.dec 10 (-5)))) /\
    to_dict (Sample.closed_event (Sample.dec 12345 (-5))) !! "realized_return"
      = Some (VStr (Decimal.format_f 5 (Sample.dec 12345 (-5)))) /\
    PositionEvent.net_qty e' = Sample.dec 100000 0 /\
    PositionEvent.avg_px_open e' = Sample.dec 100050 (-5) /\
    PositionEvent.avg_px_close e' = Some (Sample.dec 100060 (-5)) /\
    PositionEvent.realized_points e' = Sample.dec 10 (-5) /\
    PositionEvent.realized_return e' = Decimal.rescale 5 (Sample.dec 12345 (-5)).
Proof.
  apply (event_round_trip (MT := Sample.strings)
           (Sample.closed_event (Sample.dec 12345 (-5)))).
  - repeat split. discriminate.
  - unfold five_places. simpl. lia.
  - reflexivity.
Defined.

Lemma event_side_matches_class_witness :
  PositionEvent.side (MT := Sample.strings) (Sample.opened_event (Sample.dec 1000 (-5)))
    <> PositionSide.FLAT.
Proof.
  apply (proj1 (event_side_matches_class (MT := Sample.strings))
           (Sample.opened_event (Sample.dec 1000 (-5)))).
  apply (built_from_dict (MT := Sample.strings) Opened _
           (to_dict (MT := Sample.strings) (Sample.opened_event (Sample.dec 1000 (-5))))).
  vm_compute. reflexivity.
Defined.

(** * Further properties of the code *)

(** ** Position: the ledger kept by [apply] *)



(** What [apply] does with a fill it accepts, and with any other event. *)
Lemma apply_accepted (e : OrderEvent) (f : Fill) (p : Position.t) :
  fill_of e = Some f ->
  accepted f = true ->
  Position.apply e p =
    (Returned tt,
     Position.append_execution (execution_id f) (execution_ticket f)
       (Position.update_fields (order_side f) (filled_quantity f) (average_price f)
          (execution_time f) (Position.append_event e p))).
Proof.
  unfold accepted. intros Hf Ha.
  apply andb_prop in Ha as [Ha Hpx]. apply andb_prop in Ha as [H0 H1].
  assert (Hc : to_c_int (filled_quantity f) = Returned (filled_quantity f)).
  { unfold to_c_int. apply Z.ltb_lt in H0. apply Z.leb_le in H1.
    replace (INT_MIN <=? filled_quantity f) with true
      by (symmetry; apply Z.leb_le; unfold INT_MIN; lia).
    rewrite (proj2 (Z.leb_le _ _) H1). reflexivity. }
  destruct e as [g|g|name]; simpl in Hf; try discriminate; injection Hf as ->;
    unfold Position.apply, Position.apply_body, Position.apply_fill,
      Position._update_position, Position._update_position_body, unraisable;
    rewrite Hc; cbv beta iota; rewrite H0, Hpx; reflexivity.
Qed.

Lemma to_c_int_in_range (z : Z) :
  to_c_int z = if in_c_int z then Returned z else Raised OverflowError.
Proof. reflexivity. Qed.

(** A fill whose quantity fits a C [int] and that fails a precondition: the
    [ValueError] stays in [_update_position], no field is written there, and
    [apply] goes on to record the execution. *)
Lemma apply_failed_precondition (e : OrderEvent) (f : Fill) (p : Position.t) :
  fill_of e = Some f ->
  accepted f = false ->
  in_c_int (filled_quantity f) = true ->
  fst (Position._update_position_body (order_side f) (filled_quantity f)
         (average_price f) (execution_time f) (Position.append_event e p))
    = Raised ValueError /\
  Position.apply e p =
    (Returned tt,
     Position.append_execution (execution_id f) (execution_ticket f)
       (Position.append_event e p)).
Proof.
  unfold accepted. intros Hf Ha Hr.
  assert (Hb : Position._update_position_body (order_side f) (filled_quantity f)
                 (average_price f) (execution_time f) (Position.append_event e p)
               = (Raised ValueError, Position.append_event e p)).
  { unfold Position._update_position_body.
    destruct (0 <? filled_quantity f) eqn:E0; [|reflexivity].
    cbn [Precondition.positive].
    destruct (Decimal.is_positive (average_price f)) eqn:Epx; [|reflexivity].
    unfold in_c_int in Hr. apply andb_prop in Hr as [_ Hr].
    rewrite Hr in Ha. discriminate. }
  split; [rewrite Hb; reflexivity|].
  destruct e as [g|g|name]; simpl in Hf; try discriminate; injection Hf as ->;
    unfold Position.apply, Position.apply_body, Position.apply_fill,
      Position._update_position, unraisable;
    rewrite to_c_int_in_range, Hr; cbv beta iota; rewrite Hb; reflexivity.
Qed.

(** A fill whose quantity does not fit a C [int], and an event that is not a
    fill: the body of [apply] raises, and the logged event is the only
    change. *)
Lemma apply_overflow (e : OrderEvent) (f : Fill) (p : Position.t) :
  fill_of e = Some f ->
  in_c_int (filled_quantity f) = false ->
  Position.apply_body e p = (Raised OverflowError, Position.append_event e p).
Proof.
  intros Hf Hr.
  destruct e as [g|g|name]; simpl in Hf; try discriminate; injection Hf as ->;
    unfold Position.apply_body, Position.apply_fill;
    rewrite to_c_int_in_range, Hr; reflexivity.
Qed.

Lemma apply_not_a_fill (e : OrderEvent) (p : Position.t) :
  fill_of e = None ->
  Position.apply_body e p = (Raised TypeError, Position.append_event e p).
Proof.
  destruct e as [g|g|name]; simpl; intros Hf; try discriminate. reflexivity.
Qed.

(** An event that is not an accepted fill leaves every field but the logs as
    it was. *)
Lemma apply_rejected (e : OrderEvent) (p : Position.t) :
  accepted_fill e = false ->
  exists ids tickets : list string,
    Position.apply e p =
      (Returned tt,
       Position.mk (Position._symbol p) (Position._id p) (Position._timestamp p)
         (Position._relative_quantity p) (Position._peak_quantity p)
         (Position._entry_time p) (Position._exit_time p)
         (Position._average_entry_price p) (Position._average_exit_price p)
         (Position._events p ++ [e]) ids tickets).
Proof.
  unfold accepted_fill. intros Ha.
  destruct (fill_of e) as [f|] eqn:Hf.
  - destruct (in_c_int (filled_quantity f)) eqn:Hr.
    + destruct (apply_failed_precondition e f p Hf Ha Hr) as [_ ->].
      do 2 eexists. reflexivity.
    + unfold Position.apply, unraisable. rewrite (apply_overflow e f p Hf Hr).
      do 2 eexists. reflexivity.
  - unfold Position.apply, unraisable. rewrite (apply_not_a_fill e p Hf).
    do 2 eexists. reflexivity.
Qed.

Lemma apply_all_cons (e : OrderEvent) (events : list OrderEvent) (p : Position.t) :
  Position.apply_all (e :: events) p = Position.apply_all events (snd (Position.apply e p)).
Proof. unfold Position.apply, unraisable. reflexivity. Qed.

Lemma accepted_fill_inv (e : OrderEvent) :
  accepted_fill e = true ->
  exists f : Fill, fill_of e = Some f /\ accepted f = true.
Proof.
  unfold accepted_fill. destruct (fill_of e) as [f|]; [|discriminate].
  intros H. exists f. split; [reflexivity|exact H].
Qed.

(** A step of [apply_all] over accepted fills. *)
Lemma apply_all_cons_accepted (e : OrderEvent) (events : list OrderEvent)
    (p p' : Position.t) :
  forallb accepted_fill (e :: events) = true ->
  Position.apply_all (e :: events) p = (Returned tt, p') ->
  exists f : Fill,
    fill_of e = Some f /\ accepted f = true /\
    forallb accepted_fill events = true /\
    Position.apply_all events
      (Position.append_execution (execution_id f) (execution_ticket f)
         (Position.update_fields (order_side f) (filled_quantity f) (average_price f)
            (execution_time f) (Position.append_event e p)))
    = (Returned tt, p').
Proof.
  cbn [forallb]. intros Ha H. apply andb_prop in Ha as [Ha Hrest].
  apply accepted_fill_inv in Ha as (f & Hf & Ha).
  exists f. split; [exact Hf|]. split; [exact Ha|]. split; [exact Hrest|].
  rewrite apply_all_cons, (apply_accepted e f p Hf Ha) in H. exact H.
Qed.

(** The fields after the body of [_update_position] has run. *)
Lemma update_fields_eq (side : OrderSide.t) (q : Z) (px : Decimal.t) (time : Z)
    (p : Position.t) :
  let rel :=
    match side with
    | OrderSide.BUY => wrap_int (Position._relative_quantity p + q)
    | OrderSide.SELL => wrap_int (Position._relative_quantity p - q)
    | OrderSide.UNKNOWN => Position._relative_quantity p
    end in
  Position.update_fields side q px time p =
    Position.mk (Position._symbol p) (Position._id p) (Position._timestamp p)
      rel
      (if Position._peak_quantity p <? c_abs rel then rel else Position._peak_quantity p)
      (match Position._entry_time p with
       | None => Some time
       | Some t => Some t
       end)
      (if rel =? 0 then Some time else Position._exit_time p)
      (Some px)
      (if rel =? 0 then Some px else Position._average_exit_price p)
      (Position._events p) (Position._execution_ids p) (Position._execution_tickets p).
Proof.
  destruct p as [sy id ts r pk en ex ae ax ev ids tks].
  unfold Position.update_fields.
  destruct side, en;
    cbn [Position._relative_quantity Position._peak_quantity Position._entry_time
         Position.set_relative_quantity];
    match goal with
    | |- context [?a <? c_abs ?b] => destruct (a <? c_abs b)
    end;
    cbn [Position._relative_quantity Position._peak_quantity Position._entry_time
         Position._symbol Position._id Position._timestamp Position._exit_time
         Position._average_entry_price Position._average_exit_price Position._events
         Position._execution_ids Position._execution_tickets
         Position.set_relative_quantity
         Position.set_peak_quantity Position.set_entry_time
         Position.set_average_entry_price Position.is_entered andb];
    match goal with
    | |- context [?a =? 0] => destruct (a =? 0)
    end;
    reflexivity.
Qed.


Lemma net_quantity_from (fills : list Fill) (a : Z) :
  fold_left (fun acc f => acc + signed_quantity f) fills a = a + net_quantity fills.
Proof.
  unfold net_quantity. revert a.
  induction fills as [|f fills IH]; intros a; cbn [fold_left].
  - lia.
  - rewrite (IH (a + signed_quantity f)), (IH (0 + signed_quantity f)). lia.
Qed.

Lemma net_quantity_cons (f : Fill) (fills : list Fill) :
  net_quantity (f :: fills) = signed_quantity f + net_quantity fills.
Proof.
  unfold net_quantity at 1. cbn [fold_left]. rewrite net_quantity_from. lia.
Qed.


(** X1: every call of [apply] appends its event to the event log, whatever
    the event and whatever becomes of it, and leaves the symbol, the
    identifier and the initialization timestamp as they were. *)
Theorem apply_logs_every_event (e : OrderEvent) (p : Position.t) :
  Position.events (snd (Position.apply e p)) = Position.events p ++ [e] /\
  Position.event_count (snd (Position.apply e p)) = S (Position.event_count p) /\
  Position._symbol (snd (Position.apply e p)) = Position._symbol p /\
  Position._id (snd (Position.apply e p)) = Position._id p /\
  Position._timestamp (snd (Position.apply e p)) = Position._timestamp p.
Proof.
  assert (H : Position.events (snd (Position.apply e p)) = Position.events p ++ [e] /\
              Position._symbol (snd (Position.apply e p)) = Position._symbol p /\
              Position._id (snd (Position.apply e p)) = Position._id p /\
              Position._timestamp (snd (Position.apply e p)) = Position._timestamp p).
  { destruct (accepted_fill e) eqn:Ha.
    - apply accepted_fill_inv in Ha as (f & Hf & Ha).
      rewrite (apply_accepted e f p Hf Ha). cbn [snd].
      rewrite update_fields_eq. repeat split.
    - destruct (apply_rejected e p Ha) as (ids & tickets & ->). repeat split. }
  destruct H as (He & Hs & Hi & Ht). repeat split; try assumption.
  unfold Position.event_count. unfold Position.events in He. rewrite He.
  rewrite length_app. cbn [length]. lia.
Qed.

(** X2: [apply] never raises.  A fill whose quantity fits a C [int] and that
    fails a precondition (a quantity or a price that is not positive) makes
    [_update_position] raise [ValueError], which goes no further: no
    quantity, time or price of the position changes, and [apply] records the
    execution's identifier and ticket all the same.  A fill whose quantity
    does not fit a C [int] and an event that is not a fill make the body of
    [apply] raise ([OverflowError], [TypeError]); the call returns, and the
    logged event is the only change. *)
Theorem apply_never_raises (e : OrderEvent) (p : Position.t) :
  fst (Position.apply e p) = Returned tt /\
  (forall f : Fill,
     fill_of e = Some f -> accepted f = false -> in_c_int (filled_quantity f) = true ->
     fst (Position._update_position_body (order_side f) (filled_quantity f)
            (average_price f) (execution_time f) (Position.append_event e p))
       = Raised ValueError /\
     snd (Position.apply e p)
       = Position.append_execution (execution_id f) (execution_ticket f)
           (Position.append_event e p)) /\
  (forall f : Fill,
     fill_of e = Some f -> in_c_int (filled_quantity f) = false ->
     fst (Position.apply_body e p) = Raised OverflowError /\
     snd (Position.apply e p) = Position.append_event e p) /\
  (fill_of e = None ->
   fst (Position.apply_body e p) = Raised TypeError /\
   snd (Position.apply e p) = Position.append_event e p).
Proof.
  split; [reflexivity|]. split; [|split].
  - intros f Hf Ha Hr.
    destruct (apply_failed_precondition e f p Hf Ha Hr) as [H1 H2].
    split; [exact H1|]. rewrite H2. reflexivity.
  - intros f Hf Hr. unfold Position.apply, unraisable.
    rewrite (apply_overflow e f p Hf Hr). split; reflexivity.
  - intros Hf. unfold Position.apply, unraisable.
    rewrite (apply_not_a_fill e p Hf). split; reflexivity.
Qed.



Lemma apply_keeps_entry_time (e : OrderEvent) (p : Position.t) (t : Z) :
  Position._entry_time p = Some t ->
  Position._entry_time (snd (Position.apply e p)) = Some t.
Proof.
  intros Ht.
  destruct (accepted_fill e) eqn:Ha.
  - apply accepted_fill_inv in Ha as (f & Hf & Ha).
    rewrite (apply_accepted e f p Hf Ha). cbn [snd].
    rewrite update_fields_eq.
    cbn [Position.append_execution Position.append_event Position._entry_time].
    rewrite Ht. reflexivity.
  - destruct (apply_rejected e p Ha) as (ids & tickets & ->). exact Ht.
Qed.

Lemma apply_all_keeps_entry_time (events : list OrderEvent) :
  forall (p : Position.t) (t : Z),
    Position._entry_time p = Some t ->
    Position._entry_time (snd (Position.apply_all events p)) = Some t.
Proof.
  induction events as [|e events IH]; intros p t Ht.
  - exact Ht.
  - rewrite apply_all_cons. apply IH. apply apply_keeps_entry_time. exact Ht.
Qed.

(** X4: the entry time of a position is the execution time of the first fill
    applied to it: later events, accepted or not, never change it. *)
Theorem entry_time_is_first_fill (symbol position_id : string) (timestamp : Z)
    (e : OrderEvent) (events : list OrderEvent) (p : Position.t) :
  forallb accepted_fill (e :: events) = true ->
  Position.apply_all (e :: events) (Position.__init__ symbol position_id timestamp)
    = (Returned tt, p) ->
  exists f : Fill,
    fill_of e = Some f /\
    Position._entry_time p = Some (execution_time f) /\
    Position.is_entered p = true /\
    forall later : list OrderEvent,
      Position._entry_time (snd (Position.apply_all later p)) = Some (execution_time f).
Proof.
  intros Ha H. apply apply_all_cons_accepted in H as (f & Hf & _ & _ & H2); [|exact Ha].
  exists f. split; [exact Hf|].
  assert (Hp : Position._entry_time p = Some (execution_time f)).
  { replace p with (snd (Position.apply_all events
      (Position.append_execution (execution_id f) (execution_ticket f)
         (Position.update_fields (order_side f) (filled_quantity f) (average_price f)
            (execution_time f)
            (Position.append_event e (Position.__init__ symbol position_id timestamp))))))
      by (rewrite H2; reflexivity).
    apply apply_all_keeps_entry_time. rewrite update_fields_eq. reflexivity. }
  split; [exact Hp|]. split.
  - unfold Position.is_entered. rewrite Hp. reflexivity.
  - intros later. apply apply_all_keeps_entry_time. exact Hp.
Qed.

Lemma entry_time_is_first_fill_witness :
  exists f : Fill,
    fill_of (OrderFilled (Sample.fill OrderSide.BUY 100 (Sample.dec 100 (-1)) 1)) = Some f /\
    Position._entry_time
      (snd (Position.apply_all (map OrderFilled Sample.two_buys) Sample.position))
      = Some (execution_time f) /\
    Position.is_entered
      (snd (Position.apply_all (map OrderFilled Sample.two_buys) Sample.position)) = true /\
    forall later : list OrderEvent,
      Position._entry_time
        (snd (Position.apply_all later
                (snd (Position.apply_all (map OrderFilled Sample.two_buys) Sample.position))))
      = Some (execution_time f).
Proof.
  apply (entry_time_is_first_fill "AUDUSD.FXCM" "P-1" 0
           (OrderFilled (Sample.fill OrderSide.BUY 100 (Sample.dec 100 (-1)) 1))
           [OrderFilled (Sample.fill OrderSide.BUY 50 (Sample.dec 120 (-1)) 2)]).
  - reflexivity.
  - reflexivity.
Defined.

(** X5: an accepted fill that brings the relative quantity to zero records
    the exit: the exit time and the average exit price are that fill's; any
    other accepted fill leaves the exit time and exit price as they were,
    also when the position had been exited before. *)
Theorem exit_recorded_when_flat (e : OrderEvent) (f : Fill) (p p' : Position.t) :
  accepted f = true ->
  Position.apply e p = (Returned tt, p') ->
  fill_of e = Some f ->
  (Position._relative_quantity p' = 0 ->
   Position._exit_time p' = Some (execution_time f) /\
   Position.average_exit_price p' = Some (average_price f) /\
   Position.is_exited p' = true /\
   Position.market_position p' = MarketPosition.FLAT) /\
  (Position._relative_quantity p' <> 0 ->
   Position._exit_time p' = Position._exit_time p /\
   Position.average_exit_price p' = Position.average_exit_price p /\
   Position.is_exited p' = Position.is_exited p).
Proof.
  intros Ha H Hf. rewrite (apply_accepted e f p Hf Ha) in H. injection H as <-.
  unfold Position.average_exit_price, Position.is_exited, Position.market_position,
    Position._calculate_market_position.
  rewrite update_fields_eq.
  cbn [Position.append_execution Position.append_event Position._relative_quantity
       Position._exit_time Position._average_exit_price].
  split.
  - intros ->. cbn. repeat split.
  - intros Hn. apply Z.eqb_neq in Hn. rewrite Hn. repeat split.
Qed.

Lemma exit_recorded_when_flat_witness :
  (Position._relative_quantity
     (snd (Position.apply (OrderFilled (Sample.fill OrderSide.SELL 150 (Sample.dec 130 (-1)) 3))
             (snd (Position.apply_all (map OrderFilled Sample.two_buys) Sample.position))))
   = 0 ->
   Position._exit_time
     (snd (Position.apply (OrderFilled (Sample.fill OrderSide.SELL 150 (Sample.dec 130 (-1)) 3))
             (snd (Position.apply_all (map OrderFilled Sample.two_buys) Sample.position))))
   = Some 3 /\
   Position.average_exit_price
     (snd (Position.apply (OrderFilled (Sample.fill OrderSide.SELL 150 (Sample.dec 130 (-1)) 3))
             (snd (Position.apply_all (map OrderFilled Sample.two_buys) Sample.position))))
   = Some (Sample.dec 130 (-1)) /\
   Position.is_exited
     (snd (Position.apply (OrderFilled (Sample.fill OrderSide.SELL 150 (Sample.dec 130 (-1)) 3))
             (snd (Position.apply_all (map OrderFilled Sample.two_buys) Sample.position))))
   = true /\
   Position.market_position
     (snd (Position.apply (OrderFilled (Sample.fill OrderSide.SELL 150 (Sample.dec 130 (-1)) 3))
             (snd (Position.apply_all (map OrderFilled Sample.two_buys) Sample.position))))
   = MarketPosition.FLAT) /\
  (Position._relative_quantity
     (snd (Position.apply (OrderFilled (Sample.fill OrderSide.SELL 150 (Sample.dec 130 (-1)) 3))
             (snd (Position.apply_all (map OrderFilled Sample.two_buys) Sample.position))))
   <> 0 ->
   Position._exit_time
     (snd (Position.apply (OrderFilled (Sample.fill OrderSide.SELL 150 (Sample.dec 130 (-1)) 3))
             (snd (Position.apply_all (map OrderFilled Sample.two_buys) Sample.position))))
   = Position._exit_time
       (snd (Position.apply_all (map OrderFilled Sample.two_buys) Sample.position)) /\
   Position.average_exit_price
     (snd (Position.apply (OrderFilled (Sample.fill OrderSide.SELL 150 (Sample.dec 130 (-1)) 3))
             (snd (Position.apply_all (map OrderFilled Sample.two_buys) Sample.position))))
   = Position.average_exit_price
       (snd (Position.apply_all (map OrderFilled Sample.two_buys) Sample.position)) /\
   Position.is_exited
     (snd (Position.apply (OrderFilled (Sample.fill OrderSide.SELL 150 (Sample.dec 130 (-1)) 3))
             (snd (Position.apply_all (map OrderFilled Sample.two_buys) Sample.position))))
   = Position.is_exited
       (snd (Position.apply_all (map OrderFilled Sample.two_buys) Sample.position))).
Proof.
  apply (exit_recorded_when_flat
           (OrderFilled (Sample.fill OrderSide.SELL 150 (Sample.dec 130 (-1)) 3))
           (Sample.fill OrderSide.SELL 150 (Sample.dec 130 (-1)) 3)
           (snd (Position.apply_all (map OrderFilled Sample.two_buys) Sample.position))).
  - reflexivity.
  - reflexivity.
  - reflexivity.
Defined.

Lemma apply_all_ledger (events : list OrderEvent) :
  forall p p' : Position.t,
    forallb accepted_fill events = true ->
    Position.apply_all events p = (Returned tt, p') ->
    Position.events p' = Position.events p ++ events /\
    length (fills_of events) = length events /\
    Position._execution_ids p'
      = Position._execution_ids p ++ map execution_id (fills_of events) /\
    Position._execution_tickets p'
      = Position._execution_tickets p ++ map execution_ticket (fills_of events).
Proof.
  induction events as [|e events IH]; intros p p' Ha H.
  - injection H as <-. cbn [fills_of map]. rewrite !app_nil_r. repeat split.
  - apply apply_all_cons_accepted in H as (f & Hf & _ & Hrest & H2); [|exact Ha].
    apply IH in H2 as (He & Hl & Hi & Ht); [|exact Hrest].
    cbn [fills_of]. rewrite Hf. cbn [map length].
    rewrite He, Hl, Hi, Ht. unfold Position.events.
    rewrite update_fields_eq.
    cbn [Position.append_execution Position.append_event Position._events
         Position._execution_ids Position._execution_tickets].
    rewrite <- !app_assoc. repeat split.
Qed.

(** X6: after a sequence of accepted fills applied to a new position, the
    three logs line up: the event log is the sequence itself, every event in
    it is a fill, and the execution identifiers and execution tickets are
    those of the fills, in the same order. *)
Theorem executions_follow_fills (symbol position_id : string) (timestamp : Z)
    (events : list OrderEvent) (p : Position.t) :
  forallb accepted_fill events = true ->
  Position.apply_all events (Position.__init__ symbol position_id timestamp)
    = (Returned tt, p) ->
  Position.events p = events /\
  length (fills_of events) = length events /\
  Position._execution_ids p = map execution_id (fills_of events) /\
  Position._execution_tickets p = map execution_ticket (fills_of events).
Proof.
  intros Ha H. apply apply_all_ledger in H; [exact H|exact Ha].
Qed.

Lemma executions_follow_fills_witness :
  Position.events
    (snd (Position.apply_all (map OrderFilled Sample.two_buys) Sample.position))
  = map OrderFilled Sample.two_buys /\
  length (fills_of (map OrderFilled Sample.two_buys))
  = length (map OrderFilled Sample.two_buys) /\
  Position._execution_ids
    (snd (Position.apply_all (map OrderFilled Sample.two_buys) Sample.position))
  = map execution_id (fills_of (map OrderFilled Sample.two_buys)) /\
  Position._execution_tickets
    (snd (Position.apply_all (map OrderFilled Sample.two_buys) Sample.position))
  = map execution_ticket (fills_of (map OrderFilled Sample.two_buys)).
Proof.
  apply (executions_follow_fills "AUDUSD.FXCM" "P-1" 0 (map OrderFilled Sample.two_buys)).
  - reflexivity.
  - reflexivity.
Defined.

Lemma apply_all_peak (events : list OrderEvent) :
  forall p p' : Position.t,
    forallb accepted_fill events = true ->
    Position.apply_all events p = (Returned tt, p') ->
    never_short (Position._relative_quantity p) (fills_of events) = true ->
    Position._peak_quantity p'
      = peak_from (Position._relative_quantity p) (Position._peak_quantity p)
          (fills_of events) /\
    Position._relative_quantity p'
      = Position._relative_quantity p + net_quantity (fills_of events).
Proof.
  induction events as [|e events IH]; intros p p' Ha H Hn.
  - injection H as <-. cbn [fills_of peak_from]. unfold net_quantity. cbn [fold_left].
    split; [reflexivity|lia].
  - apply apply_all_cons_accepted in H as (f & Hf & _ & Hacc & H2); [|exact Ha].
    cbn [fills_of] in *. rewrite Hf in *. cbn [never_short peak_from] in *.
    apply andb_prop in Hn as [Hn Hrest]. apply andb_prop in Hn as [H0 H1].
    apply Z.leb_le in H0, H1.
    assert (Hrel : Position._relative_quantity
                     (Position.append_execution (execution_id f) (execution_ticket f)
                        (Position.update_fields (order_side f) (filled_quantity f)
                           (average_price f) (execution_time f)
                           (Position.append_event e p)))
                   = Position._relative_quantity p + signed_quantity f).
    { rewrite update_fields_eq.
      cbn [Position.append_execution Position.append_event Position._relative_quantity].
      unfold signed_quantity in *. destruct (order_side f).
      - lia.
      - apply wrap_int_small. unfold INT_MIN. lia.
      - replace (Position._relative_quantity p - filled_quantity f)
          with (Position._relative_quantity p + - filled_quantity f) by lia.
        apply wrap_int_small. unfold INT_MIN. lia. }
    assert (Hpeak : Position._peak_quantity
                      (Position.append_execution (execution_id f) (execution_ticket f)
                         (Position.update_fields (order_side f) (filled_quantity f)
                            (average_price f) (execution_time f)
                            (Position.append_event e p)))
                    = Z.max (Position._peak_quantity p)
                        (Z.abs (Position._relative_quantity p + signed_quantity f))).
    { rewrite <- Hrel. rewrite update_fields_eq in *.
      cbn [Position.append_execution Position.append_event Position._relative_quantity
           Position._peak_quantity] in *.
      rewrite Hrel.
      unfold c_abs. rewrite Z.abs_eq by lia.
      rewrite wrap_int_small by (unfold INT_MIN; lia).
      destruct (Z.ltb_spec (Position._peak_quantity p)
                  (Position._relative_quantity p + signed_quantity f)); lia. }
    specialize (IH _ _ Hacc H2). rewrite Hrel, Hpeak in IH.
    destruct (IH Hrest) as [IH1 IH2].
    split; [exact IH1|]. rewrite IH2, net_quantity_cons. lia.
Qed.

Lemma peak_from_above (fills : list Fill) :
  forall net peak : Z,
    net <= peak ->
    net + net_quantity fills <= peak_from net peak fills.
Proof.
  induction fills as [|f fills IH]; intros net peak H.
  - unfold net_quantity. cbn [fold_left peak_from]. lia.
  - rewrite net_quantity_cons. cbn [peak_from].
    specialize (IH (net + signed_quantity f)
                   (Z.max peak (Z.abs (net + signed_quantity f)))).
    lia.
Qed.

(** X7: for accepted fills, as long as the position is never short (the net
    quantity after every fill is between 0 and the largest C [int]), the
    peak quantity is the largest net quantity the position has held, and the
    relative quantity is the net quantity and does not exceed the peak. *)
Theorem peak_quantity_when_never_short (symbol position_id : string) (timestamp : Z)
    (events : list OrderEvent) (p : Position.t) :
  forallb accepted_fill events = true ->
  Position.apply_all events (Position.__init__ symbol position_id timestamp)
    = (Returned tt, p) ->
  never_short 0 (fills_of events) = true ->
  Position.peak_quantity p = peak_of_fills (fills_of events) /\
  Position._relative_quantity p = net_quantity (fills_of events) /\
  Position._relative_quantity p <= Position.peak_quantity p.
Proof.
  intros Ha H Hn. apply apply_all_peak in H; [|exact Ha|exact Hn].
  cbn [Position.__init__ Position._relative_quantity Position._peak_quantity] in H.
  destruct H as [Hp Hr]. unfold Position.peak_quantity, peak_of_fills.
  split; [exact Hp|]. split; [rewrite Hr; lia|].
  rewrite Hp, Hr. apply (peak_from_above (fills_of events) 0 0). lia.
Qed.

Lemma peak_quantity_when_never_short_witness :
  Position.peak_quantity
    (snd (Position.apply_all
            (map OrderFilled
               (Sample.two_buys ++ [Sample.fill OrderSide.SELL 120 (Sample.dec 130 (-1)) 3]))
            Sample.position))
  = peak_of_fills
      (fills_of
         (map OrderFilled
            (Sample.two_buys ++ [Sample.fill OrderSide.SELL 120 (Sample.dec 130 (-1)) 3]))) /\
  Position._relative_quantity
    (snd (Position.apply_all
            (map OrderFilled
               (Sample.two_buys ++ [Sample.fill OrderSide.SELL 120 (Sample.dec 130 (-1)) 3]))
            Sample.position))
  = net_quantity
      (fills_of
         (map OrderFilled
            (Sample.two_buys ++ [Sample.fill OrderSide.SELL 120 (Sample.dec 130 (-1)) 3]))) /\
  Position._relative_quantity
    (snd (Position.apply_all
            (map OrderFilled
               (Sample.two_buys ++ [Sample.fill OrderSide.SELL 120 (Sample.dec 130 (-1)) 3]))
            Sample.position))
  <= Position.peak_quantity
       (snd (Position.apply_all
               (map OrderFilled
                  (Sample.two_buys ++ [Sample.fill OrderSide.SELL 120 (Sample.dec 130 (-1)) 3]))
               Sample.position)).
Proof.
  apply (peak_quantity_when_never_short "AUDUSD.FXCM" "P-1" 0
           (map OrderFilled
              (Sample.two_buys ++ [Sample.fill OrderSide.SELL 120 (Sample.dec 130 (-1)) 3]))).
  - reflexivity.
  - reflexivity.
  - reflexivity.
Defined.

(** ** Bars: edge cases and contents *)

Section BarEdges.
Context {PM : PriceModel}.

Lemma unsupported_get_price (b : BarBuilder.t) (tick : Tick.t) :
  supported (BarSpecification.price_type (BarBuilder.bar_spec b)) = false ->
  BarBuilder._get_price b tick = Raised ValueError.
Proof.
  unfold BarBuilder._get_price.
  destruct (BarSpecification.price_type (BarBuilder.bar_spec b));
    simpl; intros; try discriminate; reflexivity.
Qed.

Lemma higher_above_l (h p : Price) : (Price_value h <= Price_value (higher h p))%Q.
Proof.
  unfold higher. destruct (Qltb (Price_value h) (Price_value p)) eqn:E.
  - apply Qltb_true in E. apply Qlt_le_weak. exact E.
  - apply Qle_refl.
Qed.

Lemma higher_above_r (h p : Price) : (Price_value p <= Price_value (higher h p))%Q.
Proof.
  unfold higher. destruct (Qltb (Price_value h) (Price_value p)) eqn:E.
  - apply Qle_refl.
  - apply Qltb_false in E. exact E.
Qed.

Lemma lower_below_l (l p : Price) : (Price_value (lower l p) <= Price_value l)%Q.
Proof.
  unfold lower. destruct (Qltb (Price_value p) (Price_value l)) eqn:E.
  - apply Qltb_true in E. apply Qlt_le_weak. exact E.
  - apply Qle_refl.
Qed.

Lemma lower_below_r (l p : Price) : (Price_value (lower l p) <= Price_value p)%Q.
Proof.
  unfold lower. destruct (Qltb (Price_value p) (Price_value l)) eqn:E.
  - apply Qle_refl.
  - apply Qltb_false in E. exact E.
Qed.

Lemma update_in_order (b b' : BarBuilder.t) (tick : Tick.t) :
  in_order (BarBuilder._open b) (BarBuilder._high b) (BarBuilder._low b)
    (BarBuilder._close b) ->
  BarBuilder.update tick b = (Returned tt, b') ->
  in_order (BarBuilder._open b') (BarBuilder._high b') (BarBuilder._low b')
    (BarBuilder._close b').
Proof.
  intros W U.
  destruct (BarBuilder._get_price b tick) as [quote|e] eqn:Hp.
  2:{ rewrite (update_without_price b tick e Hp) in U. injection U as <-. exact W. }
  destruct (get_price_volume _ _ _ Hp) as [v Hv].
  unfold in_order in W. destruct (BarBuilder._open b) as [o|] eqn:Ho.
  - destruct W as (h & l & c & Hh & Hl & Hc & L1 & L2 & L3 & L4).
    assert (Hle : (Price_value l <= Price_value h)%Q) by (eapply Qle_trans; eassumption).
    rewrite (update_open_some b tick quote o h l v Hp Hv Ho Hh Hl Hle) in U.
    injection U as <-. cbn. exists (higher h quote), (lower l quote), quote.
    repeat split.
    + eapply Qle_trans; [apply lower_below_l|exact L1].
    + eapply Qle_trans; [exact L2|apply higher_above_l].
    + apply lower_below_r.
    + apply higher_above_r.
  - rewrite (update_open_none b tick quote v Hp Hv Ho) in U.
    injection U as <-. cbn. exists quote, quote, quote.
    repeat split; apply Qle_refl.
Qed.

Lemma build_in_order (b : BarBuilder.t) (close_time : option Z) :
  in_order (BarBuilder._open b) (BarBuilder._high b) (BarBuilder._low b)
    (BarBuilder._close b) ->
  in_order (Bar.open (fst (BarBuilder.build close_time b)))
    (Bar.high (fst (BarBuilder.build close_time b)))
    (Bar.low (fst (BarBuilder.build close_time b)))
    (Bar.close (fst (BarBuilder.build close_time b))) /\
  in_order (BarBuilder._open (snd (BarBuilder.build close_time b)))
    (BarBuilder._high (snd (BarBuilder.build close_time b)))
    (BarBuilder._low (snd (BarBuilder.build close_time b)))
    (BarBuilder._close (snd (BarBuilder.build close_time b))).
Proof.
  intros W. destruct b as [spec lu n o h l c v upc].
  unfold BarBuilder.build, BarBuilder._reset. cbn in *.
  split; [exact W|].
  destruct upc; cbn; [|repeat split].
  destruct c as [c|]; [|repeat split].
  exists c, c, c. repeat split; apply Qle_refl.
Qed.

Lemma reachable_in_order (b : BarBuilder.t) :
  reachable b ->
  in_order (BarBuilder._open b) (BarBuilder._high b) (BarBuilder._low b)
    (BarBuilder._close b).
Proof.
  induction 1 as [spec upc|b b' tick _ IH U|b ct _ IH].
  - cbn. repeat split.
  - exact (update_in_order b b' tick IH U).
  - exact (proj2 (build_in_order b ct IH)).
Qed.

End BarEdges.

Section Unsupported.
Context {PM : PriceModel}.

(** With a price type that is not supported, no update leaves a trace: the
    builder stays as [__init__] made it. *)
Lemma reachable_unsupported_new (b : BarBuilder.t) :
  reachable b ->
  supported (BarSpecification.price_type (BarBuilder.bar_spec b)) = false ->
  b = BarBuilder.__init__ (BarBuilder.bar_spec b) (BarBuilder._use_previous_close b).
Proof.
  induction 1 as [spec upc|b b' tick R IH U|b ct _ IH]; intros Hs.
  - reflexivity.
  - destruct (update_well_kept b b' tick (reachable_well_kept b R) U) as (_ & E & _).
    rewrite E in Hs.
    rewrite (update_without_price b tick ValueError (unsupported_get_price b tick Hs)) in U.
    injection U as <-. apply IH. exact Hs.
  - destruct (build_well_kept b ct) as (_ & E1 & E2).
    rewrite E1 in Hs. specialize (IH Hs).
    rewrite E1, E2. rewrite IH.
    unfold BarBuilder.build, BarBuilder._reset, BarBuilder.__init__.
    destruct (BarBuilder._use_previous_close b); reflexivity.
Qed.

Lemma build_events_new (spec : BarSpecification.t) (upc : bool) (clock : Clock.t)
    (interval : Z) (next_close : option datetime) (events : list Z) :
  forall bars : list Bar.t,
    fold_left (fun s event => TimeBarAggregator._build_event event s) events
      (TimeBarAggregator.mk (BarBuilder.__init__ spec upc) clock interval next_close bars)
    = TimeBarAggregator.mk (BarBuilder.__init__ spec upc) clock interval next_close
        (bars ++ map (fun event => Bar.mk None None None None 0 (Some event)) events).
Proof.
  induction events as [|event events IH]; intros bars; cbn [fold_left map].
  - rewrite app_nil_r. reflexivity.
  - replace (TimeBarAggregator._build_event event
               (TimeBarAggregator.mk (BarBuilder.__init__ spec upc) clock interval
                  next_close bars))
      with (TimeBarAggregator.mk (BarBuilder.__init__ spec upc) clock interval next_close
              (bars ++ [Bar.mk None None None None 0 (Some event)]))
      by (destruct upc; reflexivity).
    rewrite IH, <- app_assoc. reflexivity.
Qed.

End Unsupported.

(** X8: a price type other than BID, ASK or MID is not reported.
    [_get_price] raises [ValueError] and [update], a [cpdef void] function
    without an [except] clause, returns with the builder as it was, which is
    as [__init__] made it; so the [update] of an aggregator returns too.  A
    tick aggregator then hands over no bar, and a time aggregator on a
    simulation clock hands over a bar without prices for every timer event
    that is due. *)
Theorem unsupported_price_type_is_not_reported {PM : PriceModel}
    (b : BarBuilder.t) (tick : Tick.t) :
  reachable b ->
  supported (BarSpecification.price_type (BarBuilder.bar_spec b)) = false ->
  BarBuilder._get_price b tick = Raised ValueError /\
  BarBuilder.update tick b = (Returned tt, b) /\
  b = BarBuilder.__init__ (BarBuilder.bar_spec b) (BarBuilder._use_previous_close b) /\
  (forall (step : Z) (bars : list Bar.t),
     step <> 0 ->
     TickBarAggregator.update tick (TickBarAggregator.mk b step bars)
       = (Returned tt, TickBarAggregator.mk b step bars)) /\
  (forall (clock : Clock.t) (interval next : Z) (next_close : option datetime)
          (bars : list Bar.t),
     Clock.is_test_clock clock = true ->
     Clock.pending clock = [] ->
     Clock.next_event_time clock = Some (aware next) ->
     next <= Tick.timestamp tick ->
     exists agg' : TimeBarAggregator.t,
       TimeBarAggregator.update tick (TimeBarAggregator.mk b clock interval next_close bars)
         = (Returned tt, agg') /\
       TimeBarAggregator._builder agg' = b /\
       TimeBarAggregator.handled agg'
         = bars ++ map (fun event => Bar.mk None None None None 0 (Some event))
                     (Clock.expiries next (Clock.timer_interval clock)
                        (Z.to_nat ((Tick.timestamp tick - next)
                                   / Clock.timer_interval clock + 1)))).
Proof.
  intros R Hs. pose proof (unsupported_get_price b tick Hs) as Hp.
  pose proof (update_without_price b tick ValueError Hp) as U.
  pose proof (reachable_unsupported_new b R Hs) as Hnew.
  split; [exact Hp|]. split; [exact U|]. split; [exact Hnew|]. split.
  - intros step bars Hc. unfold TickBarAggregator.update.
    cbn [TickBarAggregator._builder TickBarAggregator.step TickBarAggregator.handled].
    rewrite U. rewrite Hnew at 1. cbn [BarBuilder.__init__ BarBuilder.count].
    replace (0 =? step) with false by (symmetry; apply Z.eqb_neq; lia).
    reflexivity.
  - intros clock interval next next_close bars Ht Hpend Hnext Hle.
    unfold TimeBarAggregator.update.
    cbn [TimeBarAggregator._builder TimeBarAggregator._clock TimeBarAggregator.interval
         TimeBarAggregator.next_close TimeBarAggregator.handled].
    rewrite U. cbn [TimeBarAggregator._clock]. rewrite Ht, Hnext.
    rewrite (proj2 (Z.leb_le _ _) Hle).
    unfold Clock.advance_time. rewrite Hnext, (proj2 (Z.leb_le _ _) Hle), Hpend.
    cbn [app Clock.get_pending_events Clock.pending Clock.is_test_clock Clock.time
         Clock.next_event_time Clock.timer_interval].
    cbn [TimeBarAggregator.handled TimeBarAggregator._builder TimeBarAggregator._clock
         TimeBarAggregator.interval TimeBarAggregator.next_close].
    rewrite Hnew, build_events_new.
    eexists. split; [reflexivity|]. split; reflexivity.
Qed.

Lemma unsupported_price_type_is_not_reported_witness :
  BarBuilder._get_price (PM := Sample.five_places)
    (BarBuilder.__init__ (BarSpecification.mk 1 BarStructure.MINUTE PriceType.LAST) true)
    (Sample.tick 10 12 70000000)
  = Raised ValueError /\
  BarBuilder.update (Sample.tick 10 12 70000000)
    (BarBuilder.__init__ (BarSpecification.mk 1 BarStructure.MINUTE PriceType.LAST) true)
  = (Returned tt,
     BarBuilder.__init__ (BarSpecification.mk 1 BarStructure.MINUTE PriceType.LAST) true) /\
  BarBuilder.__init__ (PM := Sample.five_places)
    (BarSpecification.mk 1 BarStructure.MINUTE PriceType.LAST) true
  = BarBuilder.__init__
      (BarBuilder.bar_spec
         (BarBuilder.__init__ (PM := Sample.five_places)
            (BarSpecification.mk 1 BarStructure.MINUTE PriceType.LAST) true))
      (BarBuilder._use_previous_close
         (BarBuilder.__init__ (PM := Sample.five_places)
            (BarSpecification.mk 1 BarStructure.MINUTE PriceType.LAST) true)) /\
  (forall (step : Z) (bars : list (Bar.t (PM := Sample.five_places))),
     step <> 0 ->
     TickBarAggregator.update (Sample.tick 10 12 70000000)
       (TickBarAggregator.mk
          (BarBuilder.__init__ (BarSpecification.mk 1 BarStructure.MINUTE PriceType.LAST) true)
          step bars)
     = (Returned tt,
        TickBarAggregator.mk
          (BarBuilder.__init__ (BarSpecification.mk 1 BarStructure.MINUTE PriceType.LAST) true)
          step bars)) /\
  (forall (clock : Clock.t) (interval next : Z) (next_close : option datetime)
          (bars : list (Bar.t (PM := Sample.five_places))),
     Clock.is_test_clock clock = true ->
     Clock.pending clock = [] ->
     Clock.next_event_time clock = Some (aware next) ->
     next <= Tick.timestamp (Sample.tick 10 12 70000000) ->
     exists agg' : TimeBarAggregator.t,
       TimeBarAggregator.update (Sample.tick 10 12 70000000)
         (TimeBarAggregator.mk
            (BarBuilder.__init__ (BarSpecification.mk 1 BarStructure.MINUTE PriceType.LAST)
               true)
            clock interval next_close bars)
         = (Returned tt, agg') /\
       TimeBarAggregator._builder agg'
         = BarBuilder.__init__ (BarSpecification.mk 1 BarStructure.MINUTE PriceType.LAST)
             true /\
       TimeBarAggregator.handled agg'
         = bars ++ map (fun event => Bar.mk None None None None 0 (Some event))
                     (Clock.expiries next (Clock.timer_interval clock)
                        (Z.to_nat ((Tick.timestamp (Sample.tick 10 12 70000000) - next)
                                   / Clock.timer_interval clock + 1)))).
Proof.
  apply (unsupported_price_type_is_not_reported (PM := Sample.five_places)
           (BarBuilder.__init__ (BarSpecification.mk 1 BarStructure.MINUTE PriceType.LAST) true)
           (Sample.tick 10 12 70000000)).
  - apply reachable_init.
  - reflexivity.
Defined.

(** X9: the prices of every bar a builder returns are in order, whatever
    sequence of updates and builds came before: the low is not above the open
    or the close, and the high is not below them; a bar without an open price
    has no price at all.  The builder's own prices are in order as well. *)
Theorem built_bar_prices_in_order {PM : PriceModel}
    (b : BarBuilder.t) (close_time : option Z) :
  reachable b ->
  in_order (Bar.open (fst (BarBuilder.build close_time b)))
    (Bar.high (fst (BarBuilder.build close_time b)))
    (Bar.low (fst (BarBuilder.build close_time b)))
    (Bar.close (fst (BarBuilder.build close_time b))) /\
  in_order (BarBuilder._open b) (BarBuilder._high b) (BarBuilder._low b)
    (BarBuilder._close b).
Proof.
  intros R. pose proof (reachable_in_order b R) as W.
  split; [|exact W]. exact (proj1 (build_in_order b close_time W)).
Qed.

Lemma built_bar_prices_in_order_witness :
  in_order (PM := Sample.five_places)
    (Bar.open (fst (BarBuilder.build None
       (snd (BarBuilder.update (Sample.tick 10 12 1)
               (BarBuilder.__init__ Sample.mid_ticks false))))))
    (Bar.high (fst (BarBuilder.build None
       (snd (BarBuilder.update (Sample.tick 10 12 1)
               (BarBuilder.__init__ Sample.mid_ticks false))))))
    (Bar.low (fst (BarBuilder.build None
       (snd (BarBuilder.update (Sample.tick 10 12 1)
               (BarBuilder.__init__ Sample.mid_ticks false))))))
    (Bar.close (fst (BarBuilder.build None
       (snd (BarBuilder.update (Sample.tick 10 12 1)
               (BarBuilder.__init__ Sample.mid_ticks false)))))) /\
  in_order (PM := Sample.five_places)
    (BarBuilder._open
       (snd (BarBuilder.update (Sample.tick 10 12 1)
               (BarBuilder.__init__ Sample.mid_ticks false))))
    (BarBuilder._high
       (snd (BarBuilder.update (Sample.tick 10 12 1)
               (BarBuilder.__init__ Sample.mid_ticks false))))
    (BarBuilder._low
       (snd (BarBuilder.update (Sample.tick 10 12 1)
               (BarBuilder.__init__ Sample.mid_ticks false))))
    (BarBuilder._close
       (snd (BarBuilder.update (Sample.tick 10 12 1)
               (BarBuilder.__init__ Sample.mid_ticks false)))).
Proof.
  apply (built_bar_prices_in_order (PM := Sample.five_places)
           (snd (BarBuilder.update (Sample.tick 10 12 1)
                   (BarBuilder.__init__ Sample.mid_ticks false)))
           None).
  apply (reachable_update (PM := Sample.five_places)
           (BarBuilder.__init__ Sample.mid_ticks false) _ (Sample.tick 10 12 1)).
  - apply reachable_init.
  - reflexivity.
Defined.

Section BarContents.
Context {PM : PriceModel}.

(** A builder that is open, fed more ticks. *)
Lemma update_all_open (pt : PriceType.t) (ticks : list Tick.t) :
  supported pt = true ->
  forallb sizes_fit ticks = true ->
  forall (step : Z) (structure : BarStructure.t) (lu : option Z) (n : Z)
         (o h l c : Price) (v : Z) (upc : bool),
    (Price_value l <= Price_value h)%Q ->
    BarBuilder.update_all ticks
      (BarBuilder.mk (BarSpecification.mk step structure pt) lu n
         (Some o) (Some h) (Some l) (Some c) v upc)
    = (Returned tt,
       BarBuilder.mk (BarSpecification.mk step structure pt)
         (List.last (map (fun t => Some (Tick.timestamp t)) ticks) lu)
         (n + Z.of_nat (length ticks))
         (Some o)
         (Some (fold_left (fun h t => higher h (derived_price pt t)) ticks h))
         (Some (fold_left (fun l t => lower l (derived_price pt t)) ticks l))
         (Some (List.last (map (derived_price pt) ticks) c))
         (fold_left (fun v t => v + derived_size pt t) ticks v)
         upc).
Proof.
  intros Hs. induction ticks as [|t ticks IH];
    intros Hf step structure lu n o h l c v upc Hle.
  - cbn. rewrite Z.add_0_r. reflexivity.
  - cbn [forallb] in Hf. apply andb_prop in Hf as [Ht Hf].
    cbn [BarBuilder.update_all].
    set (b := BarBuilder.mk (BarSpecification.mk step structure pt) lu n
                (Some o) (Some h) (Some l) (Some c) v upc).
    assert (Hp := get_price_supported b t Hs).
    assert (Hv := get_volume_supported b t Hs Ht).
    rewrite (update_open_some b t _ o h l _ Hp Hv eq_refl eq_refl eq_refl Hle).
    cbn [BarBuilder.bar_spec BarBuilder.count BarBuilder._volume
         BarBuilder._use_previous_close b BarSpecification.price_type].
    rewrite (IH Hf) by (apply higher_lower_ordered; exact Hle).
    cbn [map fold_left length]. rewrite !last_cons.
    replace (n + 1 + Z.of_nat (length ticks)) with (n + Z.of_nat (S (length ticks))) by lia.
    reflexivity.
Qed.

Lemma time_run_live (ticks : list Tick.t) :
  forall (b : BarBuilder.t) (clock : Clock.t) (interval : Z) (next_close : option datetime)
         (bars : list Bar.t),
    Clock.is_test_clock clock = false ->
    TimeBarAggregator.update_all ticks
      (TimeBarAggregator.mk b clock interval next_close bars)
    = (fst (BarBuilder.update_all ticks b),
       TimeBarAggregator.mk (snd (BarBuilder.update_all ticks b))
         clock interval next_close bars).
Proof.
  induction ticks as [|t ticks IH]; intros b clock interval next_close bars Hc.
  - reflexivity.
  - cbn [TimeBarAggregator.update_all BarBuilder.update_all].
    unfold TimeBarAggregator.update.
    cbn [TimeBarAggregator._builder TimeBarAggregator._clock TimeBarAggregator.interval
         TimeBarAggregator.next_close TimeBarAggregator.handled].
    destruct (BarBuilder.update t b) as [[[]|e] b1].
    + cbn [TimeBarAggregator._clock]. rewrite Hc. apply IH. exact Hc.
    + reflexivity.
Qed.

End BarContents.

(** X10: with [use_previous_close], the bar built from the ticks that arrive
    after a build opens at the close of the bar before it, and that close
    counts for its high and its low: the high is the largest and the low the
    smallest of the previous close and the new prices; the bar closes at the
    last new price (at the previous close when no tick arrived), and, the
    sizes being within the range of a C [int], its volume is the sum of the
    new sizes. *)
Theorem bar_after_previous_close {PM : PriceModel}
    (b : BarBuilder.t) (c : Price) (ticks : list Tick.t) (t0 : option Z) (t1 : Z) :
  supported (BarSpecification.price_type (BarBuilder.bar_spec b)) = true ->
  forallb sizes_fit ticks = true ->
  BarBuilder._use_previous_close b = true ->
  BarBuilder._close b = Some c ->
  exists b1 : BarBuilder.t,
    BarBuilder.update_all ticks (snd (BarBuilder.build t0 b)) = (Returned tt, b1) /\
    fst (BarBuilder.build (Some t1) b1)
      = bar_from_close (BarSpecification.price_type (BarBuilder.bar_spec b)) c ticks
          (Some t1) /\
    BarBuilder.count b1 = Z.of_nat (length ticks).
Proof.
  intros Hs Hf Hu Hc. destruct b as [[step structure pt] lu n o h l cl v upc].
  cbn [BarBuilder.bar_spec BarBuilder._use_previous_close BarBuilder._close
       BarSpecification.price_type] in *. subst upc cl.
  change (snd (BarBuilder.build t0
                 (BarBuilder.mk (BarSpecification.mk step structure pt) lu n o h l (Some c)
                    v true)))
    with (BarBuilder.mk (BarSpecification.mk step structure pt) lu 0
            (Some c) (Some c) (Some c) (Some c) 0 true).
  rewrite (update_all_open pt ticks Hs Hf) by apply Qle_refl.
  eexists. split; [reflexivity|]. split; reflexivity.
Qed.

Lemma bar_after_previous_close_witness :
  exists b1 : BarBuilder.t (PM := Sample.five_places),
    BarBuilder.update_all [Sample.tick 8 10 2; Sample.tick 9 11 3]
      (snd (BarBuilder.build None
              (snd (BarBuilder.update (Sample.tick 10 12 1)
                      (BarBuilder.__init__ Sample.mid_minutes true)))))
      = (Returned tt, b1) /\
    fst (BarBuilder.build (Some 60) b1)
      = bar_from_close (PM := Sample.five_places) PriceType.MID (Sample.round5 11)
          [Sample.tick 8 10 2; Sample.tick 9 11 3] (Some 60) /\
    BarBuilder.count b1 = Z.of_nat 2.
Proof.
  apply (bar_after_previous_close (PM := Sample.five_places)
           (snd (BarBuilder.update (Sample.tick 10 12 1)
                   (BarBuilder.__init__ Sample.mid_minutes true)))
           (Sample.round5 11) [Sample.tick 8 10 2; Sample.tick 9 11 3] None 60).
  - reflexivity.
  - reflexivity.
  - reflexivity.
  - reflexivity.
Defined.

Section TimeBarPrices.
Context {PM : PriceModel}.

Lemma update_opens (b : BarBuilder.t) (tick : Tick.t) :
  reachable b ->
  supported (BarSpecification.price_type (BarBuilder.bar_spec b)) = true ->
  BarBuilder._open (snd (BarBuilder.update tick b)) <> None.
Proof.
  intros R Hs. assert (Hp := get_price_supported b tick Hs).
  destruct (get_price_volume _ _ _ Hp) as [v Hv].
  pose proof (reachable_well_kept b R) as W. unfold well_kept in W.
  destruct (BarBuilder._open b) as [o|] eqn:Ho.
  - destruct W as (h & l & Hh & Hl & Hle).
    rewrite (update_open_some b tick _ o h l _ Hp Hv Ho Hh Hl Hle). discriminate.
  - rewrite (update_open_none b tick _ _ Hp Hv Ho). discriminate.
Qed.

Lemma build_priced (b : BarBuilder.t) (close_time : option Z) :
  reachable b ->
  BarBuilder._open b <> None ->
  BarBuilder._use_previous_close b = true ->
  priced (fst (BarBuilder.build close_time b)) /\
  BarBuilder._open (snd (BarBuilder.build close_time b)) <> None.
Proof.
  intros R Ho Hu. pose proof (reachable_in_order b R) as W.
  destruct b as [spec lu n o h l c v upc].
  cbn [BarBuilder._open BarBuilder._high BarBuilder._low BarBuilder._close
       BarBuilder._use_previous_close] in *. subst upc.
  unfold priced, BarBuilder.build, BarBuilder._reset.
  cbn [fst snd Bar.open Bar.high Bar.low Bar.close BarBuilder._use_previous_close
       BarBuilder._close BarBuilder.set_prices BarBuilder.set_counters BarBuilder._open].
  split; [split; assumption|].
  destruct o as [o|]; [|contradiction].
  destruct W as (h' & l' & c' & _ & _ & -> & _). discriminate.
Qed.

Lemma build_events_priced (events : list Z) :
  forall agg : TimeBarAggregator.t,
    reachable (TimeBarAggregator._builder agg) ->
    BarBuilder._open (TimeBarAggregator._builder agg) <> None ->
    BarBuilder._use_previous_close (TimeBarAggregator._builder agg) = true ->
    Forall priced (TimeBarAggregator.handled agg) ->
    let agg' := fold_left (fun s event => TimeBarAggregator._build_event event s) events agg in
    reachable (TimeBarAggregator._builder agg') /\
    BarBuilder._use_previous_close (TimeBarAggregator._builder agg') = true /\
    Forall priced (TimeBarAggregator.handled agg') /\
    BarBuilder.bar_spec (TimeBarAggregator._builder agg')
    = BarBuilder.bar_spec (TimeBarAggregator._builder agg).
Proof.
  induction events as [|ev events IH]; intros agg R Ho Hu Hb; cbn [fold_left].
  - repeat split; assumption.
  - destruct agg as [b clock i nc handled].
    cbn [TimeBarAggregator._builder TimeBarAggregator.handled] in *.
    destruct (build_priced b (Some ev) R Ho Hu) as [P1 P2].
    destruct (build_well_kept b (Some ev)) as (_ & E1 & E2).
    change (TimeBarAggregator._build_event ev
              (TimeBarAggregator.mk b clock i nc handled))
      with (TimeBarAggregator.mk (snd (BarBuilder.build (Some ev) b)) clock i nc
              (handled ++ [fst (BarBuilder.build (Some ev) b)])).
    destruct (IH (TimeBarAggregator.mk (snd (BarBuilder.build (Some ev) b)) clock i nc
                    (handled ++ [fst (BarBuilder.build (Some ev) b)])))
      as (I1 & I2 & I3 & I4);
      cbn [TimeBarAggregator._builder TimeBarAggregator.handled].
    + apply reachable_build. exact R.
    + exact P2.
    + congruence.
    + apply Forall_app. split; [exact Hb|]. constructor; [exact P1|constructor].
    + cbn [TimeBarAggregator._builder TimeBarAggregator.handled] in I4.
      repeat split; try assumption. congruence.
Qed.

Lemma update_priced (agg agg' : TimeBarAggregator.t) (tick : Tick.t) :
  reachable (TimeBarAggregator._builder agg) ->
  supported (BarSpecification.price_type
               (BarBuilder.bar_spec (TimeBarAggregator._builder agg))) = true ->
  BarBuilder._use_previous_close (TimeBarAggregator._builder agg) = true ->
  Forall priced (TimeBarAggregator.handled agg) ->
  TimeBarAggregator.update tick agg = (Returned tt, agg') ->
  reachable (TimeBarAggregator._builder agg') /\
  supported (BarSpecification.price_type
               (BarBuilder.bar_spec (TimeBarAggregator._builder agg'))) = true /\
  BarBuilder._use_previous_close (TimeBarAggregator._builder agg') = true /\
  Forall priced (TimeBarAggregator.handled agg').
Proof.
  intros R Hs Hu Hb.
  pose proof (update_opens _ tick R Hs) as Ho.
  pose proof (reachable_update _ _ tick R
                (update_always_returns (TimeBarAggregator._builder agg) tick)) as R1.
  destruct (update_well_kept _ _ tick (reachable_well_kept _ R)
              (update_always_returns (TimeBarAggregator._builder agg) tick))
    as (_ & E1 & E2).
  unfold TimeBarAggregator.update.
  rewrite (update_always_returns (TimeBarAggregator._builder agg) tick).
  set (b1 := snd (BarBuilder.update tick (TimeBarAggregator._builder agg))) in *.
  cbn [TimeBarAggregator._clock TimeBarAggregator._builder TimeBarAggregator.handled
       TimeBarAggregator.interval TimeBarAggregator.next_close].
  destruct (Clock.is_test_clock (TimeBarAggregator._clock agg)).
  - destruct (Clock.next_event_time (TimeBarAggregator._clock agg)) as [[next|next]|];
      [|discriminate|discriminate].
    destruct (next <=? Tick.timestamp tick).
    + destruct (Clock.get_pending_events
                  (Clock.advance_time (Tick.timestamp tick) (TimeBarAggregator._clock agg)))
        as [events clock'].
      cbn [TimeBarAggregator._clock TimeBarAggregator._builder TimeBarAggregator.handled
           TimeBarAggregator.interval TimeBarAggregator.next_close].
      intros [= <-].
      cbn [TimeBarAggregator._builder TimeBarAggregator.handled].
      match goal with
      | |- context [fold_left ?f ?evs ?a] =>
        destruct (build_events_priced evs a) as (V0 & V1 & V2 & V3)
      end; cbn [TimeBarAggregator._builder TimeBarAggregator.handled];
        try assumption; try congruence.
      cbn zeta in V0, V1, V2, V3.
      cbn [TimeBarAggregator._builder TimeBarAggregator.handled] in V3.
      repeat split; try assumption. rewrite V3, E1. exact Hs.
    + intros [= <-]. cbn [TimeBarAggregator.handled TimeBarAggregator._builder].
      repeat split; try assumption; congruence.
  - intros [= <-]. cbn [TimeBarAggregator.handled TimeBarAggregator._builder].
    repeat split; try assumption; congruence.
Qed.

Lemma update_all_priced (ticks : list Tick.t) :
  forall agg agg' : TimeBarAggregator.t,
    reachable (TimeBarAggregator._builder agg) ->
    supported (BarSpecification.price_type
                 (BarBuilder.bar_spec (TimeBarAggregator._builder agg))) = true ->
    BarBuilder._use_previous_close (TimeBarAggregator._builder agg) = true ->
    Forall priced (TimeBarAggregator.handled agg) ->
    TimeBarAggregator.update_all ticks agg = (Returned tt, agg') ->
    Forall priced (TimeBarAggregator.handled agg').
Proof.
  induction ticks as [|t ticks IH]; intros agg agg' R Hs Hu Hb H.
  - injection H as <-. exact Hb.
  - cbn [TimeBarAggregator.update_all] in H.
    destruct (TimeBarAggregator.update t agg) as [[[]|e] agg1] eqn:U; [|discriminate].
    destruct (update_priced agg agg1 t R Hs Hu Hb U) as (R1 & Hs1 & Hu1 & Hb1).
    exact (IH agg1 agg' R1 Hs1 Hu1 Hb1 H).
Qed.

End TimeBarPrices.

(** X11: a time aggregator of SECOND, MINUTE or HOUR bars (its start time
    is aware) built on a simulation clock with nothing pending, for a
    supported price type and a step above 0, and fed a tick stream in
    timestamp order that ends with [tick]: every update returns; the bars
    handed over are as many as the timer intervals that have run out by the
    last tick's time, counted from the timer's start, whether or not ticks
    arrived in them; every bar has its four prices, in order; and every bar
    after the first opens at the close of the bar before it. *)
Theorem time_bars_one_per_interval {PM : PriceModel}
    (spec : BarSpecification.t) (clock : Clock.t) (agg : TimeBarAggregator.t)
    (start : Z) (ticks : list Tick.t) (tick : Tick.t) :
  Clock.is_test_clock clock = true ->
  Clock.pending clock = [] ->
  supported (BarSpecification.price_type spec) = true ->
  0 < BarSpecification.step spec ->
  TimeBarAggregator.__init__ spec clock = Returned agg ->
  TimeBarAggregator._get_start_time spec clock = Returned (aware start) ->
  in_time_order (ticks ++ [tick]) ->
  exists agg' : TimeBarAggregator.t,
    TimeBarAggregator.update_all (ticks ++ [tick]) agg = (Returned tt, agg') /\
    length (TimeBarAggregator.handled agg')
      = intervals_elapsed start (TimeBarAggregator.interval agg) (Tick.timestamp tick) /\
    Forall priced (TimeBarAggregator.handled agg') /\
    gapless (TimeBarAggregator.handled agg').
Proof.
  intros Ht Hpend Hs Hstep Hinit Hstart Hord.
  destruct (init_unfold spec clock agg _ Hinit Hstart) as (i & Hgi & ->).
  assert (Hi := get_interval_positive spec i Hgi Hstep).
  assert (J : exists i0 : Z,
            0 < i0 /\
            TimeBarAggregator.interval
              (TimeBarAggregator.mk (BarBuilder.__init__ spec true)
                 (Clock.set_timer i (aware start) clock) i (Clock.next_event_time clock) [])
              = i0 /\
            forall m : Z, m <= start ->
              on_schedule start m
                (TimeBarAggregator.mk (BarBuilder.__init__ spec true)
                   (Clock.set_timer i (aware start) clock) i
                   (Clock.next_event_time clock) [])).
  { exists i. split; [exact Hi|]. split; [reflexivity|].
    intros m Hm. unfold on_schedule. cbn.
    repeat split; try assumption; try lia.
    - do 2 f_equal. lia.
    - intros [|k] b1 b2 H; discriminate.
    - intros bar H. discriminate. }
  destruct J as (i0 & _ & Hint & J). cbn [TimeBarAggregator.interval] in Hint. subst i0.
  unfold in_time_order in Hord.
  set (m0 := Z.min (Tick.timestamp (hd tick (ticks ++ [tick]))) start).
  destruct (update_all_on_schedule start (ticks ++ [tick]) m0 _ (J m0 ltac:(unfold m0; lia)))
    as (agg' & U & J' & E').
  { destruct (ticks ++ [tick]) as [|x l] eqn:E; [destruct ticks; discriminate|].
    cbn [map] in *. apply sorted_from_below; [|exact Hord].
    unfold m0. cbn [hd]. lia. }
  exists agg'. split; [exact U|].
  rewrite map_app in J'. cbn [map] in J'. rewrite last_last in J'.
  destruct J' as (_ & _ & Hi' & Hint' & _ & Hm & Hn & _ & _ & _ & [G _]).
  split; [|split; [|exact G]].
  2:{ pose proof (fun R H1 H2 H3 =>
                    update_all_priced (ticks ++ [tick]) _ agg' R H1 H2 H3 U) as Q.
      apply Q; cbn [TimeBarAggregator._builder TimeBarAggregator.handled].
      - apply reachable_init.
      - exact Hs.
      - reflexivity.
      - constructor. }
  cbn [TimeBarAggregator.interval] in E'. cbn [TimeBarAggregator.interval].
  assert (Hsame : Clock.timer_interval (TimeBarAggregator._clock agg') = i) by congruence.
  rewrite Hsame in *.
  symmetry. apply intervals_elapsed_count; assumption.
Qed.

Lemma time_bars_one_per_interval_witness :
  exists agg' : TimeBarAggregator.t (PM := Sample.five_places),
    TimeBarAggregator.update_all
      ([Sample.tick 10 12 40000000; Sample.tick 11 13 200000000]
         ++ [Sample.tick 12 14 250000000])
      (TimeBarAggregator.mk (BarBuilder.__init__ Sample.mid_minutes true)
         (Clock.mk true 30000000 (Some (aware 60000000)) 60000000 []) 60000000 None [])
      = (Returned tt, agg') /\
    length (TimeBarAggregator.handled agg') = intervals_elapsed 0 60000000 250000000 /\
    Forall priced (TimeBarAggregator.handled agg') /\
    gapless (TimeBarAggregator.handled agg').
Proof.
  apply (time_bars_one_per_interval (PM := Sample.five_places)
           Sample.mid_minutes Sample.test_clock
           (TimeBarAggregator.mk (BarBuilder.__init__ Sample.mid_minutes true)
              (Clock.mk true 30000000 (Some (aware 60000000)) 60000000 []) 60000000 None [])
           0
           [Sample.tick 10 12 40000000; Sample.tick 11 13 200000000]
           (Sample.tick 12 14 250000000)).
  - reflexivity.
  - reflexivity.
  - reflexivity.
  - reflexivity.
  - reflexivity.
  - reflexivity.
  - unfold in_time_order. simpl.
    repeat (constructor; [|repeat (constructor; try lia)]). constructor.
Defined.

(** X12: on a clock that is not a test clock the time aggregator builds
    nothing when it is updated: every tick goes to the builder, and the
    clock, the next close and the bars handed over stay as they are. *)
Theorem live_clock_update_builds_no_bar {PM : PriceModel}
    (agg : TimeBarAggregator.t) (ticks : list Tick.t) :
  Clock.is_test_clock (TimeBarAggregator._clock agg) = false ->
  TimeBarAggregator.update_all ticks agg
    = (fst (BarBuilder.update_all ticks (TimeBarAggregator._builder agg)),
       TimeBarAggregator.mk
         (snd (BarBuilder.update_all ticks (TimeBarAggregator._builder agg)))
         (TimeBarAggregator._clock agg) (TimeBarAggregator.interval agg)
         (TimeBarAggregator.next_close agg) (TimeBarAggregator.handled agg)).
Proof.
  destruct agg as [b clock interval next_close bars]. cbn. apply time_run_live.
Qed.

Lemma live_clock_update_builds_no_bar_witness :
  TimeBarAggregator.update_all (PM := Sample.five_places)
    [Sample.tick 10 12 40000000; Sample.tick 11 13 200000000]
    (TimeBarAggregator.mk (BarBuilder.__init__ Sample.mid_minutes true)
       (Clock.mk false 30000000 (Some (aware 60000000)) 60000000 []) 60000000 None [])
  = (fst (BarBuilder.update_all
            [Sample.tick 10 12 40000000; Sample.tick 11 13 200000000]
            (BarBuilder.__init__ Sample.mid_minutes true)),
     TimeBarAggregator.mk
       (snd (BarBuilder.update_all
               [Sample.tick 10 12 40000000; Sample.tick 11 13 200000000]
               (BarBuilder.__init__ Sample.mid_minutes true)))
       (Clock.mk false 30000000 (Some (aware 60000000)) 60000000 []) 60000000 None []).
Proof.
  apply (live_clock_update_builds_no_bar (PM := Sample.five_places)
           (TimeBarAggregator.mk (BarBuilder.__init__ Sample.mid_minutes true)
              (Clock.mk false 30000000 (Some (aware 60000000)) 60000000 []) 60000000 None [])
           [Sample.tick 10 12 40000000; Sample.tick 11 13 200000000]).
  reflexivity.
Defined.

Lemma expiries_S (next interval : Z) (k : nat) :
  Clock.expiries next interval (S k) = next :: Clock.expiries (next + interval) interval k.
Proof.
  unfold Clock.expiries. cbn [seq map]. f_equal; [lia|].
  rewrite <- seq_shift, map_map. apply map_ext. intros j. lia.
Qed.

Lemma interval_ends_from (start interval : Z) (k : nat) :
  forall n : nat,
    map (fun j => Some (start + (Z.of_nat j + 1) * interval)) (seq n k)
    = map Some (Clock.expiries (start + (Z.of_nat n + 1) * interval) interval k).
Proof.
  induction k as [|k IH]; intros n.
  - reflexivity.
  - rewrite expiries_S. cbn [seq map]. f_equal. rewrite (IH (S n)).
    do 2 f_equal. lia.
Qed.

Lemma interval_ends_app (start interval : Z) (n k : nat) :
  interval_ends start interval n
    ++ map Some (Clock.expiries (start + (Z.of_nat n + 1) * interval) interval k)
  = interval_ends start interval (n + k).
Proof.
  unfold interval_ends. rewrite seq_app, map_app. f_equal.
  cbn [Nat.add]. symmetry. apply interval_ends_from.
Qed.

Section TimeBarStamps.
Context {PM : PriceModel}.

Lemma build_events_stamps (events : list Z) :
  forall agg : TimeBarAggregator.t,
    map Bar.timestamp
      (TimeBarAggregator.handled
         (fold_left (fun s event => TimeBarAggregator._build_event event s) events agg))
    = map Bar.timestamp (TimeBarAggregator.handled agg) ++ map Some events.
Proof.
  induction events as [|ev events IH]; intros agg; cbn [fold_left map].
  - rewrite app_nil_r. reflexivity.
  - rewrite IH. destruct agg as [b clock i nc handled].
    unfold TimeBarAggregator._build_event, BarBuilder.build, TimeBarAggregator._handle_bar.
    cbn [TimeBarAggregator.handled TimeBarAggregator._builder].
    rewrite map_app, <- app_assoc. reflexivity.
Qed.

Lemma build_events_prefix (events : list Z) :
  forall agg : TimeBarAggregator.t,
    exists more : list Bar.t,
      TimeBarAggregator.handled
        (fold_left (fun s event => TimeBarAggregator._build_event event s) events agg)
      = TimeBarAggregator.handled agg ++ more.
Proof.
  induction events as [|ev events IH]; intros agg; cbn [fold_left].
  - exists []. rewrite app_nil_r. reflexivity.
  - destruct (IH (TimeBarAggregator._build_event ev agg)) as [more ->].
    destruct agg as [b clock i nc handled].
    unfold TimeBarAggregator._build_event, BarBuilder.build, TimeBarAggregator._handle_bar.
    cbn [TimeBarAggregator.handled TimeBarAggregator._builder].
    eexists. rewrite <- app_assoc. reflexivity.
Qed.

Lemma build_events_clock (events : list Z) :
  forall agg : TimeBarAggregator.t,
    TimeBarAggregator._clock
      (fold_left (fun s event => TimeBarAggregator._build_event event s) events agg)
    = TimeBarAggregator._clock agg.
Proof.
  induction events as [|ev events IH]; intros agg; cbn [fold_left].
  - reflexivity.
  - rewrite IH. destruct agg as [b clock i nc handled]. reflexivity.
Qed.

(** The timer events fired by one [update] of an aggregator on a test
    clock. *)
Lemma update_stamps (tick : Tick.t) (agg agg' : TimeBarAggregator.t) (next : Z) :
  TimeBarAggregator.update tick agg = (Returned tt, agg') ->
  Clock.is_test_clock (TimeBarAggregator._clock agg) = true ->
  Clock.next_event_time (TimeBarAggregator._clock agg) = Some (aware next) ->
  Clock.pending (TimeBarAggregator._clock agg) = [] ->
  map Bar.timestamp (TimeBarAggregator.handled agg')
  = map Bar.timestamp (TimeBarAggregator.handled agg)
    ++ map Some
         (if next <=? Tick.timestamp tick
          then Clock.expiries next (Clock.timer_interval (TimeBarAggregator._clock agg))
                 (Z.to_nat ((Tick.timestamp tick - next)
                            / Clock.timer_interval (TimeBarAggregator._clock agg) + 1))
          else []).
Proof.
  unfold TimeBarAggregator.update.
  destruct (BarBuilder.update tick (TimeBarAggregator._builder agg)) as [[[]|e] b1];
    [|discriminate].
  cbn [TimeBarAggregator._clock]. intros U Ht Hn Hp. rewrite Ht, Hn in U.
  destruct (next <=? Tick.timestamp tick) eqn:Hcmp.
  - unfold Clock.advance_time in U. rewrite Hn, Hcmp, Hp in U.
    cbn [app Clock.get_pending_events Clock.pending Clock.is_test_clock Clock.time
         Clock.next_event_time Clock.timer_interval] in U.
    injection U as <-.
    cbn [TimeBarAggregator.handled TimeBarAggregator._builder TimeBarAggregator._clock
         TimeBarAggregator.interval].
    rewrite build_events_stamps. reflexivity.
  - injection U as <-. cbn [TimeBarAggregator.handled map]. rewrite app_nil_r. reflexivity.
Qed.

Lemma update_stamped (start m : Z) (agg : TimeBarAggregator.t) (tick : Tick.t) :
  on_schedule start m agg ->
  m <= Tick.timestamp tick ->
  map Bar.timestamp (TimeBarAggregator.handled agg)
    = interval_ends start (TimeBarAggregator.interval agg)
        (length (TimeBarAggregator.handled agg)) ->
  exists agg' : TimeBarAggregator.t,
    TimeBarAggregator.update tick agg = (Returned tt, agg') /\
    on_schedule start (Tick.timestamp tick) agg' /\
    TimeBarAggregator.interval agg' = TimeBarAggregator.interval agg /\
    map Bar.timestamp (TimeBarAggregator.handled agg')
      = interval_ends start (TimeBarAggregator.interval agg')
          (length (TimeBarAggregator.handled agg')).
Proof.
  intros J Hle Hst.
  destruct (update_on_schedule start m agg tick J Hle) as (agg' & U & J' & E').
  exists agg'. split; [exact U|]. split; [exact J'|]. split; [exact E'|].
  destruct J as (Ht & Hpend & Hi & Hint & Hnext & _).
  pose proof (update_stamps tick agg agg' _ U Ht Hnext Hpend) as S.
  rewrite Hst, <- Hint in S.
  assert (L : forall k : nat,
            map Bar.timestamp (TimeBarAggregator.handled agg')
            = interval_ends start (TimeBarAggregator.interval agg)
                (length (TimeBarAggregator.handled agg) + k) ->
            map Bar.timestamp (TimeBarAggregator.handled agg')
            = interval_ends start (TimeBarAggregator.interval agg')
                (length (TimeBarAggregator.handled agg'))).
  { intros k Hk. rewrite E'. rewrite Hk. f_equal.
    apply (f_equal (@length _)) in Hk.
    unfold interval_ends in Hk. rewrite !length_map, length_seq in Hk. lia. }
  match type of S with
  | context [if ?c then _ else _] => destruct c
  end.
  - rewrite interval_ends_app in S. exact (L _ S).
  - cbn [map] in S. rewrite app_nil_r in S. apply (L O). rewrite Nat.add_0_r. exact S.
Qed.

Lemma update_all_stamped (start : Z) (ticks : list Tick.t) :
  forall (m : Z) (agg : TimeBarAggregator.t),
    on_schedule start m agg ->
    StronglySorted Z.le (m :: map Tick.timestamp ticks) ->
    map Bar.timestamp (TimeBarAggregator.handled agg)
      = interval_ends start (TimeBarAggregator.interval agg)
          (length (TimeBarAggregator.handled agg)) ->
    exists agg' : TimeBarAggregator.t,
      TimeBarAggregator.update_all ticks agg = (Returned tt, agg') /\
      TimeBarAggregator.interval agg' = TimeBarAggregator.interval agg /\
      map Bar.timestamp (TimeBarAggregator.handled agg')
        = interval_ends start (TimeBarAggregator.interval agg')
            (length (TimeBarAggregator.handled agg')).
Proof.
  induction ticks as [|t ticks IH]; intros m agg J Hs Hst.
  - exists agg. split; [reflexivity|]. split; [reflexivity|exact Hst].
  - cbn [map] in Hs. apply StronglySorted_inv in Hs. destruct Hs as [Hs Hall].
    apply Forall_inv in Hall.
    destruct (update_stamped start m agg t J Hall Hst) as (agg1 & U & J1 & E1 & S1).
    destruct (IH (Tick.timestamp t) agg1 J1 Hs S1) as (agg' & U' & E' & S').
    exists agg'. split; [|split].
    + cbn [TimeBarAggregator.update_all]. rewrite U. exact U'.
    + congruence.
    + exact S'.
Qed.

Lemma init_on_schedule (spec : BarSpecification.t) (clock : Clock.t) (i start m : Z) :
  Clock.is_test_clock clock = true ->
  Clock.pending clock = [] ->
  supported (BarSpecification.price_type spec) = true ->
  0 < i ->
  m <= start ->
  on_schedule start m
    (TimeBarAggregator.mk (BarBuilder.__init__ spec true)
       (Clock.set_timer i (aware start) clock) i (Clock.next_event_time clock) []).
Proof.
  intros Ht Hpend Hs Hi Hm. unfold on_schedule. cbn.
  repeat split; try assumption; try lia.
  - do 2 f_equal. lia.
  - intros [|k] b1 b2 H; discriminate.
  - intros bar H. discriminate.
Qed.

End TimeBarStamps.

(** X13: the bars a time aggregator of SECOND, MINUTE or HOUR bars (its
    start time is aware) hands over on a simulation clock are stamped with
    the ends of the timer intervals, not with tick times: counting from 0,
    bar [j] carries the timestamp [start + (j + 1) * interval], where [start]
    is the timer's aligned start time. *)
Theorem time_bars_stamped_at_interval_ends {PM : PriceModel}
    (spec : BarSpecification.t) (clock : Clock.t) (agg : TimeBarAggregator.t)
    (start : Z) (ticks : list Tick.t) :
  Clock.is_test_clock clock = true ->
  Clock.pending clock = [] ->
  supported (BarSpecification.price_type spec) = true ->
  0 < BarSpecification.step spec ->
  TimeBarAggregator.__init__ spec clock = Returned agg ->
  TimeBarAggregator._get_start_time spec clock = Returned (aware start) ->
  in_time_order ticks ->
  exists agg' : TimeBarAggregator.t,
    TimeBarAggregator.update_all ticks agg = (Returned tt, agg') /\
    forall (j : nat) (bar : Bar.t),
      nth_error (TimeBarAggregator.handled agg') j = Some bar ->
      Bar.timestamp bar
        = Some (start + (Z.of_nat j + 1) * TimeBarAggregator.interval agg).
Proof.
  intros Ht Hpend Hs Hstep Hinit Hstart Hord.
  destruct (init_unfold spec clock agg _ Hinit Hstart) as (i & Hgi & ->).
  assert (Hi := get_interval_positive spec i Hgi Hstep).
  set (m0 := Z.min (Tick.timestamp (hd (Tick.mk (Price_new 0) (Price_new 0) 0 0 start) ticks))
               start).
  destruct (update_all_stamped start ticks m0 _
              (init_on_schedule spec clock i start m0 Ht Hpend Hs Hi ltac:(unfold m0; lia)))
    as (agg' & U & E' & S').
  { unfold in_time_order in Hord. destruct ticks as [|x l].
    - constructor; constructor.
    - cbn [map] in *. apply sorted_from_below; [|exact Hord]. unfold m0. cbn [hd]. lia. }
  { reflexivity. }
  exists agg'. split; [exact U|].
  intros j bar Hj. cbn [TimeBarAggregator.interval] in *.
  assert (Hm : nth_error (map Bar.timestamp (TimeBarAggregator.handled agg')) j
               = Some (Bar.timestamp bar)) by (rewrite nth_error_map, Hj; reflexivity).
  rewrite S', E' in Hm. unfold interval_ends in Hm.
  rewrite nth_error_map in Hm.
  destruct (nth_error (seq 0 (length (TimeBarAggregator.handled agg'))) j) as [x|] eqn:Hx;
    [|discriminate].
  assert (x = j).
  { assert (Hlt : (j < length (seq 0 (length (TimeBarAggregator.handled agg'))))%nat)
      by (apply nth_error_Some; congruence).
    rewrite length_seq in Hlt.
    rewrite (nth_error_nth' _ O) in Hx by (rewrite length_seq; exact Hlt).
    rewrite seq_nth in Hx by exact Hlt. injection Hx as <-. reflexivity. }
  subst x. cbn in Hm. injection Hm as <-. reflexivity.
Qed.

Lemma time_bars_stamped_at_interval_ends_witness :
  exists agg' : TimeBarAggregator.t (PM := Sample.five_places),
    TimeBarAggregator.update_all
      [Sample.tick 10 12 40000000; Sample.tick 11 13 200000000; Sample.tick 12 14 250000000]
      (TimeBarAggregator.mk (BarBuilder.__init__ Sample.mid_minutes true)
         (Clock.mk true 30000000 (Some (aware 60000000)) 60000000 []) 60000000 None [])
      = (Returned tt, agg') /\
    forall (j : nat) (bar : Bar.t),
      nth_error (TimeBarAggregator.handled agg') j = Some bar ->
      Bar.timestamp bar = Some (0 + (Z.of_nat j + 1) * 60000000).
Proof.
  apply (time_bars_stamped_at_interval_ends (PM := Sample.five_places)
           Sample.mid_minutes Sample.test_clock
           (TimeBarAggregator.mk (BarBuilder.__init__ Sample.mid_minutes true)
              (Clock.mk true 30000000 (Some (aware 60000000)) 60000000 []) 60000000 None [])
           0
           [Sample.tick 10 12 40000000; Sample.tick 11 13 200000000;
            Sample.tick 12 14 250000000]).
  - reflexivity.
  - reflexivity.
  - reflexivity.
  - reflexivity.
  - reflexivity.
  - reflexivity.
  - unfold in_time_order. simpl.
    repeat (constructor; [|repeat (constructor; try lia)]). constructor.
Defined.

(** X14: [update] feeds the tick to the builder before it looks at the timer,
    so the tick that arrives at or after a bar's closing time is counted into
    that bar: the bar stamped with the closing time closes at the price of
    this later tick and, the tick's sizes being within the range of a C
    [int], its volume includes the tick's size. *)
Theorem closing_tick_is_in_the_closed_bar {PM : PriceModel}
    (agg : TimeBarAggregator.t) (tick : Tick.t) (next : Z) :
  reachable (TimeBarAggregator._builder agg) ->
  supported (BarSpecification.price_type
               (BarBuilder.bar_spec (TimeBarAggregator._builder agg))) = true ->
  sizes_fit tick = true ->
  Clock.is_test_clock (TimeBarAggregator._clock agg) = true ->
  Clock.pending (TimeBarAggregator._clock agg) = [] ->
  Clock.next_event_time (TimeBarAggregator._clock agg) = Some (aware next) ->
  0 < Clock.timer_interval (TimeBarAggregator._clock agg) ->
  next <= Tick.timestamp tick ->
  exists (agg' : TimeBarAggregator.t) (bar : Bar.t),
    TimeBarAggregator.update tick agg = (Returned tt, agg') /\
    nth_error (TimeBarAggregator.handled agg') (length (TimeBarAggregator.handled agg))
      = Some bar /\
    Bar.timestamp bar = Some next /\
    Bar.close bar
      = Some (derived_price
                (BarSpecification.price_type
                   (BarBuilder.bar_spec (TimeBarAggregator._builder agg))) tick) /\
    Bar.volume bar
      = BarBuilder._volume (TimeBarAggregator._builder agg)
        + derived_size
            (BarSpecification.price_type
               (BarBuilder.bar_spec (TimeBarAggregator._builder agg))) tick /\
    exists next_close : Z,
      TimeBarAggregator.next_close agg' = Some (aware next_close) /\
      Tick.timestamp tick < next_close.
Proof.
  intros R Hs Hf Ht Hpend Hnext Hi Hle.
  destruct agg as [b clock i nc handled].
  cbn [TimeBarAggregator._builder TimeBarAggregator._clock TimeBarAggregator.handled] in *.
  set (pt := BarSpecification.price_type (BarBuilder.bar_spec b)) in *.
  assert (Hp := get_price_supported b tick Hs).
  assert (Hv := get_volume_supported b tick Hs Hf). fold pt in Hp, Hv.
  assert (U : exists o h l : option Price,
            BarBuilder.update tick b =
              (Returned tt,
               BarBuilder.mk (BarBuilder.bar_spec b) (Some (Tick.timestamp tick))
                 (BarBuilder.count b + 1) o h l (Some (derived_price pt tick))
                 (BarBuilder._volume b + derived_size pt tick)
                 (BarBuilder._use_previous_close b))).
  { pose proof (reachable_well_kept b R) as W. unfold well_kept in W.
    destruct (BarBuilder._open b) as [o|] eqn:Ho.
    - destruct W as (h & l & Hh & Hl & Hlh).
      rewrite (update_open_some b tick _ o h l _ Hp Hv Ho Hh Hl Hlh).
      do 3 eexists. reflexivity.
    - rewrite (update_open_none b tick _ _ Hp Hv Ho).
      do 3 eexists. reflexivity. }
  destruct U as (o & h & l & U).
  unfold TimeBarAggregator.update.
  cbn [TimeBarAggregator._builder TimeBarAggregator._clock TimeBarAggregator.handled
       TimeBarAggregator.interval TimeBarAggregator.next_close].
  rewrite U, Ht, Hnext. rewrite (proj2 (Z.leb_le _ _) Hle).
  unfold Clock.advance_time. rewrite Hnext, (proj2 (Z.leb_le _ _) Hle), Hpend.
  cbn [app Clock.get_pending_events Clock.pending Clock.is_test_clock Clock.time
       Clock.next_event_time Clock.timer_interval].
  assert (Hq : 0 <= (Tick.timestamp tick - next) / Clock.timer_interval clock)
    by (apply Z.div_pos; lia).
  destruct (Z.to_nat ((Tick.timestamp tick - next) / Clock.timer_interval clock + 1))
    as [|k] eqn:Hk; [lia|].
  rewrite expiries_S. cbn [fold_left].
  match goal with
  | |- context [fold_left ?f ?evs ?a] =>
    destruct (build_events_prefix evs a) as [more Hmore];
    pose proof (build_events_clock evs a) as Hclock
  end.
  eexists. eexists. split; [reflexivity|].
  cbn [TimeBarAggregator.handled TimeBarAggregator._builder TimeBarAggregator._clock
       TimeBarAggregator.interval TimeBarAggregator.next_close].
  rewrite Hmore, Hclock.
  unfold TimeBarAggregator._build_event, BarBuilder.build, TimeBarAggregator._handle_bar.
  cbn [TimeBarAggregator.handled TimeBarAggregator._builder TimeBarAggregator._clock
       Clock.next_event_time].
  rewrite <- app_assoc. rewrite nth_error_app2 by lia. rewrite Nat.sub_diag.
  cbn [nth_error app Bar.timestamp Bar.close Bar.volume BarBuilder._close
       BarBuilder._volume BarBuilder._open BarBuilder._high BarBuilder._low].
  repeat split.
  eexists. split; [reflexivity|].
  assert (Hdm := Z.div_mod (Tick.timestamp tick - next) (Clock.timer_interval clock)
                   ltac:(lia)).
  assert (Hmod := Z.mod_pos_bound (Tick.timestamp tick - next)
                    (Clock.timer_interval clock) Hi).
  nia.
Qed.

Lemma closing_tick_is_in_the_closed_bar_witness :
  exists (agg' : TimeBarAggregator.t (PM := Sample.five_places)) (bar : Bar.t),
    TimeBarAggregator.update (Sample.tick 11 13 70000000)
      (TimeBarAggregator.mk (BarBuilder.__init__ Sample.mid_minutes true)
         (Clock.mk true 30000000 (Some (aware 60000000)) 60000000 []) 60000000 None [])
      = (Returned tt, agg') /\
    nth_error (TimeBarAggregator.handled agg') (length (@nil (Bar.t (PM := Sample.five_places))))
      = Some bar /\
    Bar.timestamp bar = Some 60000000 /\
    Bar.close bar
      = Some (derived_price (PM := Sample.five_places) PriceType.MID
                (Sample.tick 11 13 70000000)) /\
    Bar.volume bar
      = 0 + derived_size (PM := Sample.five_places) PriceType.MID (Sample.tick 11 13 70000000) /\
    exists next_close : Z,
      TimeBarAggregator.next_close agg' = Some (aware next_close) /\
      70000000 < next_close.
Proof.
  apply (closing_tick_is_in_the_closed_bar (PM := Sample.five_places)
           (TimeBarAggregator.mk (BarBuilder.__init__ Sample.mid_minutes true)
              (Clock.mk true 30000000 (Some (aware 60000000)) 60000000 []) 60000000 None [])
           (Sample.tick 11 13 70000000) 60000000).
  - apply reachable_init.
  - reflexivity.
  - reflexivity.
  - reflexivity.
  - reflexivity.
  - reflexivity.
  - reflexivity.
  - discriminate.
Defined.

(** ** Bars: the volume is conserved *)

Section Volume.
Context {PM : PriceModel}.

Lemma bars_volume_app (l1 l2 : list Bar.t) :
  bars_volume (l1 ++ l2) = bars_volume l1 + bars_volume l2.
Proof.
  unfold bars_volume. induction l1 as [|bar l1 IH]; cbn [app fold_right]; lia.
Qed.

Lemma update_adds_size (b : BarBuilder.t) (tick : Tick.t) :
  reachable b ->
  supported (BarSpecification.price_type (BarBuilder.bar_spec b)) = true ->
  sizes_fit tick = true ->
  reachable (snd (BarBuilder.update tick b)) /\
  BarBuilder._volume (snd (BarBuilder.update tick b))
    = BarBuilder._volume b
      + derived_size (BarSpecification.price_type (BarBuilder.bar_spec b)) tick /\
  BarBuilder.bar_spec (snd (BarBuilder.update tick b)) = BarBuilder.bar_spec b.
Proof.
  intros R Hs Hf.
  split; [exact (reachable_update b _ tick R (update_always_returns b tick))|].
  assert (Hp := get_price_supported b tick Hs).
  assert (Hv := get_volume_supported b tick Hs Hf).
  pose proof (reachable_well_kept b R) as W. unfold well_kept in W.
  destruct (BarBuilder._open b) as [o|] eqn:Ho.
  - destruct W as (h & l & Hh & Hl & Hle).
    rewrite (update_open_some b tick _ o h l _ Hp Hv Ho Hh Hl Hle). split; reflexivity.
  - rewrite (update_open_none b tick _ _ Hp Hv Ho). split; reflexivity.
Qed.

Lemma build_events_volume (events : list Z) :
  forall agg : TimeBarAggregator.t,
    reachable (TimeBarAggregator._builder agg) ->
    let agg' := fold_left (fun s event => TimeBarAggregator._build_event event s) events agg in
    reachable (TimeBarAggregator._builder agg') /\
    bars_volume (TimeBarAggregator.handled agg')
      + BarBuilder._volume (TimeBarAggregator._builder agg')
    = bars_volume (TimeBarAggregator.handled agg)
      + BarBuilder._volume (TimeBarAggregator._builder agg) /\
    BarBuilder.bar_spec (TimeBarAggregator._builder agg')
    = BarBuilder.bar_spec (TimeBarAggregator._builder agg).
Proof.
  induction events as [|ev events IH]; intros agg R; cbn [fold_left].
  - split; [exact R|]. split; reflexivity.
  - assert (R1 : reachable (TimeBarAggregator._builder
                              (TimeBarAggregator._build_event ev agg))).
    { destruct agg as [b clock i nc handled].
      exact (reachable_build b (Some ev) R). }
    destruct (IH (TimeBarAggregator._build_event ev agg) R1) as (IH0 & IH1 & IH2).
    cbn zeta. split; [exact IH0|]. rewrite IH1, IH2.
    destruct agg as [b clock i nc handled].
    unfold TimeBarAggregator._build_event, BarBuilder.build, TimeBarAggregator._handle_bar,
      BarBuilder._reset.
    cbn [TimeBarAggregator.handled TimeBarAggregator._builder].
    rewrite bars_volume_app.
    destruct b as [spec lu n o h l c v upc]; destruct upc; cbn; split; try reflexivity; lia.
Qed.

Lemma tick_update_volume (agg : TickBarAggregator.t) (tick : Tick.t) :
  reachable (TickBarAggregator._builder agg) ->
  supported (BarSpecification.price_type
               (BarBuilder.bar_spec (TickBarAggregator._builder agg))) = true ->
  sizes_fit tick = true ->
  exists agg' : TickBarAggregator.t,
    TickBarAggregator.update tick agg = (Returned tt, agg') /\
    reachable (TickBarAggregator._builder agg') /\
    bars_volume (TickBarAggregator.handled agg')
      + BarBuilder._volume (TickBarAggregator._builder agg')
    = bars_volume (TickBarAggregator.handled agg)
      + BarBuilder._volume (TickBarAggregator._builder agg)
      + derived_size
          (BarSpecification.price_type (BarBuilder.bar_spec (TickBarAggregator._builder agg)))
          tick /\
    BarBuilder.bar_spec (TickBarAggregator._builder agg')
    = BarBuilder.bar_spec (TickBarAggregator._builder agg).
Proof.
  intros R Hs Hf.
  destruct (update_adds_size _ tick R Hs Hf) as (R1 & U1 & U2).
  unfold TickBarAggregator.update.
  rewrite (update_always_returns (TickBarAggregator._builder agg) tick).
  set (b1 := snd (BarBuilder.update tick (TickBarAggregator._builder agg))) in *.
  destruct (BarBuilder.count b1 =? TickBarAggregator.step agg).
  - eexists. split; [reflexivity|].
    unfold TickBarAggregator._handle_bar.
    cbn [TickBarAggregator.handled TickBarAggregator._builder].
    split; [exact (reachable_build b1 None R1)|].
    rewrite bars_volume_app. unfold BarBuilder.build, BarBuilder._reset.
    destruct b1 as [spec lu n o h l c v upc]; destruct upc; cbn in *;
      subst; split; try reflexivity; lia.
  - eexists. split; [reflexivity|].
    cbn [TickBarAggregator.handled TickBarAggregator._builder].
    split; [exact R1|]. split; [lia|exact U2].
Qed.

Lemma time_update_volume (agg agg' : TimeBarAggregator.t) (tick : Tick.t) :
  reachable (TimeBarAggregator._builder agg) ->
  supported (BarSpecification.price_type
               (BarBuilder.bar_spec (TimeBarAggregator._builder agg))) = true ->
  sizes_fit tick = true ->
  TimeBarAggregator.update tick agg = (Returned tt, agg') ->
  reachable (TimeBarAggregator._builder agg') /\
  bars_volume (TimeBarAggregator.handled agg')
    + BarBuilder._volume (TimeBarAggregator._builder agg')
  = bars_volume (TimeBarAggregator.handled agg)
    + BarBuilder._volume (TimeBarAggregator._builder agg)
    + derived_size
        (BarSpecification.price_type (BarBuilder.bar_spec (TimeBarAggregator._builder agg)))
        tick /\
  BarBuilder.bar_spec (TimeBarAggregator._builder agg')
  = BarBuilder.bar_spec (TimeBarAggregator._builder agg).
Proof.
  intros R Hs Hf.
  destruct (update_adds_size _ tick R Hs Hf) as (R1 & U1 & U2).
  unfold TimeBarAggregator.update.
  rewrite (update_always_returns (TimeBarAggregator._builder agg) tick).
  set (b1 := snd (BarBuilder.update tick (TimeBarAggregator._builder agg))) in *.
  cbn [TimeBarAggregator._clock TimeBarAggregator._builder TimeBarAggregator.handled
       TimeBarAggregator.interval TimeBarAggregator.next_close].
  destruct (Clock.is_test_clock (TimeBarAggregator._clock agg)).
  - destruct (Clock.next_event_time (TimeBarAggregator._clock agg)) as [[next|next]|];
      [|discriminate|discriminate].
    destruct (next <=? Tick.timestamp tick).
    + destruct (Clock.get_pending_events
                  (Clock.advance_time (Tick.timestamp tick) (TimeBarAggregator._clock agg)))
        as [events clock'].
      cbn [TimeBarAggregator._clock TimeBarAggregator._builder TimeBarAggregator.handled
           TimeBarAggregator.interval TimeBarAggregator.next_close].
      intros [= <-].
      cbn [TimeBarAggregator._builder TimeBarAggregator.handled].
      match goal with
      | |- context [fold_left ?f ?evs ?a] =>
        destruct (build_events_volume evs a R1) as (V0 & V1 & V2)
      end.
      cbn zeta in V0, V1, V2. rewrite V1, V2.
      cbn [TimeBarAggregator._builder TimeBarAggregator.handled].
      split; [exact V0|]. split; [lia|exact U2].
    + intros [= <-]. cbn [TimeBarAggregator.handled TimeBarAggregator._builder].
      split; [exact R1|]. split; [lia|exact U2].
  - intros [= <-]. cbn [TimeBarAggregator.handled TimeBarAggregator._builder].
    split; [exact R1|]. split; [lia|exact U2].
Qed.

End Volume.

(** X15: a tick aggregator conserves volume.  For a supported price type and
    ticks whose sizes are within the range of a C [int], after any run of
    ticks the volumes of the bars handed over and the volume held by the
    builder add up to what they were before plus the sizes of the ticks. *)
Theorem tick_bars_conserve_volume {PM : PriceModel}
    (ticks : list Tick.t) (agg : TickBarAggregator.t) :
  reachable (TickBarAggregator._builder agg) ->
  supported (BarSpecification.price_type
               (BarBuilder.bar_spec (TickBarAggregator._builder agg))) = true ->
  forallb sizes_fit ticks = true ->
  exists agg' : TickBarAggregator.t,
    TickBarAggregator.update_all ticks agg = (Returned tt, agg') /\
    bars_volume (TickBarAggregator.handled agg')
      + BarBuilder._volume (TickBarAggregator._builder agg')
    = bars_volume (TickBarAggregator.handled agg)
      + BarBuilder._volume (TickBarAggregator._builder agg)
      + ticks_volume
          (BarSpecification.price_type (BarBuilder.bar_spec (TickBarAggregator._builder agg)))
          ticks.
Proof.
  revert agg. induction ticks as [|t ticks IH]; intros agg R Hs Hf.
  - exists agg. split; [reflexivity|]. cbn [ticks_volume fold_right]. lia.
  - cbn [forallb] in Hf. apply andb_prop in Hf as [Ht Hf].
    destruct (tick_update_volume agg t R Hs Ht) as (agg1 & U & R1 & U1 & U2).
    destruct (IH agg1 R1 ltac:(rewrite U2; exact Hs) Hf) as (agg' & U' & V).
    exists agg'. cbn [TickBarAggregator.update_all]. rewrite U.
    split; [exact U'|]. rewrite V, U1, U2. unfold ticks_volume. cbn [fold_right]. lia.
Qed.

Lemma tick_bars_conserve_volume_witness :
  exists agg' : TickBarAggregator.t (PM := Sample.five_places),
    TickBarAggregator.update_all
      [Sample.tick 10 12 1; Sample.tick 11 13 2; Sample.tick 12 14 3]
      (TickBarAggregator.__init__ Sample.mid_ticks) = (Returned tt, agg') /\
    bars_volume (TickBarAggregator.handled agg')
      + BarBuilder._volume (TickBarAggregator._builder agg')
    = bars_volume (PM := Sample.five_places) [] + 0
      + ticks_volume (PM := Sample.five_places) PriceType.MID
          [Sample.tick 10 12 1; Sample.tick 11 13 2; Sample.tick 12 14 3].
Proof.
  apply (tick_bars_conserve_volume (PM := Sample.five_places)
           [Sample.tick 10 12 1; Sample.tick 11 13 2; Sample.tick 12 14 3]
           (TickBarAggregator.__init__ Sample.mid_ticks)).
  - apply reachable_init.
  - reflexivity.
  - reflexivity.
Defined.

(** X16: a time aggregator conserves volume in the same way, for a supported
    price type and ticks whose sizes are within the range of a C [int],
    whatever its clock does, as long as its updates return: no tick's size
    is lost or counted twice when timer events close bars. *)
Theorem time_bars_conserve_volume {PM : PriceModel}
    (ticks : list Tick.t) (agg agg' : TimeBarAggregator.t) :
  reachable (TimeBarAggregator._builder agg) ->
  supported (BarSpecification.price_type
               (BarBuilder.bar_spec (TimeBarAggregator._builder agg))) = true ->
  forallb sizes_fit ticks = true ->
  TimeBarAggregator.update_all ticks agg = (Returned tt, agg') ->
  bars_volume (TimeBarAggregator.handled agg')
    + BarBuilder._volume (TimeBarAggregator._builder agg')
  = bars_volume (TimeBarAggregator.handled agg)
    + BarBuilder._volume (TimeBarAggregator._builder agg)
    + ticks_volume
        (BarSpecification.price_type (BarBuilder.bar_spec (TimeBarAggregator._builder agg)))
        ticks.
Proof.
  revert agg. induction ticks as [|t ticks IH]; intros agg R Hs Hf H.
  - injection H as <-. cbn [ticks_volume fold_right]. lia.
  - cbn [forallb] in Hf. apply andb_prop in Hf as [Ht Hf].
    cbn [TimeBarAggregator.update_all] in H.
    destruct (TimeBarAggregator.update t agg) as [[[]|e] agg1] eqn:U; [|discriminate].
    apply time_update_volume in U as (R1 & U1 & U2); [|exact R|exact Hs|exact Ht].
    apply IH in H; [|exact R1|rewrite U2; exact Hs|exact Hf].
    rewrite H, U1, U2. unfold ticks_volume. cbn [fold_right]. lia.
Qed.

Lemma time_bars_conserve_volume_witness :
  bars_volume
    (TimeBarAggregator.handled (PM := Sample.five_places)
       (snd (TimeBarAggregator.update_all
               [Sample.tick 10 12 40000000; Sample.tick 11 13 200000000;
                Sample.tick 12 14 250000000]
               (TimeBarAggregator.mk (BarBuilder.__init__ Sample.mid_minutes true)
                  (Clock.mk true 30000000 (Some (aware 60000000)) 60000000 [])
                  60000000 None []))))
  + BarBuilder._volume
      (TimeBarAggregator._builder (PM := Sample.five_places)
         (snd (TimeBarAggregator.update_all
                 [Sample.tick 10 12 40000000; Sample.tick 11 13 200000000;
                  Sample.tick 12 14 250000000]
                 (TimeBarAggregator.mk (BarBuilder.__init__ Sample.mid_minutes true)
                    (Clock.mk true 30000000 (Some (aware 60000000)) 60000000 [])
                    60000000 None []))))
  = bars_volume (PM := Sample.five_places) [] + 0
    + ticks_volume (PM := Sample.five_places) PriceType.MID
        [Sample.tick 10 12 40000000; Sample.tick 11 13 200000000;
         Sample.tick 12 14 250000000].
Proof.
  apply (time_bars_conserve_volume (PM := Sample.five_places)
           [Sample.tick 10 12 40000000; Sample.tick 11 13 200000000;
            Sample.tick 12 14 250000000]
           (TimeBarAggregator.mk (BarBuilder.__init__ Sample.mid_minutes true)
              (Clock.mk true 30000000 (Some (aware 60000000)) 60000000 []) 60000000 None [])).
  - apply reachable_init.
  - reflexivity.
  - reflexivity.
  - vm_compute. reflexivity.
Defined.

(** ** Events: the dictionary and its keys *)

Lemma rescale_rescale (places : N) (d : Decimal.t) :
  Decimal.rescale places (Decimal.rescale places d) = Decimal.rescale places d.
Proof.
  assert (He : Decimal.exponent (Decimal.rescale places d) = - Z.of_N places).
  { unfold Decimal.rescale.
    destruct (- Z.of_N places <=? Decimal.exponent d); reflexivity. }
  destruct (Decimal.rescale places d) as [s co e]. cbn in He. subst e.
  unfold Decimal.rescale. cbn [Decimal.exponent Decimal.sign Decimal.coefficient].
  rewrite Z.leb_refl, Z.sub_diag. cbn. rewrite N.mul_1_r. reflexivity.
Qed.

Lemma format_f_rescale (places : N) (d : Decimal.t) :
  Decimal.format_f places (Decimal.rescale places d) = Decimal.format_f places d.
Proof. unfold Decimal.format_f. rewrite rescale_rescale. reflexivity. Qed.

Section EventKeys.
Context {MT : ModelTypes}.

Lemma getitem_present (values : gmap string PyVal) (key : string) (v : PyVal) :
  getitem values key = Returned v -> is_Some (values !! key).
Proof.
  unfold getitem. destruct (values !! key); [eauto|discriminate].
Qed.

Lemma field_present {A : Type} `{StrCodec A}
    (values : gmap string PyVal) (key : string) (x : A) :
  field values key = Returned x -> is_Some (values !! key).
Proof.
  unfold field. intros E. apply bind_returned in E as (v & E & _).
  exact (getitem_present _ _ _ E).
Qed.

Lemma decimal_field_present (values : gmap string PyVal) (key : string) (d : Decimal.t) :
  decimal_field values key = Returned d -> is_Some (values !! key).
Proof.
  unfold decimal_field. intros E. apply bind_returned in E as (v & E & _).
  exact (getitem_present _ _ _ E).
Qed.

Ltac key_of E :=
  first [ apply field_present in E
        | apply decimal_field_present in E
        | apply getitem_present in E ].

Ltac peel_key H :=
  apply bind_returned in H;
  let x := fresh "x" in
  let E := fresh "E" in
  destruct H as (x & E & H); key_of E.

Lemma from_dict_keys_present (c : EventClass) (values : gmap string PyVal)
    (e : PositionEvent.t) :
  from_dict values c = Returned e ->
  Forall (fun key => is_Some (values !! key)) (keys_read c).
Proof.
  destruct c; unfold from_dict, PositionOpened.from_dict, PositionChanged.from_dict,
    PositionClosed.from_dict, PositionOpened.from_dict_c, PositionChanged.from_dict_c,
    PositionClosed.from_dict_c; intros H.
  - do 21 peel_key H. unfold keys_read, common_keys.
    repeat (constructor; [assumption|]). constructor.
  - peel_key H. apply bind_returned in H as (x0 & _ & H).
    do 21 peel_key H. unfold keys_read, common_keys.
    repeat (constructor; [assumption|]). constructor.
  - do 24 peel_key H. unfold keys_read, common_keys.
    repeat (constructor; [assumption|]). constructor.
Qed.

End EventKeys.

(** X17: [from_dict] returns an event only for a dictionary that holds every
    key the class reads: a missing key makes it raise (for the empty
    dictionary, [KeyError] at the first lookup). *)
Theorem from_dict_needs_its_keys {MT : ModelTypes}
    (c : EventClass) (values : gmap string PyVal) (e : PositionEvent.t) :
  from_dict values c = Returned e ->
  Forall (fun key => is_Some (values !! key)) (keys_read c) /\
  from_dict ∅ c = Raised KeyError.
Proof.
  intros H. split; [exact (from_dict_keys_present c values e H)|].
  destruct c; reflexivity.
Qed.

Lemma from_dict_needs_its_keys_witness :
  Forall (fun key =>
            is_Some (to_dict (MT := Sample.strings)
                       (Sample.closed_event (Sample.dec 12345 (-5))) !! key))
    (keys_read Closed) /\
  from_dict (MT := Sample.strings) ∅ Closed = Raised KeyError.
Proof.
  apply (from_dict_needs_its_keys (MT := Sample.strings) Closed
           (to_dict (MT := Sample.strings) (Sample.closed_event (Sample.dec 12345 (-5))))
           (Sample.closed_event (Sample.dec 12345 (-5)))).
  vm_compute. reflexivity.
Defined.

Section EventFrame.
Context {MT : ModelTypes}.

Ltac in_keys := cbn [In keys_read common_keys]; repeat first [left; reflexivity | right].

Lemma from_dict_agree (c : EventClass) (v1 v2 : gmap string PyVal) :
  (forall key : string, In key (keys_read c) -> v1 !! key = v2 !! key) ->
  from_dict v1 c = from_dict v2 c.
Proof.
  intros H.
  assert (G : forall key : string, In key (keys_read c) -> getitem v1 key = getitem v2 key).
  { intros key Hk. unfold getitem. rewrite (H key Hk). reflexivity. }
  destruct c; unfold from_dict, PositionOpened.from_dict, PositionChanged.from_dict,
    PositionClosed.from_dict, PositionOpened.from_dict_c, PositionChanged.from_dict_c,
    PositionClosed.from_dict_c, field, decimal_field;
    repeat match goal with
           | |- context [getitem v1 ?key] => rewrite (G key) by in_keys
           end;
    reflexivity.
Qed.

End EventFrame.

(** X18: what [from_dict] returns or raises depends only on the entries under
    the keys its class reads: two dictionaries that agree on them are decoded
    alike.  The ["type"] entry is not among them for any class, so it is
    never checked. *)
Theorem from_dict_reads_only_its_keys {MT : ModelTypes}
    (c : EventClass) (v1 v2 : gmap string PyVal) :
  (forall key : string, In key (keys_read c) -> v1 !! key = v2 !! key) ->
  from_dict v1 c = from_dict v2 c /\
  ~ In "type" (keys_read c) /\
  forall x : PyVal, from_dict (<["type" := x]> v1) c = from_dict v2 c.
Proof.
  intros H.
  assert (N : ~ In "type" (keys_read c)).
  { destruct c; cbn; intros K; decompose [or] K; try discriminate; assumption. }
  split; [exact (from_dict_agree c v1 v2 H)|]. split; [exact N|].
  intros x. apply from_dict_agree. intros key Hk.
  rewrite lookup_insert_ne; [exact (H key Hk)|].
  intros <-. exact (N Hk).
Qed.

Lemma from_dict_reads_only_its_keys_witness :
  from_dict (MT := Sample.strings)
    (to_dict (MT := Sample.strings) (Sample.changed_event None)) Opened
  = from_dict (MT := Sample.strings)
      (to_dict (MT := Sample.strings) (Sample.opened_event (Sample.dec 1000 (-5)))) Opened /\
  ~ In "type" (keys_read Opened) /\
  forall x : PyVal,
    from_dict (MT := Sample.strings)
      (<["type" := x]> (to_dict (MT := Sample.strings) (Sample.changed_event None))) Opened
    = from_dict (MT := Sample.strings)
        (to_dict (MT := Sample.strings) (Sample.opened_event (Sample.dec 1000 (-5)))) Opened.
Proof.
  apply (from_dict_reads_only_its_keys (MT := Sample.strings) Opened
           (to_dict (MT := Sample.strings) (Sample.changed_event None))
           (to_dict (MT := Sample.strings) (Sample.opened_event (Sample.dec 1000 (-5))))).
  intros key Hk. cbn in Hk.
  decompose [or] Hk; try contradiction; subst key; vm_compute; reflexivity.
Defined.

Section EventEdges.
Context {MT : ModelTypes}.

Ltac read_fields e :=
  rewrite (field_written (PositionEvent.to_dict_c e) "trader_id" (PositionEvent.trader_id e) eq_refl);
  rewrite (field_written (PositionEvent.to_dict_c e) "strategy_id" (PositionEvent.strategy_id e) eq_refl);
  rewrite (field_written (PositionEvent.to_dict_c e) "instrument_id" (PositionEvent.instrument_id e) eq_refl);
  rewrite (field_written (PositionEvent.to_dict_c e) "position_id" (PositionEvent.position_id e) eq_refl);
  rewrite (field_written (PositionEvent.to_dict_c e) "account_id" (PositionEvent.account_id e) eq_refl);
  rewrite (field_written (PositionEvent.to_dict_c e) "from_order" (PositionEvent.from_order e) eq_refl);
  rewrite (field_written (PositionEvent.to_dict_c e) "entry" (PositionEvent.entry e) eq_refl);
  rewrite (field_written (PositionEvent.to_dict_c e) "side" (PositionEvent.side e) eq_refl);
  rewrite (decimal_field_written (PositionEvent.to_dict_c e) "net_qty" (PositionEvent.net_qty e) eq_refl);
  rewrite (field_written (PositionEvent.to_dict_c e) "quantity" (PositionEvent.quantity e) eq_refl);
  rewrite (field_written (PositionEvent.to_dict_c e) "peak_qty" (PositionEvent.peak_qty e) eq_refl);
  rewrite (field_written (PositionEvent.to_dict_c e) "last_qty" (PositionEvent.last_qty e) eq_refl);
  rewrite (field_written (PositionEvent.to_dict_c e) "last_px" (PositionEvent.last_px e) eq_refl);
  rewrite (field_written (PositionEvent.to_dict_c e) "currency" (PositionEvent.currency e) eq_refl);
  rewrite (decimal_field_written (PositionEvent.to_dict_c e) "avg_px_open" (PositionEvent.avg_px_open e) eq_refl).

Lemma changed_zero_close (e : PositionEvent.t) (d : Decimal.t) :
  well_formed e ->
  PositionEvent.class e = Changed ->
  PositionEvent.avg_px_close e = Some d ->
  Decimal.truthy d = false ->
  from_dict (to_dict e) Changed
    = Returned (with_avg_px_close None
                  (with_realized_return
                     (Decimal.rescale 5 (PositionEvent.realized_return e)) e)).
Proof.
  intros (Hts & Htn & Hwf) Hc Ea Hz. unfold to_dict, from_dict. rewrite Hc in *.
  destruct Hwf as (Hside & Htc & Hd).
  unfold PositionChanged.from_dict, PositionChanged.from_dict_c, PositionChanged.to_dict,
    PositionChanged.to_dict_c.
  rewrite (getitem_written (PositionEvent.to_dict_c e) "avg_px_close" VNone)
    by (unfold PositionEvent.to_dict_c; rewrite Ea, Hz; reflexivity).
  cbn [bind py_truthy].
  read_fields e.
  rewrite (decimal_field_written (PositionEvent.to_dict_c e) "realized_points" (PositionEvent.realized_points e) eq_refl).
  rewrite (decimal_field_formatted (PositionEvent.to_dict_c e) "realized_return" (PositionEvent.realized_return e) eq_refl).
  rewrite (field_written (PositionEvent.to_dict_c e) "realized_pnl" (PositionEvent.realized_pnl e) eq_refl).
  rewrite (getitem_written (PositionEvent.to_dict_c e) "ts_opened_ns" (VInt (PositionEvent.ts_opened_ns e)) eq_refl).
  rewrite (field_written (PositionEvent.to_dict_c e) "event_id" (PositionEvent.id e) eq_refl).
  rewrite (getitem_written (PositionEvent.to_dict_c e) "timestamp_ns" (VInt (PositionEvent.timestamp_ns e)) eq_refl).
  cbn [bind]. unfold PositionChanged.__init__.
  rewrite (to_int64_in_range _ Hts), (to_int64_in_range _ Htn). cbn [bind].
  unfold with_avg_px_close, with_realized_return.
  destruct (PositionEvent.side e) eqn:Es'; [contradiction|..];
    simpl; rewrite Hc, Htc, Hd; reflexivity.
Qed.

Lemma closed_zero_close (e : PositionEvent.t) (d : Decimal.t) :
  PositionEvent.class e = Closed ->
  PositionEvent.avg_px_close e = Some d ->
  Decimal.truthy d = false ->
  from_dict (to_dict e) Closed = Raised TypeError.
Proof.
  intros Hc Ea Hz. unfold to_dict, from_dict. rewrite Hc.
  unfold PositionClosed.from_dict, PositionClosed.from_dict_c, PositionClosed.to_dict,
    PositionClosed.to_dict_c.
  read_fields e. cbn [bind].
  unfold decimal_field at 1.
  rewrite (getitem_written (PositionEvent.to_dict_c e) "avg_px_close" VNone)
    by (unfold PositionEvent.to_dict_c; rewrite Ea, Hz; reflexivity).
  reflexivity.
Qed.

Lemma zero_close_entry (e : PositionEvent.t) (d : Decimal.t) :
  PositionEvent.avg_px_close e = Some d ->
  Decimal.truthy d = false ->
  to_dict e !! "avg_px_close" = Some VNone.
Proof.
  intros Ea Hz. unfold to_dict.
  destruct (PositionEvent.class e);
    unfold PositionOpened.to_dict, PositionOpened.to_dict_c,
      PositionChanged.to_dict, PositionChanged.to_dict_c,
      PositionClosed.to_dict, PositionClosed.to_dict_c, PositionEvent.to_dict_c;
    rewrite Ea, Hz; reflexivity.
Qed.

Lemma to_dict_once_decoded (e : PositionEvent.t) :
  to_dict (with_realized_return (Decimal.rescale 5 (PositionEvent.realized_return e)) e)
  = to_dict e.
Proof.
  unfold to_dict, with_realized_return,
    PositionOpened.to_dict, PositionOpened.to_dict_c,
    PositionChanged.to_dict, PositionChanged.to_dict_c,
    PositionClosed.to_dict, PositionClosed.to_dict_c, PositionEvent.to_dict_c.
  cbn [PositionEvent.class PositionEvent.trader_id PositionEvent.strategy_id
       PositionEvent.instrument_id PositionEvent.position_id PositionEvent.account_id
       PositionEvent.from_order PositionEvent.entry PositionEvent.side
       PositionEvent.net_qty PositionEvent.quantity PositionEvent.peak_qty
       PositionEvent.last_qty PositionEvent.last_px PositionEvent.currency
       PositionEvent.avg_px_open PositionEvent.avg_px_close
       PositionEvent.realized_points PositionEvent.realized_return
       PositionEvent.realized_pnl PositionEvent.ts_opened_ns PositionEvent.ts_closed_ns
       PositionEvent.duration_ns PositionEvent.id PositionEvent.timestamp_ns].
  rewrite format_f_rescale. reflexivity.
Qed.

End EventEdges.

(** X19: the truth test on [avg_px_close] in [to_dict] takes a close price of
    zero for no close price.  A PositionChanged event whose close price is
    zero is written with [None] under ["avg_px_close"] and read back without
    a close price. *)
Theorem changed_event_loses_zero_close_price {MT : ModelTypes}
    (e : PositionEvent.t) (d : Decimal.t) :
  well_formed e ->
  PositionEvent.class e = Changed ->
  PositionEvent.avg_px_close e = Some d ->
  Decimal.truthy d = false ->
  to_dict e !! "avg_px_close" = Some VNone /\
  exists e' : PositionEvent.t,
    from_dict (to_dict e) Changed = Returned e' /\
    PositionEvent.avg_px_close e' = None /\
    e' = with_avg_px_close None
           (with_realized_return (Decimal.rescale 5 (PositionEvent.realized_return e)) e).
Proof.
  intros Hw Hc Ea Hz. split; [exact (zero_close_entry e d Ea Hz)|].
  eexists. split; [exact (changed_zero_close e d Hw Hc Ea Hz)|].
  split; reflexivity.
Qed.

Lemma changed_event_loses_zero_close_price_witness :
  to_dict (MT := Sample.strings) (Sample.changed_event (Some (Sample.dec 0 (-5))))
    !! "avg_px_close" = Some VNone /\
  exists e' : PositionEvent.t (MT := Sample.strings),
    from_dict (to_dict (Sample.changed_event (Some (Sample.dec 0 (-5))))) Changed
      = Returned e' /\
    PositionEvent.avg_px_close e' = None /\
    e' = with_avg_px_close None
           (with_realized_return
              (Decimal.rescale 5
                 (PositionEvent.realized_return
                    (Sample.changed_event (Some (Sample.dec 0 (-5))))))
              (Sample.changed_event (Some (Sample.dec 0 (-5))))).
Proof.
  apply (changed_event_loses_zero_close_price (MT := Sample.strings)
           (Sample.changed_event (Some (Sample.dec 0 (-5)))) (Sample.dec 0 (-5))).
  - repeat split; discriminate.
  - reflexivity.
  - reflexivity.
  - reflexivity.
Defined.

(** X20: a PositionClosed event whose close price is zero cannot be read back:
    [to_dict] writes [None] under ["avg_px_close"], and [from_dict] of that
    dictionary raises [TypeError] at [Decimal(None)]. *)
Theorem closed_event_with_zero_close_price_is_not_read_back {MT : ModelTypes}
    (e : PositionEvent.t) (d : Decimal.t) :
  PositionEvent.class e = Closed ->
  PositionEvent.avg_px_close e = Some d ->
  Decimal.truthy d = false ->
  to_dict e !! "avg_px_close" = Some VNone /\
  from_dict (to_dict e) Closed = Raised TypeError.
Proof.
  intros Hc Ea Hz. split.
  - exact (zero_close_entry e d Ea Hz).
  - exact (closed_zero_close e d Hc Ea Hz).
Qed.

Lemma closed_event_with_zero_close_price_is_not_read_back_witness :
  to_dict (MT := Sample.strings)
    (Sample.event Closed PositionSide.FLAT (Some (Sample.dec 0 (-5))) (Sample.dec 1000 (-5))
       1500 500) !! "avg_px_close" = Some VNone /\
  from_dict (MT := Sample.strings)
    (to_dict (Sample.event Closed PositionSide.FLAT (Some (Sample.dec 0 (-5)))
                (Sample.dec 1000 (-5)) 1500 500)) Closed
  = Raised TypeError.
Proof.
  apply (closed_event_with_zero_close_price_is_not_read_back (MT := Sample.strings)
           (Sample.event Closed PositionSide.FLAT (Some (Sample.dec 0 (-5)))
              (Sample.dec 1000 (-5)) 1500 500)
           (Sample.dec 0 (-5))).
  - reflexivity.
  - reflexivity.
  - reflexivity.
Defined.

(** X21: one round trip settles the event.  When [from_dict(to_dict(e))]
    returns [e1], the dictionary of [e1] is the dictionary of [e], and
    [from_dict(to_dict(e1))] returns [e1] itself: the rounding of
    [realized_return] to five places happens once. *)
Theorem second_round_trip_is_exact {MT : ModelTypes} (e : PositionEvent.t) :
  well_formed e ->
  close_price_not_zero e ->
  exists e1 : PositionEvent.t,
    from_dict (to_dict e) (PositionEvent.class e) = Returned e1 /\
    to_dict e1 = to_dict e /\
    from_dict (to_dict e1) (PositionEvent.class e1) = Returned e1.
Proof.
  intros Hw Hz.
  exists (with_realized_return (Decimal.rescale 5 (PositionEvent.realized_return e)) e).
  split; [exact (from_dict_to_dict e Hw Hz)|].
  split; [apply to_dict_once_decoded|].
  rewrite (from_dict_to_dict
             (with_realized_return (Decimal.rescale 5 (PositionEvent.realized_return e)) e)).
  - unfold with_realized_return.
    cbn [PositionEvent.class PositionEvent.trader_id PositionEvent.strategy_id
         PositionEvent.instrument_id PositionEvent.position_id PositionEvent.account_id
         PositionEvent.from_order PositionEvent.entry PositionEvent.side
         PositionEvent.net_qty PositionEvent.quantity PositionEvent.peak_qty
         PositionEvent.last_qty PositionEvent.last_px PositionEvent.currency
         PositionEvent.avg_px_open PositionEvent.avg_px_close
         PositionEvent.realized_points PositionEvent.realized_return
         PositionEvent.realized_pnl PositionEvent.ts_opened_ns PositionEvent.ts_closed_ns
         PositionEvent.duration_ns PositionEvent.id PositionEvent.timestamp_ns].
    rewrite rescale_rescale. reflexivity.
  - exact Hw.
  - exact Hz.
Qed.

Lemma second_round_trip_is_exact_witness :
  exists e1 : PositionEvent.t (MT := Sample.strings),
    from_dict (to_dict (Sample.opened_event (Sample.dec 123456 (-6)))) Opened
      = Returned e1 /\
    to_dict e1 = to_dict (Sample.opened_event (Sample.dec 123456 (-6))) /\
    from_dict (to_dict e1) (PositionEvent.class e1) = Returned e1.
Proof.
  apply (second_round_trip_is_exact (MT := Sample.strings)
           (Sample.opened_event (Sample.dec 123456 (-6)))).
  - repeat split; discriminate.
  - exact I.
Defined.

(** X22: [to_dict] writes the same 25 keys for every event of every class. *)
Theorem to_dict_writes_the_same_keys {MT : ModelTypes} (e : PositionEvent.t) :
  dom (to_dict e) = list_to_set event_keys /\
  NoDup event_keys /\
  length event_keys = 25%nat.
Proof.
  split; [|split].
  - unfold to_dict.
    destruct (PositionEvent.class e);
      unfold PositionOpened.to_dict, PositionOpened.to_dict_c,
        PositionChanged.to_dict, PositionChanged.to_dict_c,
        PositionClosed.to_dict, PositionClosed.to_dict_c, PositionEvent.to_dict_c;
      rewrite !dom_insert_L, dom_empty_L; reflexivity.
  - apply (bool_decide_unpack _). vm_compute. reflexivity.
  - reflexivity.
Qed.

(** X23: whatever constructor, factory or dictionary an event came from, its
    fields have the shape of its class: a PositionOpened has no close price
    and its closing time and duration are 0; a PositionChanged has closing
    time and duration 0; a PositionClosed has a close price; and the
    timestamps are within the range of [int64]. *)
Theorem built_events_have_the_shape_of_their_class {MT : ModelTypes}
    (e : PositionEvent.t) :
  built e ->
  in_int64 (PositionEvent.ts_opened_ns e) = true /\
  in_int64 (PositionEvent.ts_closed_ns e) = true /\
  in_int64 (PositionEvent.duration_ns e) = true /\
  in_int64 (PositionEvent.timestamp_ns e) = true /\
  match PositionEvent.class e with
  | Opened =>
    PositionEvent.avg_px_close e = None /\
    PositionEvent.ts_closed_ns e = 0 /\ PositionEvent.duration_ns e = 0
  | Changed =>
    PositionEvent.ts_closed_ns e = 0 /\ PositionEvent.duration_ns e = 0
  | Closed =>
    exists d : Decimal.t, PositionEvent.avg_px_close e = Some d
  end.
Proof.
  intros B. apply built_well_formed in B. destruct B as (H1 & H2 & H3).
  destruct (PositionEvent.class e).
  - destruct H3 as (_ & Hc & Ht & Hd). rewrite Ht, Hd. repeat split; assumption.
  - destruct H3 as (_ & Ht & Hd). rewrite Ht, Hd. repeat split; assumption.
  - destruct H3 as (_ & Hc & Ht & Hd). repeat split; try assumption.
    destruct (PositionEvent.avg_px_close e) as [d|]; [exists d; reflexivity|contradiction].
Qed.

Lemma built_events_have_the_shape_of_their_class_witness :
  in_int64 (PositionEvent.ts_opened_ns (MT := Sample.strings)
              (Sample.opened_event (Sample.dec 1000 (-5)))) = true /\
  in_int64 (PositionEvent.ts_closed_ns (MT := Sample.strings)
              (Sample.opened_event (Sample.dec 1000 (-5)))) = true /\
  in_int64 (PositionEvent.duration_ns (MT := Sample.strings)
              (Sample.opened_event (Sample.dec 1000 (-5)))) = true /\
  in_int64 (PositionEvent.timestamp_ns (MT := Sample.strings)
              (Sample.opened_event (Sample.dec 1000 (-5)))) = true /\
  PositionEvent.avg_px_close (MT := Sample.strings)
    (Sample.opened_event (Sample.dec 1000 (-5))) = None /\
  PositionEvent.ts_closed_ns (MT := Sample.strings)
    (Sample.opened_event (Sample.dec 1000 (-5))) = 0 /\
  PositionEvent.duration_ns (MT := Sample.strings)
    (Sample.opened_event (Sample.dec 1000 (-5))) = 0.
Proof.
  apply (built_events_have_the_shape_of_their_class (MT := Sample.strings)
           (Sample.opened_event (Sample.dec 1000 (-5)))).
  apply (built_from_dict (MT := Sample.strings) Opened _
           (to_dict (MT := Sample.strings) (Sample.opened_event (Sample.dec 1000 (-5))))).
  vm_compute. reflexivity.
Defined.

(** ** IndicatorUpdater and BarDataWrangler *)

Lemma param_map_values (param name : string) :
  IndicatorUpdater.param_map !! param = Some name ->
  In name ["bid"; "ask"; "close"; "open"; "high"; "low"; "timestamp"].
Proof.
  unfold IndicatorUpdater.param_map.
  repeat (rewrite lookup_insert_Some; intros [[_ <-]|[_ H]]; [cbn; tauto|revert H]).
  rewrite lookup_empty. discriminate.
Qed.

Lemma read_parameters_returned (parameters : list string) :
  forall (include_self : bool) (input_params : list string) (state : bool * list string),
    IndicatorUpdater.read_parameters parameters include_self input_params = Returned state ->
    exists names : list string,
      snd state = input_params ++ names /\
      Forall (fun name => In name ["bid"; "ask"; "close"; "open"; "high"; "low"; "timestamp"])
        names /\
      length names
        = length (List.filter (fun param => negb (String.eqb param "self")) parameters) /\
      fst state = include_self || existsb (fun param => String.eqb param "self") parameters /\
      Forall (fun param => param = "self" \/ is_Some (IndicatorUpdater.param_map !! param))
        parameters.
Proof.
  induction parameters as [|param rest IH]; intros include_self input_params state H;
    cbn [IndicatorUpdater.read_parameters] in H.
  - injection H as <-. exists []. cbn. rewrite app_nil_r, orb_false_r.
    repeat split; constructor.
  - cbn [List.filter existsb]. destruct (String.eqb param "self") eqn:E.
    + apply IH in H as (names & H1 & H2 & H3 & H4 & H5).
      exists names. cbn [negb]. split; [exact H1|]. split; [exact H2|].
      split; [exact H3|]. split.
      * rewrite H4. cbn [orb]. rewrite orb_true_r. reflexivity.
      * constructor; [left; apply String.eqb_eq; exact E|exact H5].
    + destruct (IndicatorUpdater.param_map !! param) as [name|] eqn:L; [|discriminate].
      apply IH in H as (names & H1 & H2 & H3 & H4 & H5).
      exists (name :: names). cbn [negb length orb].
      split; [rewrite H1, <- app_assoc; reflexivity|].
      split; [constructor; [exact (param_map_values param name L)|exact H2]|].
      split; [rewrite H3; reflexivity|]. split; [exact H4|].
      constructor; [right; rewrite L; eauto|exact H5].
Qed.

Lemma read_parameters_raised (parameters : list string) :
  forall (include_self : bool) (input_params : list string),
    Exists (fun param => param <> "self" /\ IndicatorUpdater.param_map !! param = None)
      parameters ->
    IndicatorUpdater.read_parameters parameters include_self input_params = Raised KeyError.
Proof.
  induction parameters as [|param rest IH]; intros include_self input_params H.
  - inversion H.
  - cbn [IndicatorUpdater.read_parameters].
    destruct (String.eqb param "self") eqn:E.
    + apply String.eqb_eq in E. apply IH. inversion H as [? ? [Hn _]|]; subst; [|assumption].
      contradiction.
    + destruct (IndicatorUpdater.param_map !! param) as [name|] eqn:L; [|reflexivity].
      apply IH. inversion H as [? ? [_ Hn]|]; subst; [|assumption]. congruence.
Qed.

(** X24: an [IndicatorUpdater] is constructed only for an input method whose
    every parameter is [self] or a key of [param_map]: any other name, and
    [volume] is one, raises [KeyError].  When it is constructed, [self] is
    not among the input parameters, every input parameter is one of the
    attributes bid, ask, close, open, high, low and timestamp, and the list
    of outputs is not empty. *)
Theorem indicator_parameters_are_mapped
    (parameters : list string) (outputs : option (list string)) :
  (forall u : IndicatorUpdater.t,
     IndicatorUpdater.__init__ parameters outputs = Returned u ->
     Forall (fun param => param = "self" \/ is_Some (IndicatorUpdater.param_map !! param))
       parameters /\
     Forall (fun name => In name ["bid"; "ask"; "close"; "open"; "high"; "low"; "timestamp"])
       (IndicatorUpdater._input_params u) /\
     length (IndicatorUpdater._input_params u)
       = length (List.filter (fun param => negb (String.eqb param "self")) parameters) /\
     IndicatorUpdater._include_self u
       = existsb (fun param => String.eqb param "self") parameters /\
     IndicatorUpdater._outputs u <> []) /\
  (Exists (fun param => param <> "self" /\ IndicatorUpdater.param_map !! param = None)
     parameters ->
   IndicatorUpdater.__init__ parameters outputs = Raised KeyError) /\
  IndicatorUpdater.param_map !! IndicatorUpdater._VOLUME = None.
Proof.
  split; [|split].
  - intros u H. unfold IndicatorUpdater.__init__ in H.
    apply bind_returned in H as (state & H & Hu).
    apply read_parameters_returned in H as (names & H1 & H2 & H3 & H4 & H5).
    injection Hu as <-. cbn [IndicatorUpdater._input_params IndicatorUpdater._include_self
      IndicatorUpdater._outputs]. rewrite H1, H4. cbn [app orb].
    split; [exact H5|]. split; [exact H2|]. split; [exact H3|]. split; [reflexivity|].
    destruct outputs as [[|o outputs]|]; discriminate.
  - intros H. unfold IndicatorUpdater.__init__.
    rewrite (read_parameters_raised parameters false [] H). reflexivity.
  - reflexivity.
Qed.

Section Slices.
Context {A : Type}.

Lemma py_slice_from (index : Z) (rows : list A) :
  0 <= index ->
  py_slice (Some index) None rows = skipn (Z.to_nat index) rows.
Proof.
  intros H. unfold py_slice, slice_bound.
  replace (index <? 0) with false by (symmetry; apply Z.ltb_ge; exact H).
  destruct (Z.le_gt_cases index (Z.of_nat (length rows))) as [Hle|Hgt].
  - rewrite Z.min_l by exact Hle.
    apply firstn_all2. rewrite length_skipn. lia.
  - rewrite Z.min_r by lia. rewrite Nat2Z.id, Z.sub_diag. cbn [Z.to_nat firstn].
    rewrite skipn_all. symmetry. apply skipn_all2. lia.
Qed.

Lemma py_slice_all_but_last (rows : list A) :
  py_slice (Some 0) (Some (-1)) rows = removelast rows.
Proof.
  unfold py_slice, slice_bound. cbn [Z.ltb Z.compare].
  rewrite Z.min_l by lia. change (Z.to_nat 0) with O. rewrite skipn_O, Z.sub_0_r.
  destruct rows as [|a rows _] using rev_ind.
  - reflexivity.
  - rewrite removelast_last, length_app. cbn [length].
    replace (Z.to_nat (Z.max (-1 + Z.of_nat (length rows + 1)) 0)) with (length rows) by lia.
    rewrite firstn_app, Nat.sub_diag, firstn_all. cbn [firstn]. apply app_nil_r.
Qed.

Lemma py_slice_between (start stop : Z) (rows : list A) :
  0 <= start <= stop ->
  stop <= Z.of_nat (length rows) ->
  py_slice (Some start) (Some stop) rows
    = firstn (Z.to_nat (stop - start)) (skipn (Z.to_nat start) rows).
Proof.
  intros H1 H2. unfold py_slice, slice_bound.
  replace (start <? 0) with false by (symmetry; apply Z.ltb_ge; lia).
  replace (stop <? 0) with false by (symmetry; apply Z.ltb_ge; lia).
  rewrite !Z.min_l by lia. reflexivity.
Qed.

End Slices.

(** X25: with its default arguments ([start=0], [end=-1])
    [build_databars_range] leaves the last row out: it returns the bars of
    [build_databars_all] but the last one. *)
Theorem default_range_leaves_last_row_out {DM : DoubleModel} (self : BarDataWrangler.t) :
  BarDataWrangler.build_databars_range 0 (-1) self
    = Condition.Passed (removelast (BarDataWrangler.build_databars_all self)) /\
  (BarDataWrangler._data self <> [] ->
   exists bars : list DataBar.t,
     BarDataWrangler.build_databars_range 0 (-1) self = Condition.Passed bars /\
     S (length bars) = length (BarDataWrangler.build_databars_all self)).
Proof.
  assert (E : BarDataWrangler.build_databars_range 0 (-1) self
              = Condition.Passed (removelast (BarDataWrangler.build_databars_all self))).
  { change (BarDataWrangler.build_databars_range 0 (-1) self)
      with (Condition.Passed
              (BarDataWrangler.databars_of self
                 (py_slice (Some 0) (Some (-1)) (BarDataWrangler._data self)))).
    unfold BarDataWrangler.build_databars_all, BarDataWrangler.databars_of.
    rewrite py_slice_all_but_last. f_equal.
    induction (BarDataWrangler._data self) as [|r [|r' rest] IH]; [reflexivity..|].
    change (removelast (r :: r' :: rest)) with (r :: removelast (r' :: rest)).
    cbn [map]. cbn [map] in IH. rewrite IH. reflexivity. }
  split; [exact E|]. intros Hne.
  eexists. split; [exact E|].
  unfold BarDataWrangler.build_databars_all, BarDataWrangler.databars_of.
  destruct (BarDataWrangler._data self) as [|r rest] using rev_ind; [contradiction|].
  rewrite map_app. cbn [map]. rewrite removelast_last, length_app. cbn [length]. lia.
Qed.

Lemma int_argument_in_range (value : Z) :
  INT_MIN <= value <= INT_MAX ->
  Condition.int_argument value = Condition.Passed value.
Proof.
  intros H. unfold Condition.int_argument, in_c_int.
  rewrite (proj2 (Z.leb_le _ _) (proj1 H)), (proj2 (Z.leb_le _ _) (proj2 H)). reflexivity.
Qed.

Lemma int_argument_overflow (value : Z) :
  value < INT_MIN \/ INT_MAX < value ->
  Condition.int_argument value = Condition.ArgumentOverflow.
Proof.
  intros H. unfold Condition.int_argument, in_c_int.
  destruct H as [H|H].
  - rewrite (proj2 (Z.leb_gt _ _) H). reflexivity.
  - rewrite (proj2 (Z.leb_gt _ _) H), andb_false_r. reflexivity.
Qed.

(** X26: [build_databars_from] and [build_databars_range] return runs of the
    bars of [build_databars_all]: from an index that is not negative, the
    bars from that position on; for a range within the rows, the bars of the
    range, and the range and what follows it make up what [from] returns
    (the bounds being within the range of a C [int]).  A negative start
    within the range of a C [int] fails the [Condition] check; an argument
    outside that range raises [OverflowError] before any check. *)
Theorem databars_are_runs_of_all {DM : DoubleModel}
    (self : BarDataWrangler.t) (start stop : Z) :
  0 <= start <= stop ->
  stop <= Z.of_nat (length (BarDataWrangler._data self)) ->
  stop <= INT_MAX ->
  BarDataWrangler.build_databars_from start self
    = Condition.Passed (skipn (Z.to_nat start) (BarDataWrangler.build_databars_all self)) /\
  BarDataWrangler.build_databars_range start stop self
    = Condition.Passed
        (firstn (Z.to_nat (stop - start))
           (skipn (Z.to_nat start) (BarDataWrangler.build_databars_all self))) /\
  (forall first rest : list DataBar.t,
     BarDataWrangler.build_databars_range start stop self = Condition.Passed first ->
     BarDataWrangler.build_databars_from stop self = Condition.Passed rest ->
     BarDataWrangler.build_databars_from start self = Condition.Passed (first ++ rest)) /\
  (forall index : Z,
     INT_MIN <= index < 0 ->
     BarDataWrangler.build_databars_from index self = Condition.ConditionFailed /\
     BarDataWrangler.build_databars_range index stop self = Condition.ConditionFailed) /\
  (forall index : Z,
     index < INT_MIN \/ INT_MAX < index ->
     BarDataWrangler.build_databars_from index self = Condition.ArgumentOverflow /\
     BarDataWrangler.build_databars_range index stop self = Condition.ArgumentOverflow /\
     BarDataWrangler.build_databars_range start index self = Condition.ArgumentOverflow).
Proof.
  intros H1 H2 H3.
  assert (Hmin : INT_MIN <= 0) by (unfold INT_MIN; lia).
  assert (F : forall i : Z, 0 <= i <= INT_MAX ->
            BarDataWrangler.build_databars_from i self
            = Condition.Passed
                (skipn (Z.to_nat i) (BarDataWrangler.build_databars_all self))).
  { intros i Hi.
    unfold BarDataWrangler.build_databars_from, BarDataWrangler.build_databars_all,
      BarDataWrangler.databars_of, Condition.not_negative_int.
    rewrite int_argument_in_range by lia. cbn [Condition.and_then].
    replace (i <? 0) with false by (symmetry; apply Z.ltb_ge; lia).
    cbn [Condition.and_then]. rewrite py_slice_from by lia.
    rewrite skipn_map. reflexivity. }
  assert (R : BarDataWrangler.build_databars_range start stop self
              = Condition.Passed
                  (firstn (Z.to_nat (stop - start))
                     (skipn (Z.to_nat start) (BarDataWrangler.build_databars_all self)))).
  { unfold BarDataWrangler.build_databars_range, BarDataWrangler.build_databars_all,
      BarDataWrangler.databars_of, Condition.not_negative_int.
    rewrite !int_argument_in_range by lia. cbn [Condition.and_then].
    replace (start <? 0) with false by (symmetry; apply Z.ltb_ge; lia).
    cbn [Condition.and_then]. rewrite py_slice_between by assumption.
    rewrite skipn_map, firstn_map. reflexivity. }
  split; [apply F; lia|]. split; [exact R|]. split; [|split].
  - intros first rest Hf Hr. rewrite R in Hf. rewrite F in Hr by lia.
    injection Hf as <-. injection Hr as <-. rewrite F by lia. f_equal.
    replace (Z.to_nat stop) with (Z.to_nat (stop - start) + Z.to_nat start)%nat by lia.
    rewrite <- skipn_skipn. symmetry. apply firstn_skipn.
  - intros index Hi.
    unfold BarDataWrangler.build_databars_from, BarDataWrangler.build_databars_range,
      Condition.not_negative_int.
    rewrite (int_argument_in_range index) by (unfold INT_MAX; lia).
    rewrite (int_argument_in_range stop) by lia.
    cbn [Condition.and_then].
    rewrite (proj2 (Z.ltb_lt _ _) (proj2 Hi)). split; reflexivity.
  - intros index Hi.
    unfold BarDataWrangler.build_databars_from, BarDataWrangler.build_databars_range.
    rewrite (int_argument_overflow index Hi).
    rewrite (int_argument_in_range start) by lia.
    repeat split.
Qed.

Lemma databars_are_runs_of_all_witness :
  BarDataWrangler.build_databars_from 1 Sample.wrangler
    = Condition.Passed
        (skipn (Z.to_nat 1) (BarDataWrangler.build_databars_all Sample.wrangler)) /\
  BarDataWrangler.build_databars_range 1 2 Sample.wrangler
    = Condition.Passed
        (firstn (Z.to_nat (2 - 1))
           (skipn (Z.to_nat 1) (BarDataWrangler.build_databars_all Sample.wrangler))) /\
  (forall first rest : list (DataBar.t (DM := Sample.rationals)),
     BarDataWrangler.build_databars_range 1 2 Sample.wrangler = Condition.Passed first ->
     BarDataWrangler.build_databars_from 2 Sample.wrangler = Condition.Passed rest ->
     BarDataWrangler.build_databars_from 1 Sample.wrangler
       = Condition.Passed (first ++ rest)) /\
  (forall index : Z,
     INT_MIN <= index < 0 ->
     BarDataWrangler.build_databars_from index Sample.wrangler
       = Condition.ConditionFailed /\
     BarDataWrangler.build_databars_range index 2 Sample.wrangler
       = Condition.ConditionFailed) /\
  (forall index : Z,
     index < INT_MIN \/ INT_MAX < index ->
     BarDataWrangler.build_databars_from index Sample.wrangler
       = Condition.ArgumentOverflow /\
     BarDataWrangler.build_databars_range index 2 Sample.wrangler
       = Condition.ArgumentOverflow /\
     BarDataWrangler.build_databars_range 1 index Sample.wrangler
       = Condition.ArgumentOverflow).
Proof.
  apply (databars_are_runs_of_all (DM := Sample.rationals) Sample.wrangler 1 2).
  - lia.
  - simpl. lia.
  - unfold INT_MAX. lia.
Defined.

(** ** Events: what the five places cost *)

Lemma ten_power_pos (e : Z) : (0 < Qpower (10 # 1) e)%Q.
Proof. apply Qpower_0_lt. reflexivity. Qed.

Lemma ten_power_split (t k : Z) :
  0 <= k ->
  (Qpower (10 # 1) (t + k) == Qpower (10 # 1) t * inject_Z (10 ^ k))%Q.
Proof.
  intros Hk. rewrite Qpower_plus by discriminate.
  rewrite (Zpower_Qpower 10 k Hk). reflexivity.
Qed.

(** Rounding half to even moves the coefficient by at most half a unit. *)
Lemma rounding_step (c unit : N) :
  (0 < unit)%N ->
  let q := (c / unit)%N in
  let r := (c mod unit)%N in
  let up := match (2 * r ?= unit)%N with
            | Gt => true
            | Eq => N.odd q
            | Lt => false
            end in
  2 * Z.abs (Z.of_N (if up then q + 1 else q)%N * Z.of_N unit - Z.of_N c) <= Z.of_N unit.
Proof.
  intros Hu q r up.
  assert (Hc : c = (unit * q + r)%N) by (apply N.div_mod'; lia).
  assert (Hr : (r < unit)%N) by (apply N.mod_lt; lia).
  subst up. destruct (N.compare_spec (2 * r) unit) as [E|L|G].
  - destruct (N.odd q); lia.
  - lia.
  - lia.
Qed.

Lemma rescale_error (places : N) (d : Decimal.t) :
  (Qabs (Decimal.to_Q (Decimal.rescale places d) - Decimal.to_Q d)
   <= (1 # 2) * Qpower (10 # 1) (- Z.of_N places))%Q.
Proof.
  destruct d as [s c e]. unfold Decimal.rescale.
  cbn [Decimal.exponent Decimal.sign Decimal.coefficient].
  set (t := - Z.of_N places).
  destruct (Z.leb_spec t e) as [Hle|Hlt].
  - (* padded with zeros: the value is the same *)
    assert (E : (Decimal.to_Q (Decimal.mk s (c * 10 ^ Z.to_N (e - t)) t)
                 == Decimal.to_Q (Decimal.mk s c e))%Q).
    { unfold Decimal.to_Q. cbn [Decimal.exponent Decimal.sign Decimal.coefficient].
      assert (M : (inject_Z (Z.of_N (c * 10 ^ Z.to_N (e - t))) * Qpower (10 # 1) t
                   == inject_Z (Z.of_N c) * Qpower (10 # 1) e)%Q).
      { replace e with (t + (e - t)) at 2 by lia.
        rewrite ten_power_split by lia.
        rewrite N2Z.inj_mul, N2Z.inj_pow, Z2N.id by lia.
        rewrite inject_Z_mult. change (Z.of_N 10) with 10. ring. }
      destruct s; rewrite M; reflexivity. }
    rewrite E. setoid_replace (Decimal.to_Q (Decimal.mk s c e) - Decimal.to_Q (Decimal.mk s c e))%Q
      with 0%Q using relation Qeq by ring.
    cbn [Qabs Z.abs]. apply Qmult_le_0_compat; [discriminate|].
    apply Qlt_le_weak, ten_power_pos.
  - set (unit := (10 ^ Z.to_N (t - e))%N).
    assert (Hu : (0 < unit)%N).
    { unfold unit. apply N.neq_0_lt_0. apply N.pow_nonzero. discriminate. }
    pose proof (rounding_step c unit Hu) as R. cbn zeta in R.
    set (q' := (if match (2 * (c mod unit) ?= unit)%N with
                   | Eq => N.odd (c / unit)
                   | Lt => false
                   | Gt => true
                   end then c / unit + 1 else c / unit)%N) in *.
    assert (Hunit : Z.of_N unit = 10 ^ (t - e)).
    { unfold unit. rewrite N2Z.inj_pow, Z2N.id by lia. reflexivity. }
    assert (P : (Qpower (10 # 1) t == Qpower (10 # 1) e * inject_Z (Z.of_N unit))%Q).
    { replace t with (e + (t - e)) at 1 by lia.
      rewrite ten_power_split by lia. rewrite Hunit. reflexivity. }
    set (D := Z.of_N q' * Z.of_N unit - Z.of_N c) in *.
    assert (E : (Decimal.to_Q (Decimal.mk s q' t) - Decimal.to_Q (Decimal.mk s c e)
                 == (if s then - inject_Z D else inject_Z D) * Qpower (10 # 1) e)%Q).
    { unfold Decimal.to_Q. cbn [Decimal.exponent Decimal.sign Decimal.coefficient].
      unfold D, Zminus. rewrite inject_Z_plus, inject_Z_opp, inject_Z_mult.
      destruct s; rewrite P; ring. }
    rewrite E, Qabs_Qmult.
    rewrite (Qabs_pos (Qpower (10 # 1) e)) by (apply Qlt_le_weak, ten_power_pos).
    assert (A : (Qabs (if s then - inject_Z D else inject_Z D) == inject_Z (Z.abs D))%Q).
    { destruct s; [rewrite Qabs_opp|]; reflexivity. }
    rewrite A, P.
    setoid_replace ((1 # 2) * (Qpower (10 # 1) e * inject_Z (Z.of_N unit)))%Q
      with (((1 # 2) * inject_Z (Z.of_N unit)) * Qpower (10 # 1) e)%Q
      using relation Qeq by ring.
    apply Qmult_le_compat_r; [|apply Qlt_le_weak, ten_power_pos].
    unfold Qle. cbn. lia.
Qed.

(** X27: the five places cost at most half a unit in the fifth place: the
    [realized_return] read back by [from_dict(to_dict(e))] has exponent -5
    and differs from the event's by at most 0.000005. *)
Theorem realized_return_is_off_by_half_a_unit_at_most {MT : ModelTypes}
    (e : PositionEvent.t) :
  well_formed e ->
  close_price_not_zero e ->
  exists e' : PositionEvent.t,
    from_dict (to_dict e) (PositionEvent.class e) = Returned e' /\
    Decimal.exponent (PositionEvent.realized_return e') = -5 /\
    (Qabs (Decimal.to_Q (PositionEvent.realized_return e')
           - Decimal.to_Q (PositionEvent.realized_return e))
     <= 5 # 1000000)%Q.
Proof.
  intros Hw Hz. eexists. split; [exact (from_dict_to_dict e Hw Hz)|].
  cbn [PositionEvent.realized_return]. split.
  - unfold Decimal.rescale.
    destruct (- Z.of_N 5 <=? Decimal.exponent (PositionEvent.realized_return e));
      reflexivity.
  - eapply Qle_trans; [apply rescale_error|].
    unfold Qle. apply Z.leb_le. vm_compute. reflexivity.
Qed.

Lemma realized_return_is_off_by_half_a_unit_at_most_witness :
  exists e' : PositionEvent.t (MT := Sample.strings),
    from_dict (to_dict (Sample.opened_event (Sample.dec 123456 (-6)))) Opened = Returned e' /\
    Decimal.exponent (PositionEvent.realized_return e') = -5 /\
    (Qabs (Decimal.to_Q (PositionEvent.realized_return e')
           - Decimal.to_Q (Sample.dec 123456 (-6)))
     <= 5 # 1000000)%Q.
Proof.
  apply (realized_return_is_off_by_half_a_unit_at_most (MT := Sample.strings)
           (Sample.opened_event (Sample.dec 123456 (-6)))).
  - repeat split; discriminate.
  - exact I.
Defined.

(** ** Bars: the close of a bar at mid prices *)

(** X28: for a reachable builder whose price type is MID and every tick
    sequence ending in a tick [tick], the updates all return and the bar
    then built closes at [Price(m)], what the constructor of [Price] makes
    of the exact midpoint [m = (bid + ask) / 2] of [tick].  The builder
    hands the constructor that one number and no precision, and reads none
    off the bar specification: a rounding, if there is one, is the
    constructor's own. *)
Theorem mid_bar_closes_at_last_midpoint {PM : PriceModel}
    (b : BarBuilder.t) (ticks : list Tick.t) (tick : Tick.t) (close_time : option Z) :
  reachable b ->
  BarSpecification.price_type (BarBuilder.bar_spec b) = PriceType.MID ->
  exists b' : BarBuilder.t,
    BarBuilder.update_all (ticks ++ [tick]) b = (Returned tt, b') /\
    Bar.close (fst (BarBuilder.build close_time b'))
      = Some (Price_new ((Price_value (Tick.bid tick) + Price_value (Tick.ask tick)) / 2)%Q).
Proof.
  intros R M. apply reachable_well_kept in R.
  assert (Hs : supported (BarSpecification.price_type (BarBuilder.bar_spec b)) = true)
    by (rewrite M; reflexivity).
  destruct (update_all_returns ticks b R Hs) as (b1 & U1 & W1 & E1).
  assert (Hp : BarBuilder._get_price b1 tick
               = Returned (Price_new ((Price_value (Tick.bid tick)
                                       + Price_value (Tick.ask tick)) / 2)%Q)).
  { unfold BarBuilder._get_price. rewrite E1, M. reflexivity. }
  destruct (update_returns b1 tick _ W1 Hp) as (b' & U & C & _).
  exists b'. split.
  - rewrite update_all_app, U1. cbn [BarBuilder.update_all]. rewrite U. reflexivity.
  - simpl. exact C.
Qed.

Lemma mid_bar_closes_at_last_midpoint_witness :
  exists b' : BarBuilder.t (PM := Sample.five_places),
    BarBuilder.update_all ([Sample.tick 10 12 5; Sample.tick 11 14 6] ++ [Sample.tick 20 (41 # 2) 7])
      (BarBuilder.__init__ Sample.mid_ticks false) = (Returned tt, b') /\
    Bar.close (fst (BarBuilder.build None b'))
      = Some (Sample.round5 ((20 + (41 # 2)) / 2)%Q).
Proof.
  apply (mid_bar_closes_at_last_midpoint (PM := Sample.five_places)
           (BarBuilder.__init__ Sample.mid_ticks false)
           [Sample.tick 10 12 5; Sample.tick 11 14 6] (Sample.tick 20 (41 # 2) 7) None).
  - apply reachable_init.
  - reflexivity.
Defined.
